(** * Business Strategy Simulator: a shallow embedding of the turn loops

    The repository holds five variants of one turn-based simulator:
    - [V1]  BusinessStrategySimulator_001.py  (one competitor, EnhancedCompetitorAI)
    - [V2]  BusinessStrategySimulator_002.py  (two competitors, external events)
    - [V3]  BusinessStrategySimulator_003.py  (stock portfolio, simulated prices)
    - [V5]  BusinessStrategySimulator_005.py  (stock portfolio, live quotes)
    - BusinessStrategySimulator_006.py        (chess phases; only its AI is embedded)

    Conventions of the embedding.
    - Python [int] is [Z]; Python [float] is an exact rational [Q], brought
      to lowest terms by [Qred] whenever it is stored in an attribute.
      Rounding errors of binary floating point are not modelled: every
      statement below is about exact arithmetic.
    - The module-level generator of [random] is a stream of raw 53-bit draws
      together with a read position; [random.random()] reads one draw [k] and
      returns [k / 2^53].
    - A method that mutates [self] is a computation in a state-and-exception
      monad over the whole GUI object; a Python exception is [Raise e] and
      leaves the mutations done so far in place.
    - [self.log] appends a structured entry (template, arguments, event type);
      widget updates and chart drawing do not touch the model state and are
      left out. *)

From Stdlib Require Import ZArith QArith Qround List String Ascii Bool Lia Lqa.
Import ListNotations.

Set Implicit Arguments.

(** ** Python numbers *)

Module Py.

Definition Z2Q (z : Z) : Q := inject_Z z.

(** [int(x)] on a float: truncation toward zero. *)
Definition int (x : Q) : Z := Z.quot (Qnum x) (Zpos (Qden x)).

Definition fltb (x y : Q) : bool := negb (Qle_bool y x).
Definition fleb (x y : Q) : bool := Qle_bool x y.
Definition feqb (x y : Q) : bool := Qeq_bool x y.

(** [max(a, b)] keeps [a] unless [b > a]; [min(a, b)] keeps [a] unless [b < a]. *)
Definition fmax (a b : Q) : Q := if fltb a b then b else a.
Definition fmin (a b : Q) : Q := if fltb b a then b else a.

Definition zmax (a b : Z) : Z := if (a <? b)%Z then b else a.
Definition zmin (a b : Z) : Z := if (b <? a)%Z then b else a.

(** [sum(...)] of ints and of floats. *)
Definition zsum (l : list Z) : Z := fold_left Z.add l 0%Z.
Definition fsum (l : list Q) : Q := fold_left Qplus l 0%Q.

(** [round(x, 2)]: nearest multiple of 1/100, ties to even. *)
Definition round_half_even (x : Q) : Z :=
  let f := Qfloor x in
  let r := (x - inject_Z f)%Q in
  match Qcompare r (1 # 2) with
  | Lt => f
  | Gt => (f + 1)%Z
  | Eq => if Z.even f then f else (f + 1)%Z
  end.
Definition round2 (x : Q) : Q := Qred (inject_Z (round_half_even (x * 100)) / 100).

(** Exceptions that the embedded code can raise. *)
Inductive exn : Type :=
| ZeroDivisionError | TypeError | ValueError | IndexError | AssertionError
| TclError.

Inductive result (A : Type) : Type :=
| Ok (a : A)
| Raise (e : exn).
Arguments Ok {A} a.
Arguments Raise {A} e.

End Py.
Import Py.

Declare Scope py_scope.
Delimit Scope py_scope with py.
Infix "<?" := fltb : Q_scope.
Infix "<=?" := fleb : Q_scope.
Infix "=?" := feqb : Q_scope.

(** ** The generator and the monad of methods *)

Module Monad.

(** The world of a run: the generator (stream and position) and the GUI
    object [G] whose methods are being run. *)
Record World (G : Type) : Type := mkWorld {
  rng  : nat -> N;
  rpos : nat;
  gui  : G
}.
Arguments mkWorld {G} rng rpos gui.

Definition M (G A : Type) : Type := World G -> result A * World G.

Definition ret {G A} (a : A) : M G A := fun w => (Ok a, w).
Definition bind {G A B} (m : M G A) (k : A -> M G B) : M G B :=
  fun w => match m w with
           | (Ok a, w') => k a w'
           | (Raise e, w') => (Raise e, w')
           end.
Definition raise {G A} (e : exn) : M G A := fun w => (Raise e, w).
Definition get {G} : M G G := fun w => (Ok (gui w), w).
Definition put {G} (g : G) : M G unit :=
  fun w => (Ok tt, mkWorld (rng w) (rpos w) g).
Definition modify {G} (f : G -> G) : M G unit :=
  fun w => (Ok tt, mkWorld (rng w) (rpos w) (f (gui w))).
Definition of_result {G A} (r : result A) : M G A := fun w => (r, w).

(** [try: m  except Exception: h] *)
Definition try_except {G A} (m : M G A) (h : exn -> M G A) : M G A :=
  fun w => match m w with
           | (Ok a, w') => (Ok a, w')
           | (Raise e, w') => h e w'
           end.

(** One raw draw pushed to the unit interval: [k / 2^53]. *)
Definition unit_interval (k : N) : Q :=
  Qred (Z.of_N (k mod 2 ^ 53) # 2 ^ 53).

(** [random.random()] *)
Definition random {G} : M G Q :=
  fun w => (Ok (unit_interval (rng w (rpos w))),
            mkWorld (rng w) (S (rpos w)) (gui w)).

(** [if b: m] *)
Definition when {G} (b : bool) (m : M G unit) : M G unit :=
  if b then m else ret tt.

(** [for a in l: body(a)] *)
Fixpoint for_each {G A} (l : list A) (body : A -> M G unit) : M G unit :=
  match l with
  | [] => ret tt
  | a :: l' => bind (body a) (fun _ => for_each l' body)
  end.

End Monad.
Import Monad.

Notation "x <- m ;; k" := (bind m (fun x => k))
  (at level 61, m at next level, right associativity) : py_scope.
Notation "' pat <- m ;; k" := (bind m (fun x => match x with pat => k end))
  (at level 61, pat pattern, m at next level, right associativity) : py_scope.
Notation "m ;; k" := (bind m (fun _ => k))
  (at level 61, right associativity) : py_scope.

Module Random.

(** [random.uniform(a, b)] is [a + (b - a) * random()]. *)
Definition uniform {G} (a b : Q) : M G Q :=
  (r <- random ;; ret (a + (b - a) * r)%Q)%py.

(** [random.choice(seq)]: the draw picks the index [floor(r * len(seq))];
    [d] is only returned for an empty [seq], which no call site passes. *)
Definition choice {G A} (seq : list A) (d : A) : M G A :=
  (r <- random ;;
   ret (nth (Z.to_nat (Py.int (r * Z2Q (Z.of_nat (List.length seq)))%Q)) seq d))%py.

End Random.
Import Random.

(** ** Free-text numeric input

    [parse_invest_dist] (variants 001, 002) and [parse_allocation] (003, 005,
    006) are the same code up to the default list and the padded width:
<<
    try:    result = [int(x) for x in dist.strip().split('/')]
    except: result = DEFAULT
    total = sum(result)
    if total != 100 and total > 0:
        ratio = [x*100//total for x in result]
        return ratio + [0]*(WIDTH - len(ratio))
    return result + [0]*(WIDTH - len(result))
>>
    Strings are ASCII; [int] accepts surrounding whitespace, one sign and
    decimal digits with single underscores between digits. *)

Module Parse.

Definition is_space (c : ascii) : bool :=
  let n := nat_of_ascii c in
  ((9 <=? n) && (n <=? 13) || (28 <=? n) && (n <=? 32))%nat.

Fixpoint lstrip (s : list ascii) : list ascii :=
  match s with
  | c :: s' => if is_space c then lstrip s' else s
  | [] => []
  end.

(** [str.strip()] *)
Definition strip (s : list ascii) : list ascii :=
  rev (lstrip (rev (lstrip s))).

(** [str.split(sep)] for a one-character separator; [cur] is the piece being
    read, in reverse. *)
Fixpoint split_from (sep : ascii) (s cur : list ascii) : list (list ascii) :=
  match s with
  | [] => [rev cur]
  | c :: s' =>
      if Ascii.eqb c sep then rev cur :: split_from sep s' []
      else split_from sep s' (c :: cur)
  end.
Definition split (sep : ascii) (s : list ascii) : list (list ascii) :=
  split_from sep s [].

Definition digit_of (c : ascii) : option Z :=
  let n := nat_of_ascii c in
  if ((48 <=? n) && (n <=? 57))%nat then Some (Z.of_nat (n - 48)) else None.

(** Digits with single underscores between them; [after_digit] tells whether
    the previous character was a digit. *)
Fixpoint digits (s : list ascii) (acc : Z) (after_digit : bool) : option Z :=
  match s with
  | [] => if after_digit then Some acc else None
  | c :: s' =>
      match digit_of c with
      | Some d => digits s' (10 * acc + d)%Z true
      | None =>
          if Ascii.eqb c "_"%char && after_digit then digits s' acc false
          else None
      end
  end.

(** [int(x)] on a string; [ValueError] when [x] is not an integer literal. *)
Definition int_of_string (x : list ascii) : result Z :=
  let t := strip x in
  let body :=
    match t with
    | c :: r =>
        if Ascii.eqb c "-"%char then option_map Z.opp (digits r 0%Z false)
        else if Ascii.eqb c "+"%char then digits r 0%Z false
        else digits t 0%Z false
    | [] => None
    end in
  match body with
  | Some z => Ok z
  | None => Raise ValueError
  end.

(** A list comprehension whose element expression can raise. *)
Fixpoint comprehension {A B} (f : A -> result B) (l : list A) : result (list B) :=
  match l with
  | [] => Ok []
  | a :: l' =>
      match f a with
      | Raise e => Raise e
      | Ok b =>
          match comprehension f l' with
          | Raise e => Raise e
          | Ok bs => Ok (b :: bs)
          end
      end
  end.

(** [[int(x) for x in dist.strip().split('/')]] *)
Definition ints_of (dist : string) : result (list Z) :=
  comprehension int_of_string
    (split "/"%char (strip (list_ascii_of_string dist))).

(** The part after the [try]: rescale when the total is positive and not 100,
    then pad with zeros up to [width]. *)
Definition normalise (width : nat) (result : list Z) : list Z :=
  let total := zsum result in
  if negb (total =? 100)%Z && (0 <? total)%Z then
    let ratio := map (fun x => (x * 100 / total)%Z) result in
    ratio ++ repeat 0%Z (width - List.length ratio)
  else result ++ repeat 0%Z (width - List.length result).

Definition parse_percentages (default : list Z) (width : nat) (dist : string)
  : list Z :=
  let result :=
    match ints_of dist with
    | Ok r => r
    | Raise _ => default
    end in
  normalise width result.

End Parse.

(** ** The adaptive opponent

    [EnhancedCompetitorAI] (001, 002), [SunTzuMarketAI] (003, 005) and
    [SunTzuChessMarketAI] (006) share [observe_outcome] and
    [decide_personality]; they differ in the three labels, in the default
    [memory_len] and in what else they store. *)

Module AI.

Section Opponent.

(** [X] is the type of the entries of a recorded distribution. *)
Variable X : Type.

(** One element of [self.memory]: [{'player_win': ..., 'player_dist': ...}]
    (the keys are [beat_market] and [portfolio_dist] in the market AIs). *)
Record MemEntry : Type := mkMem {
  player_win  : bool;
  player_dist : list X
}.

Record t : Type := mkAI {
  personality : string;
  memory_len  : Z;
  memory      : list MemEntry;
  last_player_distribution : list X
}.

Definition set_personality (p : string) (ai : t) : t :=
  mkAI p (memory_len ai) (memory ai) (last_player_distribution ai).

Definition len (ai : t) : Z := Z.of_nat (List.length (memory ai)).

(** [observe_outcome]: append, drop the oldest entry when over length,
    remember the distribution. *)
Definition observe_outcome (win : bool) (dist : list X) (ai : t) : t :=
  let mem := memory ai ++ [mkMem win dist] in
  let mem' := if (memory_len ai <? Z.of_nat (List.length mem))%Z
              then tl mem else mem in
  mkAI (personality ai) (memory_len ai) mem' dist.

(** [sum(wins)] of booleans. *)
Definition wins (ai : t) : Z :=
  zsum (map (fun m => if player_win m then 1%Z else 0%Z) (memory ai)).

(** [sum(wins) / n]; the division raises for [n = 0]. *)
Definition win_rate (ai : t) : result Q :=
  let n := len ai in
  if (n =? 0)%Z then Raise ZeroDivisionError
  else Ok (Z2Q (wins ai) / Z2Q n)%Q.

End Opponent.

(** The three labels of a variant, in the order of the [if] chain. *)
Record Labels : Type := mkLabels {
  winning : string;   (* win_rate > 0.7 *)
  losing  : string;   (* win_rate < 0.3 *)
  middle  : string    (* otherwise *)
}.
Definition business_labels : Labels :=
  mkLabels "aggressive" "defensive" "deceptive".
Definition market_labels : Labels :=
  mkLabels "bullish" "bearish" "sideways".

Definition classify (L : Labels) (rate : Q) : string :=
  if (0.7 <? rate)%Q then winning L
  else if (rate <? 0.3)%Q then losing L
  else middle L.

Definition decide_personality {X} (L : Labels) (ai : t X) : result (t X) :=
  let n := len ai in
  if (n <? memory_len ai)%Z then Ok ai
  else
    match win_rate ai with
    | Raise e => Raise e
    | Ok rate => Ok (set_personality (classify L rate) ai)
    end.

End AI.

(** ** Dynamically typed values

    The counter-strategy methods mix a list with numbers in one expression, so
    their embedding keeps Python's run-time types: an operator applied to
    operands it does not support raises [TypeError]. *)

Module Dyn.

Inductive value : Type :=
| VInt (z : Z)
| VFloat (x : Q)
| VList (l : list Q).   (* a list of numbers *)

Definition rbind {A B} (r : result A) (k : A -> result B) : result B :=
  match r with
  | Ok a => k a
  | Raise e => Raise e
  end.

Definition num (v : value) : option Q :=
  match v with
  | VInt z => Some (Z2Q z)
  | VFloat x => Some x
  | VList _ => None
  end.

(** [a + b] *)
Definition add (a b : value) : result value :=
  match a, b with
  | VInt x, VInt y => Ok (VInt (x + y))
  | VInt x, VFloat y => Ok (VFloat (Z2Q x + y)%Q)
  | VFloat x, VInt y => Ok (VFloat (x + Z2Q y)%Q)
  | VFloat x, VFloat y => Ok (VFloat (x + y)%Q)
  | VList x, VList y => Ok (VList (x ++ y))
  | _, _ => Raise TypeError
  end.

(** [a * b]; a sequence is repeated by an int and by nothing else. *)
Definition mul (a b : value) : result value :=
  match a, b with
  | VInt x, VInt y => Ok (VInt (x * y))
  | VInt x, VFloat y => Ok (VFloat (Z2Q x * y)%Q)
  | VFloat x, VInt y => Ok (VFloat (x * Z2Q y)%Q)
  | VFloat x, VFloat y => Ok (VFloat (x * y)%Q)
  | VList x, VInt n | VInt n, VList x =>
      Ok (VList (List.concat (repeat x (Z.to_nat n))))
  | _, _ => Raise TypeError
  end.

(** [a / b] *)
Definition div (a b : value) : result value :=
  match num a, num b with
  | Some x, Some y =>
      if (y =? 0)%Q then Raise ZeroDivisionError else Ok (VFloat (x / y)%Q)
  | _, _ => Raise TypeError
  end.

(** [p[i]] for a literal index [i >= 0] *)
Definition index (p : value) (i : nat) : result value :=
  match p with
  | VList l =>
      match nth_error l i with
      | Some x => Ok (VFloat x)
      | None => Raise IndexError
      end
  | _ => Raise TypeError
  end.

(** A list display [[e0, e1, ...]]: the elements are evaluated in order. *)
Fixpoint display (es : list (result value)) : result (list value) :=
  match es with
  | [] => Ok []
  | e :: es' =>
      rbind e (fun v => rbind (display es') (fun vs => Ok (v :: vs)))
  end.

(** [sum(weights)]: starts from the int [0]. *)
Definition sum (l : list value) : result value :=
  fold_left (fun acc v => rbind acc (fun a => add a v)) l (Ok (VInt 0)).

(** [l.index(max(l))] for a list of numbers: the first position holding the
    largest element; [max] of an empty list raises [ValueError]. *)
Fixpoint argmax_from (l : list Q) (i best_i : nat) (best : Q) : nat :=
  match l with
  | [] => best_i
  | x :: l' =>
      if (best <? x)%Q then argmax_from l' (S i) i x
      else argmax_from l' (S i) best_i best
  end.
Definition index_of_max (l : list Q) : result nat :=
  match l with
  | [] => Raise ValueError
  | x :: l' => Ok (argmax_from l' 1 0 x)
  end.

(** [[round(x/norm, 2) for x in weights]] *)
Definition normalised (weights : list value) (norm : value)
  : result (list Q) :=
  Parse.comprehension
    (fun x => rbind (div x norm) (fun q =>
       match num q with
       | Some y => Ok (round2 y)
       | None => Raise TypeError
       end))
    weights.

Definition is_zero (v : value) : bool :=
  match num v with
  | Some x => (x =? 0)%Q
  | None => false
  end.

End Dyn.

Module Suggest.
Import Dyn.

Definition f (x : Q) : result value := Ok (VFloat x).
Definition times (a : result value) (b : Q) : result value :=
  rbind a (fun v => mul v (VFloat b)).
Definition plus (a : result value) (b : Q) : result value :=
  rbind a (fun v => add v (VFloat b)).

Definition finish (default : list Q) (weights : list value) : result (list Q) :=
  rbind (sum weights) (fun norm =>
    if is_zero norm then Ok default else normalised weights norm).

(** 001, [EnhancedCompetitorAI.suggest_competitor_investment]:
<<
    if max_index == 0:
        weights = [p[0]*0.7, p[1]+0.1, p[2]+0.2, p[3], p[4], p[5], p[6]]
    elif max_index == 1:
        weights = [p+0.1, p[1]*0.7, p[2], p[3]+0.2, p[4], p[5], p[6]]
    elif max_index == 2:
        weights = [p+0.2, p[1], p[2]*0.7, p[3]+0.1, p[4], p[5], p[6]]
    else:
        weights = p
>> *)
Definition suggest_competitor_investment (ai : AI.t Q) : result (list Q) :=
  let dist := AI.last_player_distribution ai in
  let p := VList dist in
  rbind (index_of_max dist) (fun max_index =>
  rbind
    (match max_index with
     | 0%nat =>
         display [times (index p 0) 0.7; plus (index p 1) 0.1;
                  plus (index p 2) 0.2; index p 3; index p 4;
                  index p 5; index p 6]
     | 1%nat =>
         display [plus (Ok p) 0.1; times (index p 1) 0.7;
                  index p 2; plus (index p 3) 0.2; index p 4;
                  index p 5; index p 6]
     | 2%nat =>
         display [plus (Ok p) 0.2; index p 1;
                  times (index p 2) 0.7; plus (index p 3) 0.1;
                  index p 4; index p 5; index p 6]
     | _ => Ok (map VFloat dist)
     end)
    (finish [0.7; 0.15; 0.1; 0.05; 0; 0; 0]%Q)).

(** 003, [SunTzuMarketAI.suggest_market_shift]:
<<
    if max_index == 0:
        weights = [p*0.7, p[1]+0.1, p[2]+0.1, p[3]+0.1, p[4]]
    elif max_index == 1:
        weights = [p+0.1, p[1]*0.7, p[2]+0.1, p[3]+0.1, p[4]]
    else:
        weights = p
>> *)
Definition suggest_market_shift (ai : AI.t Q) : result (list Q) :=
  let dist := AI.last_player_distribution ai in
  let p := VList dist in
  rbind (index_of_max dist) (fun max_index =>
  rbind
    (match max_index with
     | 0%nat =>
         display [times (Ok p) 0.7; plus (index p 1) 0.1;
                  plus (index p 2) 0.1; plus (index p 3) 0.1;
                  index p 4]
     | 1%nat =>
         display [plus (Ok p) 0.1; times (index p 1) 0.7;
                  plus (index p 2) 0.1; plus (index p 3) 0.1;
                  index p 4]
     | _ => Ok (map VFloat dist)
     end)
    (finish [0.5; 0.2; 0.1; 0.1; 0.1]%Q)).

End Suggest.

(** ** The log panel *)

Module Logging.

(** An argument interpolated into a log message. *)
Inductive Arg : Type :=
| AZ (z : Z)
| AQ (x : Q)
| AS (s : string).

(** One call of [self.log(message, event_type)]: the f-string is kept as its
    template and the values put into it. *)
Record LogEntry : Type := mkLog {
  template : string;
  args : list Arg;
  event_type : string
}.

End Logging.
Import Logging.

(** ** Variant 001: one competitor *)

Module V1.
Local Open Scope string_scope.

(** [BusinessUnit]; [special] is the dict of flags, [True] stored as [1]. *)
Record BusinessUnit : Type := mkUnit {
  name : string;
  budget : Z;
  impact : Z;
  resilience : Z;
  agility : Z;
  special : list (string * Z)
}.

Definition set_budget (b : Z) (u : BusinessUnit) : BusinessUnit :=
  mkUnit (name u) b (impact u) (resilience u) (agility u) (special u).

(** [u.special.get(k)] used as a condition. *)
Fixpoint special_get (k : string) (sp : list (string * Z)) : bool :=
  match sp with
  | [] => false
  | (k', v) :: sp' => if String.eqb k k' then negb (v =? 0)%Z else special_get k sp'
  end.

(** [state.units] and [state.competitor_units] are dicts that [init_state]
    builds with the same seven keys and that no method adds to or deletes
    from; they are records over those keys, [values] lists them in insertion
    order, and [typ in units] is [true]. *)
Inductive key : Type :=
| sales_team | marketing | rnd | legal | finance | analytics | intelligence.

Record Units : Type := mkUnits {
  u_sales_team : BusinessUnit;
  u_marketing : BusinessUnit;
  u_rnd : BusinessUnit;
  u_legal : BusinessUnit;
  u_finance : BusinessUnit;
  u_analytics : BusinessUnit;
  u_intelligence : BusinessUnit
}.

Definition item (k : key) (us : Units) : BusinessUnit :=
  match k with
  | sales_team => u_sales_team us
  | marketing => u_marketing us
  | rnd => u_rnd us
  | legal => u_legal us
  | finance => u_finance us
  | analytics => u_analytics us
  | intelligence => u_intelligence us
  end.

Definition set_item (k : key) (u : BusinessUnit) (us : Units) : Units :=
  match k with
  | sales_team => mkUnits u (u_marketing us) (u_rnd us) (u_legal us) (u_finance us) (u_analytics us) (u_intelligence us)
  | marketing => mkUnits (u_sales_team us) u (u_rnd us) (u_legal us) (u_finance us) (u_analytics us) (u_intelligence us)
  | rnd => mkUnits (u_sales_team us) (u_marketing us) u (u_legal us) (u_finance us) (u_analytics us) (u_intelligence us)
  | legal => mkUnits (u_sales_team us) (u_marketing us) (u_rnd us) u (u_finance us) (u_analytics us) (u_intelligence us)
  | finance => mkUnits (u_sales_team us) (u_marketing us) (u_rnd us) (u_legal us) u (u_analytics us) (u_intelligence us)
  | analytics => mkUnits (u_sales_team us) (u_marketing us) (u_rnd us) (u_legal us) (u_finance us) u (u_intelligence us)
  | intelligence => mkUnits (u_sales_team us) (u_marketing us) (u_rnd us) (u_legal us) (u_finance us) (u_analytics us) u
  end.

Definition has_key (k : key) (us : Units) : bool := true.

Definition keys : list key :=
  [sales_team; marketing; rnd; legal; finance; analytics; intelligence].

Definition values (us : Units) : list BusinessUnit :=
  map (fun k => item k us) keys.

(** [for ut in units.values(): ut.budget = f(ut.budget)] *)
Definition map_budgets (f : Z -> Z) (us : Units) : Units :=
  mkUnits (set_budget (f (budget (u_sales_team us))) (u_sales_team us))
          (set_budget (f (budget (u_marketing us))) (u_marketing us))
          (set_budget (f (budget (u_rnd us))) (u_rnd us))
          (set_budget (f (budget (u_legal us))) (u_legal us))
          (set_budget (f (budget (u_finance us))) (u_finance us))
          (set_budget (f (budget (u_analytics us))) (u_analytics us))
          (set_budget (f (budget (u_intelligence us))) (u_intelligence us)).

Record Resources : Type := mkResources {
  cash : Z;
  investment_points : Z;
  brand_strength : Z
}.

Definition set_cash (v : Z) (x : Resources) : Resources :=
  mkResources v (investment_points x) (brand_strength x).
Definition set_investment_points (v : Z) (x : Resources) : Resources :=
  mkResources (cash x) v (brand_strength x).
Definition set_brand_strength (v : Z) (x : Resources) : Resources :=
  mkResources (cash x) (investment_points x) v.

(** [BusinessCampaignState] *)
Record Campaign : Type := mkCampaign {
  units : Units;
  competitor_units : Units;
  leadership_quality : Q;
  resources : Resources;
  competitor_ai : AI.t Q;
  stress : Q;
  liquidity : Q;
  sentiment : Q;
  competitor_sentiment : Q;
  intel_effectiveness : Q;
  current_market : string;
  current_economy : string;
  current_quarter : string;
  competitor_total : Z
}.

Definition set_units (v : Units) (x : Campaign) : Campaign :=
  mkCampaign v (competitor_units x) (leadership_quality x) (resources x) (competitor_ai x) (stress x) (liquidity x) (sentiment x) (competitor_sentiment x) (intel_effectiveness x) (current_market x) (current_economy x) (current_quarter x) (competitor_total x).
Definition set_competitor_units (v : Units) (x : Campaign) : Campaign :=
  mkCampaign (units x) v (leadership_quality x) (resources x) (competitor_ai x) (stress x) (liquidity x) (sentiment x) (competitor_sentiment x) (intel_effectiveness x) (current_market x) (current_economy x) (current_quarter x) (competitor_total x).
Definition set_resources (v : Resources) (x : Campaign) : Campaign :=
  mkCampaign (units x) (competitor_units x) (leadership_quality x) v (competitor_ai x) (stress x) (liquidity x) (sentiment x) (competitor_sentiment x) (intel_effectiveness x) (current_market x) (current_economy x) (current_quarter x) (competitor_total x).
Definition set_competitor_ai (v : AI.t Q) (x : Campaign) : Campaign :=
  mkCampaign (units x) (competitor_units x) (leadership_quality x) (resources x) v (stress x) (liquidity x) (sentiment x) (competitor_sentiment x) (intel_effectiveness x) (current_market x) (current_economy x) (current_quarter x) (competitor_total x).
Definition set_stress (v : Q) (x : Campaign) : Campaign :=
  mkCampaign (units x) (competitor_units x) (leadership_quality x) (resources x) (competitor_ai x) (Qred v) (liquidity x) (sentiment x) (competitor_sentiment x) (intel_effectiveness x) (current_market x) (current_economy x) (current_quarter x) (competitor_total x).
Definition set_liquidity (v : Q) (x : Campaign) : Campaign :=
  mkCampaign (units x) (competitor_units x) (leadership_quality x) (resources x) (competitor_ai x) (stress x) (Qred v) (sentiment x) (competitor_sentiment x) (intel_effectiveness x) (current_market x) (current_economy x) (current_quarter x) (competitor_total x).
Definition set_sentiment (v : Q) (x : Campaign) : Campaign :=
  mkCampaign (units x) (competitor_units x) (leadership_quality x) (resources x) (competitor_ai x) (stress x) (liquidity x) (Qred v) (competitor_sentiment x) (intel_effectiveness x) (current_market x) (current_economy x) (current_quarter x) (competitor_total x).
Definition set_competitor_sentiment (v : Q) (x : Campaign) : Campaign :=
  mkCampaign (units x) (competitor_units x) (leadership_quality x) (resources x) (competitor_ai x) (stress x) (liquidity x) (sentiment x) (Qred v) (intel_effectiveness x) (current_market x) (current_economy x) (current_quarter x) (competitor_total x).
Definition set_intel_effectiveness (v : Q) (x : Campaign) : Campaign :=
  mkCampaign (units x) (competitor_units x) (leadership_quality x) (resources x) (competitor_ai x) (stress x) (liquidity x) (sentiment x) (competitor_sentiment x) (Qred v) (current_market x) (current_economy x) (current_quarter x) (competitor_total x).
Definition set_current_market (v : string) (x : Campaign) : Campaign :=
  mkCampaign (units x) (competitor_units x) (leadership_quality x) (resources x) (competitor_ai x) (stress x) (liquidity x) (sentiment x) (competitor_sentiment x) (intel_effectiveness x) v (current_economy x) (current_quarter x) (competitor_total x).
Definition set_current_economy (v : string) (x : Campaign) : Campaign :=
  mkCampaign (units x) (competitor_units x) (leadership_quality x) (resources x) (competitor_ai x) (stress x) (liquidity x) (sentiment x) (competitor_sentiment x) (intel_effectiveness x) (current_market x) v (current_quarter x) (competitor_total x).
Definition set_current_quarter (v : string) (x : Campaign) : Campaign :=
  mkCampaign (units x) (competitor_units x) (leadership_quality x) (resources x) (competitor_ai x) (stress x) (liquidity x) (sentiment x) (competitor_sentiment x) (intel_effectiveness x) (current_market x) (current_economy x) v (competitor_total x).
Definition set_competitor_total (v : Z) (x : Campaign) : Campaign :=
  mkCampaign (units x) (competitor_units x) (leadership_quality x) (resources x) (competitor_ai x) (stress x) (liquidity x) (sentiment x) (competitor_sentiment x) (intel_effectiveness x) (current_market x) (current_economy x) (current_quarter x) v.

Definition market_types : list string :=
  ["stable"; "volatile"; "regulated"; "expanding"; "recessive"; "emerging";
   "saturated"; "niche"].
Definition economic_conditions : list string :=
  ["growth"; "recession"; "inflation"; "stagnation"; "boom"; "crisis"].
Definition quarter_cycle : list string := ["Q1"; "Q2"; "Q3"; "Q4"].

(** One element of [sim_data]. *)
Record Snapshot : Type := mkSnapshot {
  d_quarter : Z;
  d_market_share : Z;
  d_competitor_share : Z;
  d_sentiment : Q;
  d_competitor_sentiment : Q;
  d_stress : Q;
  d_liquidity : Q;
  d_resources : Resources;
  d_market : string;
  d_economy : string;
  d_actions : list string;
  d_strategic_actions : Z;
  d_competitor_ai : string
}.

(** [BusinessSimulatorGUI]: the state, the log, the history and the modal
    dialogs shown so far (title and text). *)
Record GUI : Type := mkGUI {
  state : Campaign;
  logs : list LogEntry;
  sim_data : list Snapshot;
  dialogs : list (string * string)
}.

Definition set_state (v : Campaign) (x : GUI) : GUI :=
  mkGUI v (logs x) (sim_data x) (dialogs x).
Definition set_logs (v : list LogEntry) (x : GUI) : GUI :=
  mkGUI (state x) v (sim_data x) (dialogs x).
Definition set_sim_data (v : list Snapshot) (x : GUI) : GUI :=
  mkGUI (state x) (logs x) v (dialogs x).
Definition set_dialogs (v : list (string * string)) (x : GUI) : GUI :=
  mkGUI (state x) (logs x) (sim_data x) v.

Local Open Scope list_scope.
Local Open Scope Q_scope.

Definition the_state : M GUI Campaign := (g <- get ;; ret (state g))%py.

Definition update (f : Campaign -> Campaign) : M GUI unit :=
  modify (fun g => set_state (f (state g)) g).

Definition log (template : string) (args : list Arg) (event_type : string)
  : M GUI unit :=
  modify (fun g => set_logs (logs g ++ [mkLog template args event_type]) g).

Definition default_units : Units :=
  mkUnits (mkUnit "Sales Team" 3000 8 6 7 [])
          (mkUnit "Marketing" 1500 10 5 6 [("brand_boost", 1%Z)])
          (mkUnit "R&D" 800 15 8 5 [("innovation", 1%Z)])
          (mkUnit "Legal" 400 4 13 3 [("patent", 1%Z)])
          (mkUnit "Finance" 1000 6 10 4 [])
          (mkUnit "Analytics" 300 5 7 4 [])
          (mkUnit "Market Intelligence" 100 2 2 7 [("espionage", 9%Z)]).

Definition default_competitor_units : Units :=
  mkUnits (mkUnit "Competitor Sales Team" 2800 8 6 7 [])
          (mkUnit "Competitor Marketing" 1400 10 5 6 [("brand_boost", 1%Z)])
          (mkUnit "Competitor R&D" 700 15 8 5 [("innovation", 1%Z)])
          (mkUnit "Competitor Legal" 350 4 13 3 [("patent", 1%Z)])
          (mkUnit "Competitor Finance" 900 6 10 4 [])
          (mkUnit "Competitor Analytics" 250 5 7 4 [])
          (mkUnit "Competitor Intelligence" 90 2 2 7 [("espionage", 8%Z)]).

Definition calculate_total_assets (units_dict : Units) : Z :=
  zsum (map budget (values units_dict)).

(** [init_state()] with its default arguments: four choices are drawn, in the
    order personality, market, economy, quarter. *)
Definition init_state : M GUI unit :=
  (personality <- choice ["aggressive"; "defensive"; "deceptive"] "" ;;
   market <- choice market_types "" ;;
   economy <- choice economic_conditions "" ;;
   quarter <- choice quarter_cycle "" ;;
   modify (set_state
     (mkCampaign default_units default_competitor_units 0.85
        (mkResources 2000 300 0)
        (AI.mkAI personality 5 [] [0.7; 0.15; 0.1; 0.05; 0; 0; 0])
        0 1 0.7 0.6 0 market economy quarter
        (calculate_total_assets default_competitor_units))))%py.

Definition clamp01 (x : Q) : Q := fmax 0 (fmin x 1).

Definition modern_business_tactics
    (quarter : Z) (competitor_sentiment : Q) (competitor_assets player_assets : Z)
  : M GUI (list string * Q * Z) :=
  let actions : list string := [] in
  let '(actions, competitor_sentiment) :=
    if (0.7 <? competitor_sentiment) && (quarter mod 3 =? 0)%Z
    then (actions ++ ["Aggressive marketing campaign distracts competitors."],
          competitor_sentiment - 0.1)
    else (actions, competitor_sentiment) in
  let '(actions, competitor_sentiment) :=
    if (Z2Q competitor_assets * 1.2 <? Z2Q player_assets)
       && (competitor_sentiment <? 0.4)
    then (actions ++ ["Leave a competitor niche unchallenged to avoid price war."],
          competitor_sentiment + 0.05)
    else (actions, competitor_sentiment) in
  let '(actions, competitor_assets) :=
    if (player_assets <? competitor_assets)%Z && (quarter mod 4 =? 0)%Z
    then (actions ++ ["Disrupt competitor supply chain to weaken distribution."],
          (competitor_assets - Py.int (Z2Q competitor_assets * 0.05))%Z)
    else (actions, competitor_assets) in
  if (player_assets <? competitor_assets)%Z && (0.5 <? competitor_sentiment)
     && (quarter mod 5 =? 0)%Z
  then
    (let actions := actions ++ ["Launch a product earlier to surprise the competitor."] in
     r <- random ;;
     if 0.5 <? r
     then ret (actions ++ ["Successful launch! Competitor market share decreased."],
               clamp01 competitor_sentiment,
               zmax 0 (competitor_assets - Py.int (Z2Q competitor_assets * 0.1)))
     else ret (actions ++ ["Failed launch, internal confusion."],
               clamp01 competitor_sentiment, zmax 0 competitor_assets))%py
  else ret (actions, clamp01 competitor_sentiment, zmax 0 competitor_assets).

(** The per-unit term of both loops of [resolve_market_competition]. *)
Definition unit_score (stress : Q) (u : BusinessUnit) : Q :=
  let score := Z2Q (impact u) * Z2Q (budget u) * (1 - stress * 0.5) in
  if special_get "brand_boost" (special u) then score * 1.2 else score.

Definition market_penalty (u : BusinessUnit) : Q :=
  Z2Q (impact u) * Z2Q (budget u) * 0.2.

Definition resolve_scores (s : Campaign) : Z * Z :=
  let player_score :=
    fold_left (fun acc u => acc + unit_score (stress s) u) (values (units s)) 0 in
  let competitor_score :=
    fold_left (fun acc cu => acc + unit_score (stress s) cu)
              (values (competitor_units s)) 0 in
  let '(player_score, competitor_score) :=
    if existsb (String.eqb (current_market s)) ["regulated"; "volatile"; "saturated"]
    then
      fold_left
        (fun '(ps, cs) typ =>
           let ps := if has_key typ (units s)
                     then ps - market_penalty (item typ (units s)) else ps in
           let cs := if has_key typ (competitor_units s)
                     then cs - market_penalty (item typ (competitor_units s))
                     else cs in
           (ps, cs))
        [marketing; rnd; analytics] (player_score, competitor_score)
    else (player_score, competitor_score) in
  (zmax 0 (Py.int player_score), zmax 0 (Py.int competitor_score)).

Definition resolve_market_competition : M GUI (Z * Z) :=
  (s <- the_state ;; ret (resolve_scores s))%py.

Definition liquidity_event : M GUI (option Q) :=
  (s <- the_state ;;
   let competitor_intel_level := Z2Q (budget (item intelligence (competitor_units s))) / 2000 in
   let disruption_chance := 0.1 + competitor_intel_level in
   r <- random ;;
   if (r <? disruption_chance) && (liquidity s <? 0.6)
   then
     stress_penalty <- uniform 0.1 0.2 ;;
     update (fun s => set_stress (stress s + stress_penalty) s) ;;
     update (fun s => set_stress (fmin (stress s) 1) s) ;;
     ret (Some stress_penalty)
   else ret None)%py.

Definition calculate_sentiment (s : Campaign) : Q :=
  let leadership_bonus := (leadership_quality s - 0.5) * 0.3 in
  let intel_bonus := (intel_effectiveness s - 0.5) * 0.2 in
  let economic_penalty :=
    if existsb (String.eqb (current_economy s)) ["recession"; "crisis"]
    then - 0.1 else 0 in
  let sentiment := sentiment s - stress s * 0.5 + (liquidity s - 0.5) * 0.4
                   + leadership_bonus + intel_bonus + economic_penalty in
  fmax 0 (fmin sentiment 1).

Definition competitor_decision : M GUI (bool * bool * bool) :=
  (s <- the_state ;;
   ai <- of_result (AI.decide_personality AI.business_labels (competitor_ai s)) ;;
   update (set_competitor_ai ai) ;;
   let p := AI.personality ai in
   feint <- (if String.eqb p "deceptive" then ret true
             else r <- random ;; ret (r <? 0.1)) ;;
   ret (String.eqb p "aggressive", String.eqb p "defensive", feint))%py.

Definition lower_budget (k : key) (amount : Z) (us : Units) : Units :=
  set_item k (set_budget (zmax 0 (budget (item k us) - amount)) (item k us)) us.

Definition environment_effects : M GUI (list string) :=
  (s <- the_state ;;
   e1 <- (if String.eqb (current_quarter s) "Q4"
          then update (fun s => set_stress (stress s + 0.05) s) ;;
               ret ["Year-end effect: increased stress and tighter budgets."]
          else ret []) ;;
   e2 <- (if String.eqb (current_economy s) "inflation"
          then
            when (has_key marketing (units s))
              (update (fun s => set_units (lower_budget marketing 10 (units s)) s)) ;;
            when (has_key marketing (competitor_units s))
              (update (fun s => set_competitor_units
                                  (lower_budget marketing 10 (competitor_units s)) s)) ;;
            ret ["Inflation: profitability of marketing and innovation reduced."]
          else ret []) ;;
   e3 <- (if String.eqb (current_economy s) "growth"
          then update (fun s => set_liquidity (fmin 1 (liquidity s + 0.1)) s) ;;
               ret ["Growth: liquidity strengthened."]
          else ret []) ;;
   ret (e1 ++ e2 ++ e3))%py.

Definition invest_types : list key :=
  [sales_team; marketing; rnd; legal; finance; analytics; intelligence].

(** [invest_dist[i]] *)
Definition subscript (l : list Z) (i : nat) : M GUI Z :=
  match nth_error l i with
  | Some x => ret x
  | None => raise IndexError
  end.

(** The body of [for i, typ in enumerate(invest_types)], from index [i] on. *)
Fixpoint invest_from (i : nat) (types : list key) (invest_gain : Z)
    (invest_dist : list Z) : M GUI unit :=
  match types with
  | [] => ret tt
  | typ :: rest =>
      (share <- subscript invest_dist i ;;
       let ibudget := Py.int (Z2Q (invest_gain * share) / 100) in
       update (fun s =>
         set_units (set_item typ
                      (set_budget (budget (item typ (units s)) + ibudget)
                                  (item typ (units s)))
                      (units s)) s) ;;
       s <- the_state ;;
       when (0 <? ibudget)%Z
         (log "Invested {} in {}." [AZ ibudget; AS (name (item typ (units s)))]
              "investment") ;;
       invest_from (S i) rest invest_gain invest_dist)%py
  end.

Definition resource_management (invest_dist : list Z) : M GUI unit :=
  (s <- the_state ;;
   let invest_gain := Py.int (Z2Q (investment_points (resources s)) * 0.1) in
   let cash_spent := Py.int (Z2Q (invest_gain * 5)) in
   (if (cash_spent <=? cash (resources s))%Z && (0 <? invest_gain)%Z
    then
      update (fun s => set_resources
                (set_cash (cash (resources s) - cash_spent) (resources s)) s) ;;
      invest_from 0 invest_types invest_gain invest_dist
    else log "Not enough cash to invest." [] "failure") ;;
   s <- the_state ;;
   when (0 <? brand_strength (resources s))%Z
     (let brand_maintenance_cost := 50%Z in
      if (brand_maintenance_cost <=? cash (resources s))%Z
      then
        update (fun s => set_resources
                  (set_cash (cash (resources s) - brand_maintenance_cost)
                            (resources s)) s) ;;
        update (fun s => set_stress (fmax 0 (stress s - 0.05)) s) ;;
        log "Brand strength maintained, stress reduced." [] "event"
      else
        update (fun s => set_stress (stress s + 0.05) s) ;;
        log "Insufficient brand maintenance, stress increased." [] "failure"))%py.

Definition advanced_intel_operations : M GUI (list string) :=
  (s <- the_state ;;
   let intel := budget (item intelligence (units s)) in
   actions <-
     (if (0 <? intel)%Z
      then
        let sabotage_chance := 0.2 * (Z2Q intel / 100) in
        r <- random ;;
        a1 <- (if r <? sabotage_chance
               then
                 liquidity_damage <- uniform 0.05 0.12 ;;
                 update (fun s => set_liquidity
                           (fmax 0 (liquidity s - liquidity_damage)) s) ;;
                 update (fun s => set_competitor_sentiment
                           (fmax 0 (competitor_sentiment s - 0.05)) s) ;;
                 ret ["Market intelligence successfully sabotaged a competitor's supply chain."]
               else ret []) ;;
        let misinformation_chance := 0.18 * (Z2Q intel / 100) in
        r <- random ;;
        a2 <- (if r <? misinformation_chance
               then
                 update (fun s => set_competitor_sentiment
                           (fmax 0 (competitor_sentiment s - 0.07)) s) ;;
                 ret ["Market intelligence spread misinformation, competitor confused."]
               else ret []) ;;
        ret (a1 ++ a2)
      else ret ["No market intelligence resource available."]) ;;
   update (fun s => set_intel_effectiveness
             (fmin 1 (Z2Q (budget (item intelligence (units s))) / 150)) s) ;;
   ret actions)%py.

Definition post_competition_effects (player_losses competitor_losses : Z)
  : M GUI unit :=
  (let sentiment_change := Z2Q (competitor_losses - player_losses) / 10000 in
   update (fun s => set_resources
             (set_investment_points
                (investment_points (resources s) + Py.int (sentiment_change * 40))
                (resources s)) s) ;;
   update (fun s => set_resources
             (set_investment_points
                (zmax 40 (investment_points (resources s))) (resources s)) s) ;;
   (if 0 <? sentiment_change
    then log "Market confidence increased! More investment points." [] "success"
    else log "Market nervousness, confidence fell." [] "failure") ;;
   s <- the_state ;;
   when (0.8 <? stress s)
     (log "High stress: reputation drops, reduced gains." [] "failure" ;;
      update (fun s => set_resources
                (set_cash (zmax 0 (cash (resources s) - 100)) (resources s)) s)))%py.

Definition update_competitor_ai (player_losses competitor_losses : Z)
  : M GUI unit :=
  (s <- the_state ;;
   let player_win := (player_losses <? competitor_losses)%Z in
   let invest_dist := map (fun t => budget (item t (units s))) invest_types in
   let total := zsum invest_dist in
   let player_dist :=
     map (fun x => if (0 <? total)%Z then Z2Q x / Z2Q total else 0) invest_dist in
   update (fun s => set_competitor_ai
             (AI.observe_outcome player_win player_dist (competitor_ai s)) s) ;;
   s <- the_state ;;
   log "Competitor AI switches to {}." [AS (AI.personality (competitor_ai s))]
       "intel")%py.

(** [apply_losses(units, losses)]: every budget loses the same ratio. *)
Definition apply_losses (us : Units) (losses : Z) : Units :=
  let total := calculate_total_assets us in
  if (total =? 0)%Z || (losses =? 0)%Z then us
  else
    let loss_ratio := fmin 1 (Z2Q losses / Z2Q total) in
    map_budgets (fun b => zmax 0 (b - Py.int (Z2Q b * loss_ratio))) us.

Definition budget_args (us : Units) : list Arg :=
  map (fun u => AZ (budget u)) (values us).

Definition snapshot (turn : Z) (actions : list string) (s : Campaign) : Snapshot :=
  mkSnapshot turn
    (calculate_total_assets (units s))
    (calculate_total_assets (competitor_units s))
    (sentiment s) (competitor_sentiment s) (stress s) (liquidity s)
    (resources s) (current_market s) (current_economy s)
    actions (Z.of_nat (List.length actions))
    (AI.personality (competitor_ai s)).

(** The body of [for turn in range(1, turns + 1)]; the result tells whether
    the body left the loop through [break]. *)
Definition quarter_body (turn : Z) (invest_dist : list Z) : M GUI bool :=
  (log "--- Quarter {} ---" [AZ turn] "info" ;;
   (if (turn mod 2 =? 0)%Z
    then economy <- choice economic_conditions "" ;;
         update (set_current_economy economy)
    else ret tt) ;;
   update (set_current_quarter
             (nth (Z.to_nat ((turn - 1) mod 4)) quarter_cycle "")) ;;
   r <- random ;;
   (if r <? 0.12
    then market <- choice market_types "" ;; update (set_current_market market)
    else ret tt) ;;

   env_effects <- environment_effects ;;
   for_each env_effects (fun e => log e [] "event") ;;

   event <- liquidity_event ;;
   match event with
   | Some stress_penalty =>
       log "Liquidity issue! Stress increased by {:.2f}." [AQ stress_penalty]
           "sabotage"
   | None => ret tt
   end ;;

   s <- the_state ;;
   '(advanced_actions, new_sentiment, new_competitor_assets) <-
     modern_business_tactics turn (competitor_sentiment s)
       (calculate_total_assets (competitor_units s))
       (calculate_total_assets (units s)) ;;
   update (set_competitor_sentiment new_sentiment) ;;
   update (set_competitor_total new_competitor_assets) ;;
   for_each advanced_actions (fun aa => log aa [] "event") ;;

   intel_actions <- advanced_intel_operations ;;
   for_each intel_actions (fun ia => log ia [] "intel") ;;

   resource_management invest_dist ;;

   update (fun s => set_sentiment (calculate_sentiment s) s) ;;

   '(player_score, competitor_score) <- resolve_market_competition ;;
   let player_score := Z2Q player_score in
   let competitor_score := Z2Q competitor_score in

   '(_, avoid, feint) <- competitor_decision ;;
   when avoid
     (log "Competitor avoids direct confrontation on key sector." [] "event") ;;
   let competitor_score :=
     if avoid then competitor_score * 0.8 else competitor_score in
   when feint (log "Competitor launches diversion operations." [] "intel") ;;
   let player_score := if feint then player_score * 0.9 else player_score in

   '(player_losses, competitor_losses) <-
     (if competitor_score <? player_score
      then
        let competitor_losses := Py.int ((player_score - competitor_score) * 0.08) in
        let player_losses := Py.int (competitor_score * 0.04) in
        log "Your company gained {} market share from competitor."
            [AZ competitor_losses] "success" ;;
        log "Your company lost {} market share." [AZ player_losses] "failure" ;;
        ret (player_losses, competitor_losses)
      else
        let player_losses := Py.int ((competitor_score - player_score) * 0.07) in
        let competitor_losses := Py.int (player_score * 0.03) in
        log "Your company lost {} market share." [AZ player_losses] "failure" ;;
        log "Competitor lost {} market share." [AZ competitor_losses] "success" ;;
        ret (player_losses, competitor_losses)) ;;

   update (fun s => set_units (apply_losses (units s) player_losses) s) ;;
   update (fun s => set_competitor_units
             (apply_losses (competitor_units s) competitor_losses) s) ;;

   let stress_gain := 0.05 + Z2Q player_losses / 15000 in
   update (fun s => set_stress (fmin 1 (stress s + stress_gain)) s) ;;
   let liquidity_consumption := 0.09 + stress_gain * 0.5 in
   update (fun s => set_liquidity
             (fmax 0 (liquidity s - liquidity_consumption)) s) ;;

   post_competition_effects player_losses competitor_losses ;;
   update_competitor_ai player_losses competitor_losses ;;

   s <- the_state ;;
   log "End of quarter {}:" [AZ turn] "info" ;;
   log "  Your budgets: Sales={}, Marketing={}, R&D={}, Legal={}, Finance={}, Analytics={}, Intelligence={}"
       (budget_args (units s)) "info" ;;
   log "  Competitor budgets: Sales={}, Marketing={}, R&D={}, Legal={}, Finance={}, Analytics={}, Intelligence={}"
       (budget_args (competitor_units s)) "info" ;;
   log "  Sentiment: You={:.2f}, Competitor={:.2f}"
       [AQ (sentiment s); AQ (competitor_sentiment s)] "info" ;;
   log "  Stress: {:.2f}, Liquidity: {:.2f}" [AQ (stress s); AQ (liquidity s)]
       "info" ;;
   log "  Resources: Cash={}, Investment Points={}, Brand Strength={}"
       [AZ (cash (resources s)); AZ (investment_points (resources s));
        AZ (brand_strength (resources s))] "info" ;;
   log "  Market: {}, Economy: {}, Quarter: {}"
       [AS (current_market s); AS (current_economy s); AS (current_quarter s)]
       "info" ;;

   modify (fun g => set_sim_data
             (sim_data g ++ [snapshot turn (advanced_actions ++ intel_actions) s])
             g) ;;

   if (calculate_total_assets (units s) =? 0)%Z
   then log "Your company has gone bankrupt! Simulation ended." [] "failure" ;;
        ret true
   else if (calculate_total_assets (competitor_units s) =? 0)%Z
   then log "Competitor has been exceeded! Simulation won!" [] "success" ;;
        ret true
   else ret false)%py.

(** [for turn in range(first, first + remaining)] with its [break]. *)
Fixpoint quarters (remaining : nat) (turn : Z) (invest_dist : list Z)
  : M GUI unit :=
  match remaining with
  | O => ret tt
  | S k =>
      (stop <- quarter_body turn invest_dist ;;
       if stop : bool then ret tt else quarters k (turn + 1)%Z invest_dist)%py
  end.

Definition parse_invest_dist (dist : string) : list Z :=
  Parse.parse_percentages [30; 20; 15; 10; 15; 5; 5]%Z 7 dist.

Definition showerror (title message : string) : M GUI unit :=
  modify (fun g => set_dialogs (dialogs g ++ [(title, message)]) g).

(** [except ValueError:] lets every other exception through. *)
Definition except_ValueError {A} (m : M GUI A) (h : M GUI A) : M GUI A :=
  try_except m (fun e => match e with
                         | ValueError => h
                         | _ => raise e
                         end).

(** [run_simulation].  [turns_var_get] is what [self.turns_var.get()] gives
    for the text of the entry: tkinter's [IntVar.get] returns the number, or
    raises [TclError] when the text is not a number.  [invest_dist_var] is
    the text of the allocation entry. *)
Definition run_simulation (turns_var_get : result Z) (invest_dist_var : string)
  : M GUI unit :=
  (modify (set_logs []) ;;
   modify (set_sim_data []) ;;
   init_state ;;
   checked <- except_ValueError
     (turns <- of_result turns_var_get ;;
      if (turns <=? 0)%Z then raise ValueError else ret (Some turns))
     (showerror "Error" "Invalid number of quarters." ;; ret None) ;;
   match checked with
   | None => ret tt
   | Some turns =>
       let invest_dist := parse_invest_dist invest_dist_var in
       s <- the_state ;;
       log "=== Starting business simulation (Competitor AI: {}) ==="
           [AS (AI.personality (competitor_ai s))] "info" ;;
       quarters (Z.to_nat turns) 1%Z invest_dist ;;
       log "=== Simulation ended ===" [] "event" ;;
       s <- the_state ;;
       let market_share_left := calculate_total_assets (units s) in
       let competitor_share_left := calculate_total_assets (competitor_units s) in
       log "Final market share - You: {}, Competitor: {}"
           [AZ market_share_left; AZ competitor_share_left] "info" ;;
       if (competitor_share_left <? market_share_left)%Z
       then log "Simulation successful! Congratulations!" [] "success"
       else log "Simulation lost or suspended." [] "failure"
   end)%py.

(** The GUI object before [BusinessCampaignState()] has run. *)
Definition blank : GUI :=
  mkGUI (mkCampaign default_units default_competitor_units 0.85
           (mkResources 2000 300 0) (AI.mkAI "" 5 [] (@nil Q)) 0 1 0.7 0.6 0 "" "" "" 0)
        [] [] [].

(** [BusinessSimulatorGUI.__init__] (the constructor of the state and
    [init_advanced_parameters] each call [init_state]) followed by one press
    of the start button. *)
Definition session (turns_var_get : result Z) (invest_dist_var : string)
  : M GUI unit :=
  (init_state ;; init_state ;; run_simulation turns_var_get invest_dist_var)%py.

End V1.

(** ** Variant 002: two competitors, external events *)

Module V2.
Local Open Scope string_scope.
Local Open Scope list_scope.
Local Open Scope Q_scope.

Record BusinessUnit : Type := mkUnit {
  name : string;
  budget : Z;
  impact : Q;
  resilience : Z;
  agility : Z;
  talent_level : Q;
  special : list (string * Z)
}.

Definition set_budget (v : Z) (x : BusinessUnit) : BusinessUnit :=
  mkUnit (name x) v (impact x) (resilience x) (agility x) (talent_level x) (special x).
Definition set_impact (v : Q) (x : BusinessUnit) : BusinessUnit :=
  mkUnit (name x) (budget x) v (resilience x) (agility x) (talent_level x) (special x).

Fixpoint special_get (k : string) (sp : list (string * Z)) : bool :=
  match sp with
  | [] => false
  | (k', v) :: sp' => if String.eqb k k' then negb (v =? 0)%Z else special_get k sp'
  end.

Definition effective_impact (stress : Q) (u : BusinessUnit) : Q :=
  let base := impact u * Z2Q (budget u) * (1 - stress * 0.5) in
  let talent_bonus := base * (talent_level u * 0.2) in
  let special_bonus := if special_get "brand_boost" (special u) then base * 0.2 else 0 in
  base + talent_bonus + special_bonus.

(** A dict of units: keys are unique and kept in insertion order. *)
Definition Units : Type := list (string * BusinessUnit).

Definition values (us : Units) : list BusinessUnit := map snd us.
Definition keys (us : Units) : list string := map fst us.
Definition has_key (k : string) (us : Units) : bool :=
  existsb (String.eqb k) (keys us).

(** [units[k] = f(units[k])] for a key that is present. *)
Definition change (k : string) (f : BusinessUnit -> BusinessUnit) (us : Units)
  : Units :=
  map (fun kv => if String.eqb k (fst kv) then (fst kv, f (snd kv)) else kv) us.

(** [units[k].name] for a key of the dict (the code subscripts with the keys
    it has just listed, so the key is present). *)
Fixpoint name_of (k : string) (us : Units) : string :=
  match us with
  | [] => ""
  | (k', u) :: us' => if String.eqb k k' then name u else name_of k us'
  end.

(** [for u in units.values(): u.budget = f(u.budget)] *)
Definition map_budgets (f : Z -> Z) (us : Units) : Units :=
  map (fun kv => (fst kv, set_budget (f (budget (snd kv))) (snd kv))) us.

Definition total_budget (us : Units) : Z := zsum (map budget (values us)).

Record Competitor : Type := mkCompetitor {
  c_name : string;
  c_units : Units;
  ai : AI.t Q;
  c_sentiment : Q;
  c_stress : Q;
  c_liquidity : Q
}.

Definition set_c_units (v : Units) (x : Competitor) : Competitor :=
  mkCompetitor (c_name x) v (ai x) (c_sentiment x) (c_stress x) (c_liquidity x).
Definition set_ai (v : AI.t Q) (x : Competitor) : Competitor :=
  mkCompetitor (c_name x) (c_units x) v (c_sentiment x) (c_stress x) (c_liquidity x).

(** [Competitor.calculate_total_assets] *)
Definition calculate_total_assets (c : Competitor) : Z := total_budget (c_units c).

Record Resources : Type := mkResources {
  cash : Z;
  investment_points : Z;
  brand_strength : Z
}.

Definition set_cash (v : Z) (x : Resources) : Resources :=
  mkResources v (investment_points x) (brand_strength x).

(** [BusinessCampaignState].  The GUI keeps [player_units], a shallow copy
    of [state.units]: both dicts hold the same unit objects under the same
    keys for the whole run, so one field stands for the two. *)
Record Campaign : Type := mkCampaign {
  units : Units;
  leadership_quality : Q;
  resources : Resources;
  sentiment : Q;
  stress : Q;
  liquidity : Q;
  intel_effectiveness : Q;
  current_market : string;
  current_economy : string;
  current_quarter : string;
  competitors : list Competitor
}.

Definition set_units (v : Units) (x : Campaign) : Campaign :=
  mkCampaign v (leadership_quality x) (resources x) (sentiment x) (stress x) (liquidity x) (intel_effectiveness x) (current_market x) (current_economy x) (current_quarter x) (competitors x).
Definition set_resources (v : Resources) (x : Campaign) : Campaign :=
  mkCampaign (units x) (leadership_quality x) v (sentiment x) (stress x) (liquidity x) (intel_effectiveness x) (current_market x) (current_economy x) (current_quarter x) (competitors x).
Definition set_sentiment (v : Q) (x : Campaign) : Campaign :=
  mkCampaign (units x) (leadership_quality x) (resources x) (Qred v) (stress x) (liquidity x) (intel_effectiveness x) (current_market x) (current_economy x) (current_quarter x) (competitors x).
Definition set_stress (v : Q) (x : Campaign) : Campaign :=
  mkCampaign (units x) (leadership_quality x) (resources x) (sentiment x) (Qred v) (liquidity x) (intel_effectiveness x) (current_market x) (current_economy x) (current_quarter x) (competitors x).
Definition set_liquidity (v : Q) (x : Campaign) : Campaign :=
  mkCampaign (units x) (leadership_quality x) (resources x) (sentiment x) (stress x) (Qred v) (intel_effectiveness x) (current_market x) (current_economy x) (current_quarter x) (competitors x).
Definition set_current_market (v : string) (x : Campaign) : Campaign :=
  mkCampaign (units x) (leadership_quality x) (resources x) (sentiment x) (stress x) (liquidity x) (intel_effectiveness x) v (current_economy x) (current_quarter x) (competitors x).
Definition set_current_economy (v : string) (x : Campaign) : Campaign :=
  mkCampaign (units x) (leadership_quality x) (resources x) (sentiment x) (stress x) (liquidity x) (intel_effectiveness x) (current_market x) v (current_quarter x) (competitors x).
Definition set_current_quarter (v : string) (x : Campaign) : Campaign :=
  mkCampaign (units x) (leadership_quality x) (resources x) (sentiment x) (stress x) (liquidity x) (intel_effectiveness x) (current_market x) (current_economy x) v (competitors x).
Definition set_competitors (v : list Competitor) (x : Campaign) : Campaign :=
  mkCampaign (units x) (leadership_quality x) (resources x) (sentiment x) (stress x) (liquidity x) (intel_effectiveness x) (current_market x) (current_economy x) (current_quarter x) v.

Record Snapshot : Type := mkSnapshot {
  d_quarter : Z;
  d_player_market_share : Z;
  d_competitor_market_share : Z;
  d_player_sentiment : Q;
  d_competitor_sentiment : Q;
  d_stress : Q;
  d_liquidity : Q;
  d_investment_points : Z;
  d_brand_strength : Z;
  d_market_type : string;
  d_economic_condition : string;
  d_actions : list string;
  d_strategic_actions : Z;
  d_competitor_ai : list string
}.

Record GUI : Type := mkGUI {
  state : Campaign;
  logs : list LogEntry;
  sim_data : list Snapshot;
  dialogs : list (string * string)
}.

Definition set_state (v : Campaign) (x : GUI) : GUI :=
  mkGUI v (logs x) (sim_data x) (dialogs x).
Definition set_logs (v : list LogEntry) (x : GUI) : GUI :=
  mkGUI (state x) v (sim_data x) (dialogs x).
Definition set_sim_data (v : list Snapshot) (x : GUI) : GUI :=
  mkGUI (state x) (logs x) v (dialogs x).
Definition set_dialogs (v : list (string * string)) (x : GUI) : GUI :=
  mkGUI (state x) (logs x) (sim_data x) v.

Definition the_state : M GUI Campaign := (g <- get ;; ret (state g))%py.

Definition update (f : Campaign -> Campaign) : M GUI unit :=
  modify (fun g => set_state (f (state g)) g).

Definition log (template : string) (args : list Arg) (event_type : string)
  : M GUI unit :=
  modify (fun g => set_logs (logs g ++ [mkLog template args event_type]) g).

Definition market_types : list string :=
  ["stable"; "volatile"; "regulated"; "expanding"; "recessive"; "emerging";
   "saturated"; "niche"].
Definition economic_conditions : list string :=
  ["growth"; "recession"; "inflation"; "stagnation"; "boom"; "crisis"].
Definition quarter_cycle : list string := ["Q1"; "Q2"; "Q3"; "Q4"].

Definition default_units : Units :=
  [("sales_team", mkUnit "Sales Team" 3000 8 6 7 0.6 [("brand_boost", 1%Z)]);
   ("marketing", mkUnit "Marketing" 1500 10 5 6 0.5 []);
   ("rnd", mkUnit "R&D" 800 15 8 5 0.7 [("innovation", 1%Z)]);
   ("legal", mkUnit "Legal" 400 4 13 3 0.4 []);
   ("finance", mkUnit "Finance" 1000 6 10 4 0.5 []);
   ("analytics", mkUnit "Analytics" 300 5 7 4 0.5 []);
   ("intelligence", mkUnit "Market Intelligence" 100 2 2 7 0.6 [("espionage", 9%Z)])].

(** [load_unit_config(custom)].  [unit_config] is the dict that reading
    [unit_config.json] gives, or [None] when the file is absent or cannot be
    read; it is only looked at for [custom=True]. *)
Definition load_unit_config (custom : bool) (unit_config : option Units) : Units :=
  if custom then
    match unit_config with
    | Some us => us
    | None => default_units
    end
  else default_units.

Definition new_competitor (name : string) (us : Units) (personality : string)
  : Competitor :=
  mkCompetitor name us (AI.mkAI personality 5 [] (@nil Q)) 0.6 0.3 0.9.

(** [BusinessCampaignState.__init__]: three choices are drawn, in the order
    market, economy, quarter. *)
Definition init_state (unit_config : option Units) : M GUI unit :=
  (market <- choice market_types "" ;;
   economy <- choice economic_conditions "" ;;
   quarter <- choice quarter_cycle "" ;;
   modify (set_state
     (mkCampaign (load_unit_config false unit_config) 0.85
        (mkResources 2000 300 0) 0.7 0 1 0 market economy quarter
        [new_competitor "Competitor A" (load_unit_config true unit_config) "aggressive";
         new_competitor "Competitor B" (load_unit_config true unit_config) "defensive"])))%py.

Inductive ExternalEvent : Type :=
| tech_breakthrough | market_crash | regulatory_change.

Definition event_name (e : ExternalEvent) : string :=
  match e with
  | tech_breakthrough => "Tech Breakthrough"
  | market_crash => "Market Crash"
  | regulatory_change => "Regulatory Change"
  end.

Definition event_description (e : ExternalEvent) : string :=
  match e with
  | tech_breakthrough => "Innovation gain boosts R&D impact"
  | market_crash => "Liquidity drop and increased stress due to crash"
  | regulatory_change => "Legal costs increase"
  end.

Definition impact_fn (e : ExternalEvent) (s : Campaign) : Campaign :=
  match e with
  | tech_breakthrough =>
      if has_key "rnd" (units s)
      then set_units (change "rnd" (fun u => set_impact (Qred (impact u * 1.3)) u)
                             (units s)) s
      else s
  | market_crash =>
      let s := set_liquidity (fmax 0 (liquidity s - 0.3)) s in
      set_stress (fmin 1 (stress s + 0.2)) s
  | regulatory_change =>
      if has_key "legal" (units s)
      then set_units (change "legal" (fun u => set_budget (budget u + 100) u)
                             (units s)) s
      else s
  end.

Definition trigger_external_event : M GUI (string * string) :=
  (event <- choice [tech_breakthrough; market_crash; regulatory_change]
                   tech_breakthrough ;;
   update (impact_fn event) ;;
   ret (event_name event, event_description event))%py.

Definition parse_invest_dist (dist : string) : list Z :=
  Parse.parse_percentages [30; 20; 15; 10; 15; 5; 5]%Z 7 dist.

Definition subscript (l : list Z) (i : nat) : M GUI Z :=
  match nth_error l i with
  | Some x => ret x
  | None => raise IndexError
  end.

(** The body of [for i, key in enumerate(units_keys)], from index [i] on. *)
Fixpoint invest_from (i : nat) (units_keys : list string) (investment_gain : Z)
    (invest_dist : list Z) : M GUI unit :=
  match units_keys with
  | [] => ret tt
  | key :: rest =>
      (share <- subscript invest_dist i ;;
       let add_budget := Py.int (Z2Q (investment_gain * share) / 100) in
       update (fun s => set_units
                 (change key (fun u => set_budget (budget u + add_budget) u)
                         (units s)) s) ;;
       s <- the_state ;;
       when (0 <? add_budget)%Z
         (log "Invested {} in {}." [AZ add_budget; AS (name_of key (units s))]
              "investment") ;;
       invest_from (S i) rest investment_gain invest_dist)%py
  end.

(** [EnhancedCompetitorAI.adjust_behavior] on one competitor; the result is
    the competitor with its AI updated and the chosen action. *)
Definition adjust_behavior (c : Competitor) : M GUI (Competitor * string) :=
  (a <- of_result (AI.decide_personality AI.business_labels (ai c)) ;;
   let p := AI.personality a in
   feint <- (if String.eqb p "deceptive" then ret true
             else r <- random ;; ret (r <? 0.1)) ;;
   let comp_action :=
     if String.eqb p "aggressive" then "aggressive"
     else if String.eqb p "defensive" then "defensive"
     else "deceptive" in
   ret (set_ai a c, comp_action))%py.

(** [for comp in state.competitors: ...] over the competitors not yet
    visited; [done] are the ones already visited.  The AI of [comp] is
    mutated in place, so the list is written back after each call. *)
Fixpoint competitors_act (todo done : list Competitor) : M GUI unit :=
  match todo with
  | [] => ret tt
  | comp :: rest =>
      ('(comp', comp_action) <- adjust_behavior comp ;;
       update (set_competitors (done ++ comp' :: rest)) ;;
       log "{} acts {}." [AS (c_name comp); AS comp_action] "intel" ;;
       competitors_act rest (done ++ [comp']))%py
  end.

(** [for comp in state.competitors: for u in comp.units.values():
    u.budget = f(u.budget)] *)
Definition competitors_budgets (f : Z -> Z) (cs : list Competitor)
  : list Competitor :=
  map (fun comp => set_c_units (map_budgets f (c_units comp)) comp) cs.

Definition snapshot (quarter : Z) (competitor_sentiment : Q) (s : Campaign)
  : Snapshot :=
  mkSnapshot quarter
    (total_budget (units s))
    (zsum (map calculate_total_assets (competitors s)))
    (sentiment s) competitor_sentiment (stress s) (liquidity s)
    (investment_points (resources s)) (brand_strength (resources s))
    (current_market s) (current_economy s) [] 0
    (map (fun comp => AI.personality (ai comp)) (competitors s)).

(** The two scores of the market competition:
    [sum(u.effective_impact(state.stress) for u in player_units.values())] and
    [sum(comp.calculate_total_assets() for comp in state.competitors)]. *)
Definition player_score (s : Campaign) : Q :=
  fsum (map (effective_impact (stress s)) (values (units s))).
Definition competitors_score (s : Campaign) : Z :=
  zsum (map calculate_total_assets (competitors s)).

(** The body of [for quarter in range(1, turns + 1)], block by block; each
    block is named after the comment that opens it in the source. *)

(** [# External event chance] *)
Definition external_event_chance : M GUI unit :=
  (r <- random ;;
   if r <? 0.15
   then '(event_name, event_desc) <- trigger_external_event ;;
        log "External event: {} - {}" [AS event_name; AS event_desc] "event"
   else ret tt)%py.

(** [# Environment updates] *)
Definition environment_updates (quarter : Z) : M GUI unit :=
  ((if (quarter mod 2 =? 0)%Z
    then economy <- choice economic_conditions "" ;;
         update (set_current_economy economy)
    else ret tt) ;;
   update (set_current_quarter
             (nth (Z.to_nat ((quarter - 1) mod 4)) quarter_cycle "")) ;;
   r <- random ;;
   if r <? 0.12
   then market <- choice market_types "" ;; update (set_current_market market)
   else ret tt)%py.

(** [# Player investment] *)
Definition player_investment (invest_dist : list Z) : M GUI unit :=
  (s <- the_state ;;
   let investment_gain := Py.int (Z2Q (investment_points (resources s)) * 0.1) in
   let cash_spent := (investment_gain * 5)%Z in
   if (cash_spent <=? cash (resources s))%Z && (0 <? investment_gain)%Z
   then
     update (fun s => set_resources
               (set_cash (cash (resources s) - cash_spent) (resources s)) s) ;;
     invest_from 0 (keys (units s)) investment_gain invest_dist
   else log "Not enough cash to invest." [] "failure")%py.

(** [# Competitors AI actions] *)
Definition competitors_ai_actions : M GUI unit :=
  (s <- the_state ;; competitors_act (competitors s) [])%py.

(** [# Market competition results] *)
Definition market_competition_results : M GUI unit :=
  (s <- the_state ;;
   let n := Z.of_nat (List.length (competitors s)) in
   let player_score := player_score s in
   let competitors_score := competitors_score s in
   if Z2Q competitors_score <? player_score
   then
     let gained := Py.int ((player_score - Z2Q competitors_score) * 0.05) in
     let lost := Py.int (Z2Q competitors_score * 0.03) in
     update (fun s => set_competitors
               (competitors_budgets (fun b => zmax 0 (b - lost / n)) (competitors s)) s) ;;
     update (fun s => set_units (map_budgets (fun b => zmax 0 (b - lost)) (units s)) s) ;;
     log "Player gained {} market share from competitors." [AZ gained] "success"
   else
     let lost := Py.int ((Z2Q competitors_score - player_score) * 0.06) in
     let gained := Py.int (player_score * 0.02) in
     update (fun s => set_units (map_budgets (fun b => zmax 0 (b - lost)) (units s)) s) ;;
     update (fun s => set_competitors
               (competitors_budgets (fun b => (b + gained / n)%Z) (competitors s)) s) ;;
     log "Player lost {} market share." [AZ lost] "failure")%py.

(** [# Update sentiments, stress, liquidity] *)
Definition update_sentiments_stress_liquidity : M GUI unit :=
  (d <- uniform (- 0.01) 0.02 ;;
   update (fun s => set_sentiment (fmax 0 (fmin 1 (sentiment s - 0.02 + d))) s) ;;
   d <- uniform (- 0.01) 0.01 ;;
   update (fun s => set_stress (fmax 0 (fmin 1 (stress s + 0.03 + d))) s) ;;
   d <- uniform (- 0.01) 0.01 ;;
   update (fun s => set_liquidity (fmax 0 (fmin 1 (liquidity s - 0.01 + d))) s))%py.

(** [# Record turn data] *)
Definition record_turn_data (quarter : Z) : M GUI unit :=
  (s <- the_state ;;
   competitor_sentiment <-
     (if (Z.of_nat (List.length (competitors s)) =? 0)%Z
      then raise ZeroDivisionError
      else ret (fsum (map c_sentiment (competitors s))
                / Z2Q (Z.of_nat (List.length (competitors s))))) ;;
   modify (fun g => set_sim_data
             (sim_data g ++ [snapshot quarter competitor_sentiment s]) g))%py.

Definition quarter_body (quarter : Z) (invest_dist : list Z) : M GUI unit :=
  (log "--- Quarter {} ---" [AZ quarter] "info" ;;
   external_event_chance ;;
   environment_updates quarter ;;
   player_investment invest_dist ;;
   competitors_ai_actions ;;
   market_competition_results ;;
   update_sentiments_stress_liquidity ;;
   record_turn_data quarter)%py.

Fixpoint quarters (remaining : nat) (quarter : Z) (invest_dist : list Z)
  : M GUI unit :=
  match remaining with
  | O => ret tt
  | S k =>
      (quarter_body quarter invest_dist ;;
       quarters k (quarter + 1)%Z invest_dist)%py
  end.

Definition showerror (title message : string) : M GUI unit :=
  modify (fun g => set_dialogs (dialogs g ++ [(title, message)]) g).

(** [run_simulation]; the state is the one the constructor or the previous
    run left.  [turns_var_get] and [invest_dist_var] are as in variant 001. *)
Definition run_simulation (turns_var_get : result Z) (invest_dist_var : string)
  : M GUI unit :=
  (modify (set_logs []) ;;
   modify (set_sim_data []) ;;
   checked <- try_except
     (turns <- of_result turns_var_get ;;
      if (turns <=? 0)%Z then raise ValueError else ret (Some turns))
     (fun _ => showerror "Error" "Please enter a positive integer for quarters." ;;
               ret None) ;;
   match checked with
   | None => ret tt
   | Some turns =>
       let invest_dist := parse_invest_dist invest_dist_var in
       log "=== Starting business simulation with multiple competitors ===" []
           "info" ;;
       quarters (Z.to_nat turns) 1%Z invest_dist ;;
       log "=== Simulation Ended ===" [] "event"
   end)%py.

(** The GUI object before [BusinessCampaignState()] has run. *)
Definition blank : GUI :=
  mkGUI (mkCampaign [] 0 (mkResources 0 0 0) 0 0 0 0 "" "" "" []) [] [] [].

(** [BusinessSimulatorGUI.__init__] followed by one press of the start
    button. *)
Definition session (unit_config : option Units) (turns_var_get : result Z)
    (invest_dist_var : string) : M GUI unit :=
  (init_state unit_config ;; run_simulation turns_var_get invest_dist_var)%py.

End V2.

(** ** Variant 003: stock portfolio with simulated prices *)

Module V3.
Local Open Scope string_scope.
Local Open Scope list_scope.
Local Open Scope Q_scope.

(** [AssetType]; [special] is always the empty dict and is left out. *)
Record AssetType : Type := mkAsset {
  name : string;
  ticker : string;
  quantity : Z;
  volatility : Q;
  a_liquidity : Q
}.

Definition set_quantity (v : Z) (x : AssetType) : AssetType :=
  mkAsset (name x) (ticker x) v (volatility x) (a_liquidity x).

(** [market_cond], the dict with the keys [fear_index], [liquidity] and
    [volatility]. *)
Record MarketCond : Type := mkCond {
  fear_index : Q;
  liquidity : Q;
  volatility_index : Q
}.

(** [PortfolioState]; [portfolio_history] is never written after [[]] and is
    left out. *)
Record PortfolioState : Type := mkState {
  assets : list AssetType;
  cash : Q;
  market_ai : AI.t Q;
  risk_aversion : Q;
  market_cond : MarketCond
}.

Definition set_assets (v : list AssetType) (x : PortfolioState) : PortfolioState :=
  mkState v (cash x) (market_ai x) (risk_aversion x) (market_cond x).
Definition set_cash (v : Q) (x : PortfolioState) : PortfolioState :=
  mkState (assets x) (Qred v) (market_ai x) (risk_aversion x) (market_cond x).
Definition set_market_ai (v : AI.t Q) (x : PortfolioState) : PortfolioState :=
  mkState (assets x) (cash x) v (risk_aversion x) (market_cond x).
Definition set_market_cond (v : MarketCond) (x : PortfolioState) : PortfolioState :=
  mkState (assets x) (cash x) (market_ai x) (risk_aversion x) v.

Record Snapshot : Type := mkSnapshot {
  d_turn : Z;
  d_portfolio_value : Q;
  d_cash : Q;
  d_market_fear : Q;
  d_market_liquidity : Q;
  d_market_volatility : Q;
  d_ai_personality : string;
  d_tactics : list string;
  d_beat_market : bool
}.

Record GUI : Type := mkGUI {
  state : PortfolioState;
  logs : list LogEntry;
  sim_data : list Snapshot;
  dialogs : list (string * string)
}.

Definition set_state (v : PortfolioState) (x : GUI) : GUI :=
  mkGUI v (logs x) (sim_data x) (dialogs x).
Definition set_logs (v : list LogEntry) (x : GUI) : GUI :=
  mkGUI (state x) v (sim_data x) (dialogs x).
Definition set_sim_data (v : list Snapshot) (x : GUI) : GUI :=
  mkGUI (state x) (logs x) v (dialogs x).
Definition set_dialogs (v : list (string * string)) (x : GUI) : GUI :=
  mkGUI (state x) (logs x) (sim_data x) v.

Definition the_state : M GUI PortfolioState := (g <- get ;; ret (state g))%py.

Definition update (f : PortfolioState -> PortfolioState) : M GUI unit :=
  modify (fun g => set_state (f (state g)) g).

Definition log (template : string) (args : list Arg) (event_type : string)
  : M GUI unit :=
  modify (fun g => set_logs (logs g ++ [mkLog template args event_type]) g).

(** [d.get(k, default)] on a dict of prices. *)
Fixpoint dict_get (k : string) (d : list (string * Q)) (default : Q) : Q :=
  match d with
  | [] => default
  | (k', v) :: d' => if String.eqb k k' then v else dict_get k d' default
  end.

(** [get_stock_price]: the dict display draws the five prices in order, and
    the default argument of [get] is drawn as well, on every call. *)
Definition get_stock_price (ticker : string) : M GUI Q :=
  (aapl <- uniform 140 170 ;;
   goog <- uniform 2500 3000 ;;
   tsla <- uniform 700 900 ;;
   msft <- uniform 280 350 ;;
   spy <- uniform 400 450 ;;
   other <- uniform 100 1000 ;;
   ret (dict_get ticker
          [("AAPL", aapl); ("GOOG", goog); ("TSLA", tsla); ("MSFT", msft);
           ("SPY", spy)] other))%py.

(** The properties [AssetType.price] and [AssetType.value]: each read is a
    new call of [get_stock_price]. *)
Definition price (a : AssetType) : M GUI Q := get_stock_price (ticker a).
Definition value (a : AssetType) : M GUI Q :=
  (p <- price a ;; ret (Z2Q (quantity a) * p))%py.

(** [sum(a.value for a in assets)], accumulated from [acc]. *)
Fixpoint sum_values (l : list AssetType) (acc : Q) : M GUI Q :=
  match l with
  | [] => ret acc
  | a :: l' => (v <- value a ;; sum_values l' (acc + v))%py
  end.

Definition total_value : M GUI Q :=
  (s <- the_state ;;
   total <- sum_values (assets s) 0 ;;
   ret (cash s + total))%py.

(** [[a.value / tv for a in assets]] *)
Fixpoint shares (l : list AssetType) (tv : Q) : M GUI (list Q) :=
  match l with
  | [] => ret []
  | a :: l' =>
      (v <- value a ;;
       x <- (if tv =? 0 then raise ZeroDivisionError else ret (v / tv)) ;;
       xs <- shares l' tv ;;
       ret (x :: xs))%py
  end.

Definition asset_allocation : M GUI (list Q) :=
  (tv <- total_value ;;
   s <- the_state ;;
   shares (assets s) tv)%py.

Definition update_market_conditions : M GUI unit :=
  (d <- uniform (- 0.1) 0.1 ;;
   update (fun s => set_market_cond
     (mkCond (Qred (fmin 1 (fmax 0 (fear_index (market_cond s) + d))))
             (liquidity (market_cond s)) (volatility_index (market_cond s))) s) ;;
   d <- uniform (- 0.05) 0.05 ;;
   update (fun s => set_market_cond
     (mkCond (fear_index (market_cond s))
             (Qred (fmin 1 (fmax 0 (liquidity (market_cond s) + d))))
             (volatility_index (market_cond s))) s) ;;
   d <- uniform (- 0.07) 0.07 ;;
   update (fun s => set_market_cond
     (mkCond (fear_index (market_cond s)) (liquidity (market_cond s))
             (Qred (fmin 1 (fmax 0 (volatility_index (market_cond s) + d))))) s))%py.

Definition market_index_perf : M GUI Q := get_stock_price "SPY".

Definition default_stocks : list AssetType :=
  [mkAsset "Apple" "AAPL" 20 0.18 0.95;
   mkAsset "Google" "GOOG" 3 0.22 0.97;
   mkAsset "Tesla" "TSLA" 8 0.35 0.90;
   mkAsset "Microsoft" "MSFT" 10 0.12 0.98;
   mkAsset "S&P 500 ETF" "SPY" 10 0.09 1.0].

(** [init_portfolio()] with its default arguments: the personality is drawn
    first, then the three market conditions. *)
Definition init_portfolio : M GUI unit :=
  (personality <- choice ["bullish"; "bearish"; "sideways"] "" ;;
   fear <- uniform 0.1 0.9 ;;
   liq <- uniform 0.5 1.0 ;;
   vol <- uniform 0.1 0.4 ;;
   modify (set_state
     (mkState default_stocks 10000
        (AI.mkAI personality 5 [] [0.5; 0.2; 0.1; 0.1; 0.1])
        0.7 (mkCond (Qred fear) (Qred liq) (Qred vol)))))%py.

Definition parse_allocation (dist : string) : list Z :=
  Parse.parse_percentages [30; 20; 10; 20; 20]%Z 5 dist.

Definition sun_tzu_tactics (market_cond : MarketCond) (turn : Z)
  : M GUI (list string) :=
  (let a1 := if (0.7 <? fear_index market_cond) && (turn mod 3 =? 0)%Z
             then ["Seize the opportunity: Buy when others fear."] else [] in
   let a2 := if liquidity market_cond <? 0.4
             then ["Conserve cash: Stay defensive in illiquid times."] else [] in
   let a3 := if 0.6 <? volatility_index market_cond
             then ["Hedge risk: Add index ETFs or reduce exposure."] else [] in
   r <- random ;;
   let a4 := if r <? 0.1
             then ["Gather intelligence: Research for edge info."] else [] in
   ret (a1 ++ a2 ++ a3 ++ a4))%py.

(** [assets[i] = a], for an index inside the list. *)
Fixpoint set_nth {A} (i : nat) (a : A) (l : list A) : list A :=
  match l, i with
  | [], _ => []
  | _ :: l', O => a :: l'
  | x :: l', S j => x :: set_nth j a l'
  end.

Definition set_asset_quantity (i : nat) (q : Z) (s : PortfolioState)
  : PortfolioState :=
  match nth_error (assets s) i with
  | Some a => set_assets (set_nth i (set_quantity q a) (assets s)) s
  | None => s
  end.

(** [alloc_perc[i]] *)
Definition subscript (l : list Q) (i : nat) : M GUI Q :=
  match nth_error l i with
  | Some x => ret x
  | None => raise IndexError
  end.

(** One pass of [for i, asset in enumerate(self.state.assets)] in the
    rebalancing loop; [asset] is the object at index [i]. *)
Definition trade (total_value : Q) (alloc_perc : list Q) (i : nat)
    (asset : AssetType) : M GUI unit :=
  (share <- subscript alloc_perc i ;;
   let target_value := total_value * share in
   p <- price asset ;;
   qty_target <- (if 0 <? p
                  then p' <- price asset ;; ret (target_value / p')
                  else ret 0) ;;
   let diff_qty := Py.int (qty_target - Z2Q (quantity asset)) in
   if (0 <? diff_qty)%Z
   then
     p <- price asset ;;
     let cost := Z2Q diff_qty * p in
     s <- the_state ;;
     when (cost <=? cash s)
       (update (fun s => set_cash (cash s - cost) s) ;;
        update (set_asset_quantity i (quantity asset + diff_qty)) ;;
        log "Bought {} {}." [AZ diff_qty; AS (ticker asset)] "trade")
   else if (diff_qty <? 0)%Z
   then
     p <- price asset ;;
     let revenue := Z2Q (- diff_qty) * p in
     update (fun s => set_cash (cash s + revenue) s) ;;
     update (set_asset_quantity i (quantity asset + diff_qty)) ;;
     log "Sold {} {}." [AZ (- diff_qty); AS (ticker asset)] "trade"
   else ret tt)%py.

(** A loop over the assets by index, reading the object at each index when
    its turn comes. *)
Fixpoint for_assets (count i : nat) (body : nat -> AssetType -> M GUI unit)
  : M GUI unit :=
  match count with
  | O => ret tt
  | S k =>
      (s <- the_state ;;
       match nth_error (assets s) i with
       | Some a => body i a
       | None => ret tt
       end ;;
       for_assets k (S i) body)%py
  end.

Definition each_asset (body : nat -> AssetType -> M GUI unit) : M GUI unit :=
  (s <- the_state ;; for_assets (List.length (assets s)) 0 body)%py.

(** [SunTzuMarketAI.adjust_market_conditions]: (volatile, strong_drop,
    surprise_rally). *)
Definition adjust_market_conditions : M GUI (bool * bool * bool) :=
  (s <- the_state ;;
   a <- of_result (AI.decide_personality AI.market_labels (market_ai s)) ;;
   update (set_market_ai a) ;;
   let p := AI.personality a in
   surprise_rally <- (if String.eqb p "bullish"
                      then r <- random ;; ret (r <? 0.15)
                      else ret false) ;;
   ret (String.eqb p "sideways", String.eqb p "bearish", surprise_rally))%py.

Definition strong_drop_on (i : nat) (asset : AssetType) : M GUI unit :=
  (drop <- uniform 0.05 0.15 ;;
   r <- random ;;
   when (r <? 0.8)
     (update (set_asset_quantity i
                (zmax 0 (Py.int (Z2Q (quantity asset) * (1 - drop)))))))%py.

Definition surprise_rally_on (i : nat) (asset : AssetType) : M GUI unit :=
  (gain <- uniform 0.04 0.09 ;;
   r <- random ;;
   when (r <? 0.7)
     (update (set_asset_quantity i
                (Py.int (Z2Q (quantity asset) * (1 + gain))))))%py.

Definition log_asset (i : nat) (asset : AssetType) : M GUI unit :=
  (p <- price asset ;;
   v <- value asset ;;
   log "  {}: {} units @ ${:.2f} each, Total=${:.2f}"
       [AS (ticker asset); AZ (quantity asset); AQ p; AQ v] "info")%py.

Definition portfolio_turn (alloc_dist : list Z) : M GUI unit :=
  (update_market_conditions ;;
   g <- get ;;
   let turn := (Z.of_nat (List.length (sim_data g)) + 1)%Z in
   log "--- Turn {} ---" [AZ turn] "info" ;;
   let alloc_perc := map (fun x => Z2Q x / 100) alloc_dist in
   portfolio_value_before <- total_value ;;
   market_index_start <- market_index_perf ;;

   s <- the_state ;;
   tactics <- sun_tzu_tactics (market_cond s) turn ;;
   for_each tactics (fun tactic => log "Strategy: {}" [AS tactic] "event") ;;

   total <- total_value ;;
   each_asset (trade total alloc_perc) ;;

   '(_, strong_drop, surprise_rally) <- adjust_market_conditions ;;
   when strong_drop
     (log "Market drops sharply! Your aggressive positions suffer!" [] "loss" ;;
      each_asset strong_drop_on) ;;
   when surprise_rally
     (log "Sudden rally: Weak positions surge!" [] "win" ;;
      each_asset surprise_rally_on) ;;

   new_value <- total_value ;;
   market_index_end <- market_index_perf ;;
   let beat_market :=
     (market_index_end - market_index_start) <? (new_value - portfolio_value_before) in
   allocation <- asset_allocation ;;
   update (fun s => set_market_ai
             (AI.observe_outcome beat_market allocation (market_ai s)) s) ;;
   s <- the_state ;;
   a <- of_result (AI.decide_personality AI.market_labels (market_ai s)) ;;
   update (set_market_ai a) ;;

   s <- the_state ;;
   log "Total portfolio value: ${:.2f} (Cash: ${:.2f})"
       [AQ new_value; AQ (cash s)] "info" ;;
   each_asset log_asset ;;
   s <- the_state ;;
   modify (fun g => set_sim_data
     (sim_data g ++
      [mkSnapshot (Z.of_nat (List.length (sim_data g)) + 1) (Qred new_value)
         (cash s) (fear_index (market_cond s)) (liquidity (market_cond s))
         (volatility_index (market_cond s)) (AI.personality (market_ai s))
         tactics beat_market]) g))%py.

(** [for _ in range(turns)] with its [break]. *)
Fixpoint turns_loop (remaining : nat) (alloc_dist : list Z) : M GUI unit :=
  match remaining with
  | O => ret tt
  | S k =>
      (portfolio_turn alloc_dist ;;
       tv <- total_value ;;
       if tv <=? 0
       then log "Portfolio completely lost. Simulation ends." [] "loss"
       else turns_loop k alloc_dist)%py
  end.

Definition showerror (title message : string) : M GUI unit :=
  modify (fun g => set_dialogs (dialogs g ++ [(title, message)]) g).

(** [run_simulation]; [turns_var_get] is what [self.turns_var.get()] gives
    (see variant 001) and [alloc_var] the text of the allocation entry. *)
Definition run_simulation (turns_var_get : result Z) (alloc_var : string)
  : M GUI unit :=
  (modify (set_logs []) ;;
   modify (set_sim_data []) ;;
   init_portfolio ;;
   checked <- try_except
     (turns <- of_result turns_var_get ;;
      if (0 <? turns)%Z then ret (Some turns) else raise AssertionError)
     (fun _ => showerror "Error" "Invalid number of turns." ;; ret None) ;;
   match checked with
   | None => ret tt
   | Some turns =>
       let alloc_dist := parse_allocation alloc_var in
       log "=== Starting Sun Tzu Stock Portfolio Simulation ===" [] "info" ;;
       turns_loop (Z.to_nat turns) alloc_dist ;;
       log "=== Simulation Ended ===" [] "event"
   end)%py.

(** The GUI object before [init_portfolio] has run. *)
Definition blank : GUI :=
  mkGUI (mkState [] 0 (AI.mkAI "" 5 [] (@nil Q)) 0 (mkCond 0 0 0)) [] [] [].

(** [PortfolioSimulatorGUI.__init__] (the constructor of the state calls
    [init_portfolio]) followed by one press of the run button. *)
Definition session (turns_var_get : result Z) (alloc_var : string)
  : M GUI unit :=
  (init_portfolio ;; run_simulation turns_var_get alloc_var)%py.

End V3.

(** ** Variant 005: stock portfolio with live quotes *)

Module V5.
Local Open Scope string_scope.
Local Open Scope list_scope.
Local Open Scope Q_scope.

(** A float together with its run-time type: a quote read from the data
    source is a [numpy.float64], and so is every result of arithmetic with
    one; a simulated price is a Python [float].  The two differ in division
    by zero: Python raises, numpy gives [nan] or [inf] and carries on. *)
Record Num : Type := mkNum {
  val : Q;
  numpy : bool
}.

Definition py (x : Q) : Num := mkNum x false.
Definition add (a b : Num) : Num := mkNum (Qred (val a + val b)) (numpy a || numpy b).
Definition sub (a b : Num) : Num := mkNum (Qred (val a - val b)) (numpy a || numpy b).
Definition scale (k : Q) (a : Num) : Num := mkNum (k * val a) (numpy a).

(** [a / b]; [None] stands for the [nan] or [inf] of numpy. *)
Definition divide (a b : Num) : result (option Q) :=
  if val b =? 0
  then if numpy a || numpy b then Ok None else Raise ZeroDivisionError
  else Ok (Some (val a / val b)).

Record AssetType : Type := mkAsset {
  name : string;
  ticker : string;
  quantity : Z;
  volatility : Q;
  a_liquidity : Q
}.

Definition set_quantity (v : Z) (x : AssetType) : AssetType :=
  mkAsset (name x) (ticker x) v (volatility x) (a_liquidity x).

Record MarketCond : Type := mkCond {
  fear_index : Q;
  liquidity : Q;
  volatility_index : Q
}.

Record PortfolioState : Type := mkState {
  assets : list AssetType;
  cash : Num;
  market_ai : AI.t (option Q);
  risk_aversion : Q;
  market_cond : MarketCond
}.

Definition set_assets (v : list AssetType) (x : PortfolioState) : PortfolioState :=
  mkState v (cash x) (market_ai x) (risk_aversion x) (market_cond x).
Definition set_cash (v : Num) (x : PortfolioState) : PortfolioState :=
  mkState (assets x) v (market_ai x) (risk_aversion x) (market_cond x).
Definition set_market_ai (v : AI.t (option Q)) (x : PortfolioState) : PortfolioState :=
  mkState (assets x) (cash x) v (risk_aversion x) (market_cond x).
Definition set_market_cond (v : MarketCond) (x : PortfolioState) : PortfolioState :=
  mkState (assets x) (cash x) (market_ai x) (risk_aversion x) v.

(** A recommendation: the f-string as template and arguments. *)
Definition Advice : Type := (string * list Arg)%type.

Record Snapshot : Type := mkSnapshot {
  d_turn : Z;
  d_portfolio_value : Q;
  d_cash : Q;
  d_market_fear : Q;
  d_market_liquidity : Q;
  d_market_volatility : Q;
  d_ai_personality : string;
  d_tactics : list Advice;
  d_beat_market : bool
}.

(** The GUI object and the data source it talks to: [feed n ticker] is the
    closing price that the [n]-th request returns for [ticker], or [None]
    when that request fails; [calls] counts the requests made. *)
Record GUI : Type := mkGUI {
  state : PortfolioState;
  logs : list LogEntry;
  sim_data : list Snapshot;
  dialogs : list (string * string);
  feed : nat -> string -> option Q;
  calls : nat
}.

Definition set_state (v : PortfolioState) (x : GUI) : GUI :=
  mkGUI v (logs x) (sim_data x) (dialogs x) (feed x) (calls x).
Definition set_logs (v : list LogEntry) (x : GUI) : GUI :=
  mkGUI (state x) v (sim_data x) (dialogs x) (feed x) (calls x).
Definition set_sim_data (v : list Snapshot) (x : GUI) : GUI :=
  mkGUI (state x) (logs x) v (dialogs x) (feed x) (calls x).
Definition set_dialogs (v : list (string * string)) (x : GUI) : GUI :=
  mkGUI (state x) (logs x) (sim_data x) v (feed x) (calls x).
Definition set_calls (v : nat) (x : GUI) : GUI :=
  mkGUI (state x) (logs x) (sim_data x) (dialogs x) (feed x) v.

Definition the_state : M GUI PortfolioState := (g <- get ;; ret (state g))%py.

Definition update (f : PortfolioState -> PortfolioState) : M GUI unit :=
  modify (fun g => set_state (f (state g)) g).

Definition log (template : string) (args : list Arg) (event_type : string)
  : M GUI unit :=
  modify (fun g => set_logs (logs g ++ [mkLog template args event_type]) g).

Fixpoint dict_get (k : string) (d : list (string * Q)) (default : Q) : Q :=
  match d with
  | [] => default
  | (k', v) :: d' => if String.eqb k k' then v else dict_get k d' default
  end.

(** [get_stock_price]: the quote when the request succeeds, else the
    simulated price table of variant 003. *)
Definition get_stock_price (ticker : string) : M GUI Num :=
  (g <- get ;;
   modify (set_calls (S (calls g))) ;;
   match feed g (calls g) ticker with
   | Some quote => ret (mkNum quote true)
   | None =>
       aapl <- uniform 140 170 ;;
       goog <- uniform 2500 3000 ;;
       tsla <- uniform 700 900 ;;
       msft <- uniform 280 350 ;;
       spy <- uniform 400 450 ;;
       other <- uniform 100 1000 ;;
       ret (py (dict_get ticker
                  [("AAPL", aapl); ("GOOG", goog); ("TSLA", tsla);
                   ("MSFT", msft); ("SPY", spy)] other))
   end)%py.

Definition price (a : AssetType) : M GUI Num := get_stock_price (ticker a).
Definition value (a : AssetType) : M GUI Num :=
  (p <- price a ;; ret (scale (Z2Q (quantity a)) p))%py.

Fixpoint sum_values (l : list AssetType) (acc : Num) : M GUI Num :=
  match l with
  | [] => ret acc
  | a :: l' => (v <- value a ;; sum_values l' (add acc v))%py
  end.

Definition total_value : M GUI Num :=
  (s <- the_state ;;
   total <- sum_values (assets s) (py 0) ;;
   ret (add (cash s) total))%py.

Fixpoint shares (l : list AssetType) (tv : Num) : M GUI (list (option Q)) :=
  match l with
  | [] => ret []
  | a :: l' =>
      (v <- value a ;;
       x <- of_result (divide v tv) ;;
       xs <- shares l' tv ;;
       ret (x :: xs))%py
  end.

Definition asset_allocation : M GUI (list (option Q)) :=
  (tv <- total_value ;;
   s <- the_state ;;
   shares (assets s) tv)%py.

Definition update_market_conditions : M GUI unit :=
  (d <- uniform (- 0.1) 0.1 ;;
   update (fun s => set_market_cond
     (mkCond (Qred (fmin 1 (fmax 0 (fear_index (market_cond s) + d))))
             (liquidity (market_cond s)) (volatility_index (market_cond s))) s) ;;
   d <- uniform (- 0.05) 0.05 ;;
   update (fun s => set_market_cond
     (mkCond (fear_index (market_cond s))
             (Qred (fmin 1 (fmax 0 (liquidity (market_cond s) + d))))
             (volatility_index (market_cond s))) s) ;;
   d <- uniform (- 0.07) 0.07 ;;
   update (fun s => set_market_cond
     (mkCond (fear_index (market_cond s)) (liquidity (market_cond s))
             (Qred (fmin 1 (fmax 0 (volatility_index (market_cond s) + d))))) s))%py.

Definition market_index_perf : M GUI Num := get_stock_price "SPY".

Definition default_stocks : list AssetType :=
  [mkAsset "Apple" "AAPL" 20 0.2 0.9;
   mkAsset "Google" "GOOG" 3 0.2 0.9;
   mkAsset "Tesla" "TSLA" 8 0.2 0.9;
   mkAsset "Microsoft" "MSFT" 10 0.2 0.9;
   mkAsset "S&P 500 ETF" "SPY" 10 0.2 0.9].

(** [PortfolioState.__init__]: the personality is drawn first, then the three
    market conditions. *)
Definition new_state : M GUI unit :=
  (personality <- choice ["bullish"; "bearish"; "sideways"] "" ;;
   fear <- uniform 0.1 0.9 ;;
   liq <- uniform 0.5 1.0 ;;
   vol <- uniform 0.1 0.4 ;;
   modify (set_state
     (mkState [] (py 0)
        (AI.mkAI personality 5 []
                 [Some 0.5; Some 0.2; Some 0.1; Some 0.1; Some 0.1])
        0.7 (mkCond (Qred fear) (Qred liq) (Qred vol)))))%py.

(** [init_portfolio()] with its default arguments: only the cash and the
    assets are reset. *)
Definition init_portfolio : M GUI unit :=
  (update (set_cash (py 10000)) ;;
   update (set_assets default_stocks))%py.

Definition parse_allocation (dist : string) : list Z :=
  Parse.parse_percentages [30; 20; 10; 20; 20]%Z 5 dist.

Definition sun_tzu_market_strategy (asset : AssetType)
    (fear_index volatility liquidity : Q) (cash_available : Num)
    (current_turn : Z) : M GUI (list Advice) :=
  (p <- price asset ;;
   let r1 :=
     if (0.7 <? fear_index) && (0.5 <? liquidity) && (val p <? val cash_available)
     then [("Buy more {}: market is fearful, opportunity to attack.",
            [AS (ticker asset)])]
     else if (0.6 <? volatility) && (0 <? quantity asset)%Z
     then [("Consider selling part of {}: market is volatile, reduce risk.",
            [AS (ticker asset)])]
     else if liquidity <? 0.4
     then [("Hold cash, liquidity is low: avoid aggressive moves.", [])]
     else [] in
   let r2 :=
     if (current_turn mod 5 =? 0)%Z
     then [("Reassess strategy for {} on turn {}.",
            [AS (ticker asset); AZ current_turn])]
     else [] in
   ret (r1 ++ r2))%py.

Fixpoint set_nth {A} (i : nat) (a : A) (l : list A) : list A :=
  match l, i with
  | [], _ => []
  | _ :: l', O => a :: l'
  | x :: l', S j => x :: set_nth j a l'
  end.

Definition set_asset_quantity (i : nat) (q : Z) (s : PortfolioState)
  : PortfolioState :=
  match nth_error (assets s) i with
  | Some a => set_assets (set_nth i (set_quantity q a) (assets s)) s
  | None => s
  end.

Definition subscript (l : list Q) (i : nat) : M GUI Q :=
  match nth_error l i with
  | Some x => ret x
  | None => raise IndexError
  end.

Definition trade (total_value : Num) (alloc_perc : list Q) (i : nat)
    (asset : AssetType) : M GUI unit :=
  (share <- subscript alloc_perc i ;;
   let target_value := val total_value * share in
   p <- price asset ;;
   qty_target <- (if 0 <? val p
                  then p' <- price asset ;; ret (target_value / val p')
                  else ret 0) ;;
   let diff_qty := Py.int (qty_target - Z2Q (quantity asset)) in
   if (0 <? diff_qty)%Z
   then
     p <- price asset ;;
     let cost := scale (Z2Q diff_qty) p in
     s <- the_state ;;
     when (val cost <=? val (cash s))
       (update (fun s => set_cash (sub (cash s) cost) s) ;;
        update (set_asset_quantity i (quantity asset + diff_qty)) ;;
        log "Bought {} {}." [AZ diff_qty; AS (ticker asset)] "trade")
   else if (diff_qty <? 0)%Z
   then
     p <- price asset ;;
     let revenue := scale (Z2Q (- diff_qty)) p in
     update (fun s => set_cash (add (cash s) revenue) s) ;;
     update (set_asset_quantity i (quantity asset + diff_qty)) ;;
     log "Sold {} {}." [AZ (- diff_qty); AS (ticker asset)] "trade"
   else ret tt)%py.

Fixpoint for_assets (count i : nat) (body : nat -> AssetType -> M GUI unit)
  : M GUI unit :=
  match count with
  | O => ret tt
  | S k =>
      (s <- the_state ;;
       match nth_error (assets s) i with
       | Some a => body i a
       | None => ret tt
       end ;;
       for_assets k (S i) body)%py
  end.

Definition each_asset (body : nat -> AssetType -> M GUI unit) : M GUI unit :=
  (s <- the_state ;; for_assets (List.length (assets s)) 0 body)%py.

(** The recommendation loop: [all_recommendations.extend(recs)] and one log
    line per recommendation. *)
Fixpoint advise (l : list AssetType) (turn : Z) (acc : list Advice)
  : M GUI (list Advice) :=
  match l with
  | [] => ret acc
  | asset :: l' =>
      (s <- the_state ;;
       recs <- sun_tzu_market_strategy asset
                 (fear_index (market_cond s)) (volatility_index (market_cond s))
                 (liquidity (market_cond s)) (cash s) turn ;;
       for_each recs (fun r => log "Strategy Advice: {}" (AS (fst r) :: snd r)
                                   "event") ;;
       advise l' turn (acc ++ recs))%py
  end.

Definition adjust_market_conditions : M GUI (bool * bool * bool) :=
  (s <- the_state ;;
   a <- of_result (AI.decide_personality AI.market_labels (market_ai s)) ;;
   update (set_market_ai a) ;;
   let p := AI.personality a in
   surprise_rally <- (if String.eqb p "bullish"
                      then r <- random ;; ret (r <? 0.15)
                      else ret false) ;;
   ret (String.eqb p "sideways", String.eqb p "bearish", surprise_rally))%py.

Definition strong_drop_on (i : nat) (asset : AssetType) : M GUI unit :=
  (drop <- uniform 0.05 0.15 ;;
   r <- random ;;
   when (r <? 0.8)
     (update (set_asset_quantity i
                (zmax 0 (Py.int (Z2Q (quantity asset) * (1 - drop)))))))%py.

Definition surprise_rally_on (i : nat) (asset : AssetType) : M GUI unit :=
  (gain <- uniform 0.04 0.09 ;;
   r <- random ;;
   when (r <? 0.7)
     (update (set_asset_quantity i
                (Py.int (Z2Q (quantity asset) * (1 + gain))))))%py.

Definition log_asset (i : nat) (asset : AssetType) : M GUI unit :=
  (p <- price asset ;;
   v <- value asset ;;
   log "  {}: {} units @ ${:.2f} each, Total=${:.2f}"
       [AS (ticker asset); AZ (quantity asset); AQ (val p); AQ (val v)] "info")%py.

Definition portfolio_turn (alloc_dist : list Z) : M GUI unit :=
  (update_market_conditions ;;
   g <- get ;;
   let turn := (Z.of_nat (List.length (sim_data g)) + 1)%Z in
   log "--- Turn {} ---" [AZ turn] "info" ;;
   let alloc_perc := map (fun x => Z2Q x / 100) alloc_dist in
   portfolio_value_before <- total_value ;;
   market_index_start <- market_index_perf ;;

   s <- the_state ;;
   all_recommendations <- advise (assets s) turn [] ;;

   total <- total_value ;;
   each_asset (trade total alloc_perc) ;;

   '(_, strong_drop, surprise_rally) <- adjust_market_conditions ;;
   when strong_drop
     (log "Market drops sharply! Your aggressive positions suffer!" [] "loss" ;;
      each_asset strong_drop_on) ;;
   when surprise_rally
     (log "Sudden rally: Weak positions surge!" [] "win" ;;
      each_asset surprise_rally_on) ;;

   new_value <- total_value ;;
   market_index_end <- market_index_perf ;;
   let beat_market :=
     (val market_index_end - val market_index_start)
       <? (val new_value - val portfolio_value_before) in
   allocation <- asset_allocation ;;
   update (fun s => set_market_ai
             (AI.observe_outcome beat_market allocation (market_ai s)) s) ;;
   s <- the_state ;;
   a <- of_result (AI.decide_personality AI.market_labels (market_ai s)) ;;
   update (set_market_ai a) ;;

   s <- the_state ;;
   log "Total portfolio value: ${:.2f} (Cash: ${:.2f})"
       [AQ (val new_value); AQ (val (cash s))] "info" ;;
   each_asset log_asset ;;
   s <- the_state ;;
   modify (fun g => set_sim_data
     (sim_data g ++
      [mkSnapshot (Z.of_nat (List.length (sim_data g)) + 1) (val new_value)
         (val (cash s)) (fear_index (market_cond s)) (liquidity (market_cond s))
         (volatility_index (market_cond s)) (AI.personality (market_ai s))
         all_recommendations beat_market]) g))%py.

Fixpoint turns_loop (remaining : nat) (alloc_dist : list Z) : M GUI unit :=
  match remaining with
  | O => ret tt
  | S k =>
      (portfolio_turn alloc_dist ;;
       tv <- total_value ;;
       if val tv <=? 0
       then log "Portfolio completely lost. Simulation ends." [] "loss"
       else turns_loop k alloc_dist)%py
  end.

Definition showerror (title message : string) : M GUI unit :=
  modify (fun g => set_dialogs (dialogs g ++ [(title, message)]) g).

Definition run_simulation (turns_var_get : result Z) (alloc_var : string)
  : M GUI unit :=
  (modify (set_logs []) ;;
   modify (set_sim_data []) ;;
   init_portfolio ;;
   checked <- try_except
     (turns <- of_result turns_var_get ;;
      if (0 <? turns)%Z then ret (Some turns) else raise AssertionError)
     (fun _ => showerror "Error" "Invalid number of turns." ;; ret None) ;;
   match checked with
   | None => ret tt
   | Some turns =>
       let alloc_dist := parse_allocation alloc_var in
       log "=== Starting Sun Tzu Stock Portfolio Simulation ===" [] "info" ;;
       turns_loop (Z.to_nat turns) alloc_dist ;;
       log "=== Simulation Ended ===" [] "event"
   end)%py.

(** The GUI object before [PortfolioState()] has run, talking to [feed]. *)
Definition blank (feed : nat -> string -> option Q) : GUI :=
  mkGUI (mkState [] (py 0) (AI.mkAI "" 5 [] []) 0 (mkCond 0 0 0)) [] [] []
        feed 0.

(** [PortfolioSimulatorGUI.__init__] followed by one press of the run
    button. *)
Definition session (turns_var_get : result Z) (alloc_var : string)
  : M GUI unit :=
  (new_state ;; run_simulation turns_var_get alloc_var)%py.

End V5.

(** ** Variant 006: the chess-phase market AI

    Only [SunTzuChessMarketAI.decide_personality] is embedded; its memory
    entries carry two more keys and the default [memory_len] is 7. *)

Module V6.
Local Open Scope string_scope.

Record MemEntry : Type := mkMem {
  beat_market : bool;
  portfolio_dist : list (option Q);
  risk_tension : Q;
  control_central : Q
}.

Record SunTzuChessMarketAI : Type := mkAI {
  personality : string;
  memory_len : Z;
  memory : list MemEntry;
  last_allocation : list (option Q);
  phase : string;
  tension_profile : list Q;
  turn_count : Z
}.

Definition set_personality (p : string) (ai : SunTzuChessMarketAI)
  : SunTzuChessMarketAI :=
  mkAI p (memory_len ai) (memory ai) (last_allocation ai) (phase ai)
       (tension_profile ai) (turn_count ai).

(** [SunTzuChessMarketAI(personality)] *)
Definition new (personality : string) : SunTzuChessMarketAI :=
  mkAI personality 7 [] [Some 0.5; Some 0.2; Some 0.1; Some 0.1; Some 0.1]%Q
       "opening" [] 0.

Definition decide_personality (ai : SunTzuChessMarketAI)
  : result SunTzuChessMarketAI :=
  let n := Z.of_nat (List.length (memory ai)) in
  if (n <? memory_len ai)%Z then Ok ai
  else
    let wins := map (fun m => if beat_market m then 1%Z else 0%Z) (memory ai) in
    if (n =? 0)%Z then Raise ZeroDivisionError
    else
      let win_rate := (Z2Q (zsum wins) / Z2Q n)%Q in
      if (0.7 <? win_rate)%Q then Ok (set_personality "bullish" ai)
      else if (win_rate <? 0.3)%Q then Ok (set_personality "bearish" ai)
      else Ok (set_personality "sideways" ai).

End V6.

(** * Specifications *)

Unset Implicit Arguments.

(** ** Assertions about methods *)

Module Hoare.

(** [triple P m Post Exc]: started in a world whose GUI object satisfies [P],
    the method [m] either returns [a] and leaves an object satisfying
    [Post a], or raises and leaves an object satisfying [Exc]. *)
Definition triple {G A} (P : G -> Prop) (m : M G A) (Post : A -> G -> Prop)
    (Exc : exn -> G -> Prop) : Prop :=
  forall w, P (gui w) ->
    match m w with
    | (Ok a, w') => Post a (gui w')
    | (Raise e, w') => Exc e (gui w')
    end.

(** No exception escapes. *)
Definition never {G} : exn -> G -> Prop := fun _ _ => False.

(** [preserves proj m]: whatever [m] does, the part [proj] of the object is
    the same afterwards, also when [m] raises. *)
Definition preserves {G A X} (proj : G -> X) (m : M G A) : Prop :=
  forall w, proj (gui (snd (m w))) = proj (gui w).

End Hoare.
Import Hoare.

(** ** The bounded scalars *)

Module Bounds.
Local Open Scope Q_scope.

Definition unit_range (x : Q) : Prop := 0 <= x /\ x <= 1.

(** A snapshot of variant 001 whose three bounded scalars are in range. *)
Definition V1_bounded (d : V1.Snapshot) : Prop :=
  unit_range (V1.d_sentiment d) /\ unit_range (V1.d_stress d)
  /\ unit_range (V1.d_liquidity d).

Definition V2_bounded (d : V2.Snapshot) : Prop :=
  unit_range (V2.d_player_sentiment d) /\ unit_range (V2.d_stress d)
  /\ unit_range (V2.d_liquidity d).

(** What holds of the GUI object of variant 001 between two statements of
    the quarter loop.  The stress may exceed 1 inside a quarter (the year-end
    effect adds to it without a cap); [capped] tells whether the cap of the
    end of the quarter has been applied. *)
Definition V1_inv (capped : bool) (g : V1.GUI) : Prop :=
  let s := V1.state g in
  0 <= V1.stress s
  /\ (capped = true -> V1.stress s <= 1)
  /\ unit_range (V1.liquidity s)
  /\ unit_range (V1.sentiment s)
  /\ (0 < AI.memory_len (V1.competitor_ai s))%Z
  /\ Forall V1_bounded (V1.sim_data g).

(** Every snapshot taken so far in variant 002 is in range. *)
Definition V2_good (g : V2.GUI) : Prop := Forall V2_bounded (V2.sim_data g).

(** After the block that updates them, the three scalars are clamped. *)
Definition V2_clamped (g : V2.GUI) : Prop :=
  V2_good g
  /\ unit_range (V2.sentiment (V2.state g))
  /\ unit_range (V2.stress (V2.state g))
  /\ unit_range (V2.liquidity (V2.state g)).

End Bounds.
Import Bounds.

(** ** The mean of recorded outcomes *)

Module Outcomes.
Local Open Scope Q_scope.

(** The number of [True] among the outcomes. *)
Definition trues (outcomes : list bool) : Z :=
  Z.of_nat (List.length (filter (fun b => b) outcomes)).

(** The mean of the outcome booleans, for a non-empty list. *)
Definition mean (outcomes : list bool) : Q :=
  Z2Q (trues outcomes) / Z2Q (Z.of_nat (List.length outcomes)).

(** The label that the specification gives to a mean. *)
Definition label (L : AI.Labels) (m : Q) (p : string) : Prop :=
  (0.7 < m -> p = AI.winning L)
  /\ (m < 0.3 -> p = AI.losing L)
  /\ (0.3 <= m -> m <= 0.7 -> p = AI.middle L).

Definition recorded {X} (ai : AI.t X) : list bool :=
  map (@AI.player_win X) (AI.memory ai).

Definition recorded_006 (ai : V6.SunTzuChessMarketAI) : list bool :=
  map V6.beat_market (V6.memory ai).

(** [ai'] is [ai] with the personality [p]: the personality is [p] and no
    other attribute has changed. *)
Definition relabelled {X} (p : string) (ai ai' : AI.t X) : Prop :=
  AI.personality ai' = p
  /\ AI.memory_len ai' = AI.memory_len ai
  /\ AI.memory ai' = AI.memory ai
  /\ AI.last_player_distribution ai' = AI.last_player_distribution ai.

Definition relabelled_006 (p : string) (ai ai' : V6.SunTzuChessMarketAI)
  : Prop :=
  V6.personality ai' = p
  /\ V6.memory_len ai' = V6.memory_len ai
  /\ V6.memory ai' = V6.memory ai
  /\ V6.last_allocation ai' = V6.last_allocation ai
  /\ V6.phase ai' = V6.phase ai
  /\ V6.tension_profile ai' = V6.tension_profile ai
  /\ V6.turn_count ai' = V6.turn_count ai.

End Outcomes.
Import Outcomes.

(** ** The allocation parser as the specification words it *)

Module Percentages.

(** "An input whose integers sum to any positive total other than 100 is
    rescaled so that the result sums to 100", for the parser with the given
    default list and width. *)
Definition rescaled_sum_is_100 (default : list Z) (width : nat) : Prop :=
  forall (dist : string) (l : list Z),
    Parse.ints_of dist = Ok l ->
    (0 < zsum l)%Z -> zsum l <> 100%Z ->
    zsum (Parse.parse_percentages default width dist) = 100%Z.

(** [l + [0]*(width - len(l))] *)
Definition padded (width : nat) (l : list Z) : list Z :=
  l ++ repeat 0%Z (width - List.length l).

End Percentages.
Import Percentages.

(** ** The score of one side as the specification words it *)

Module Scores.
Local Open Scope string_scope.
Local Open Scope Q_scope.

(** What the formula reads of an entity: impact, budget, the brand boost
    flag, and whether it is a marketing, R&D or analytics unit. *)
Record Entity : Type := mkEntity {
  e_impact : Q;
  e_budget : Q;
  e_brand_boost : bool;
  e_penalised : bool
}.

(** A regulated, volatile or saturated market. *)
Definition difficult (market : string) : bool :=
  existsb (String.eqb market) ["regulated"; "volatile"; "saturated"].

(** impact x budget x (1 - stress x 0.5), times 1.2 with the brand boost,
    minus 0.2 x impact x budget for a penalised unit on a difficult
    market. *)
Definition term (stress : Q) (market : string) (e : Entity) : Q :=
  e_impact e * e_budget e * (1 - stress * 0.5)
    * (if e_brand_boost e then 1.2 else 1)
  - (if difficult market && e_penalised e
     then 0.2 * e_impact e * e_budget e else 0).

Definition total (stress : Q) (market : string) (es : list Entity) : Q :=
  fsum (map (term stress market) es).

(** The score as the claim states it: the sum, clamped at 0. *)
Definition stated (stress : Q) (market : string) (es : list Entity) : Q :=
  fmax 0 (total stress market es).

(** The score as variant 001 computes it: the sum, truncated to an integer,
    clamped at 0. *)
Definition truncated (stress : Q) (market : string) (es : list Entity) : Z :=
  zmax 0 (Py.int (total stress market es)).

Definition V1_penalised (k : V1.key) : bool :=
  match k with
  | V1.marketing | V1.rnd | V1.analytics => true
  | _ => false
  end.

Definition V1_entities (us : V1.Units) : list Entity :=
  map (fun k => mkEntity (Z2Q (V1.impact (V1.item k us)))
                         (Z2Q (V1.budget (V1.item k us)))
                         (V1.special_get "brand_boost" (V1.special (V1.item k us)))
                         (V1_penalised k))
      V1.keys.

Definition V2_entities (us : V2.Units) : list Entity :=
  map (fun kv => mkEntity (V2.impact (snd kv)) (Z2Q (V2.budget (snd kv)))
                          (V2.special_get "brand_boost" (V2.special (snd kv)))
                          (existsb (String.eqb (fst kv))
                                   ["marketing"; "rnd"; "analytics"]))
      us.

(** The claim as stated, for the two variants it cites. *)
Definition stated_of_V1 : Prop :=
  forall s : V1.Campaign,
    Z2Q (fst (V1.resolve_scores s))
    == stated (V1.stress s) (V1.current_market s) (V1_entities (V1.units s))
    /\ Z2Q (snd (V1.resolve_scores s))
       == stated (V1.stress s) (V1.current_market s)
                 (V1_entities (V1.competitor_units s)).

Definition stated_of_V2 : Prop :=
  forall s : V2.Campaign,
    V2.player_score s
    == stated (V2.stress s) (V2.current_market s) (V2_entities (V2.units s))
    /\ Z2Q (V2.competitors_score s)
       == stated (V2.stress s) (V2.current_market s)
                 (List.concat (map (fun c => V2_entities (V2.c_units c))
                              (V2.competitors s))).

(** The term of a unit of variant 002: the talent bonus and the brand boost
    are both added to the base. *)
Definition V2_term (stress : Q) (u : V2.BusinessUnit) : Q :=
  V2.impact u * Z2Q (V2.budget u) * (1 - stress * 0.5)
  * (1 + 0.2 * V2.talent_level u
     + (if V2.special_get "brand_boost" (V2.special u) then 0.2 else 0)).

End Scores.
Import Scores.

(** ** The turn loops and their early stop *)

Module Loops.
Local Open Scope string_scope.
Local Open Scope list_scope.

(** Either side's aggregate is 0 in the snapshot taken at the end of a
    quarter. *)
Definition V1_zero (d : V1.Snapshot) : bool :=
  (V1.d_market_share d =? 0)%Z || (V1.d_competitor_share d =? 0)%Z.

Definition V2_zero (d : V2.Snapshot) : bool :=
  (V2.d_player_market_share d =? 0)%Z
  || (V2.d_competitor_market_share d =? 0)%Z.

(** No turn is played after one that ended with an aggregate of 0. *)
Definition last_if_zero {S} (zero : S -> bool) (data : list S) : Prop :=
  forall pre d post, data = pre ++ d :: post -> zero d = true -> post = [].

(** What a loop of at most [k] turns adds to the history: at most [k]
    snapshots, none after one with an aggregate of 0, and fewer than [k] only
    when the last one has an aggregate of 0. *)
Definition played {S} (zero : S -> bool) (k : nat) (added : list S) : Prop :=
  (List.length added <= k)%nat
  /\ last_if_zero zero added
  /\ ((List.length added < k)%nat ->
      exists pre d, added = pre ++ [d] /\ zero d = true).

(** The claim as stated, for variant 002. *)
Definition stated_002 : Prop :=
  forall (w : World V2.GUI) (n : Z) (dist : string),
    (0 < n)%Z ->
    let data := V2.sim_data (gui (snd (V2.run_simulation (Ok n) dist w))) in
    (List.length data <= Z.to_nat n)%nat /\ last_if_zero V2_zero data.

(** The line that variant 003 logs when it leaves the loop early. *)
Definition lost : LogEntry :=
  mkLog "Portfolio completely lost. Simulation ends." [] "loss".

End Loops.
Import Loops.

(** ** Runs and the quotes they read *)

Module Quotes.

(** The data source of variant 005: the answer to the [n]-th request, for a
    ticker; [None] is a request that fails. *)
Definition Feed : Type := nat -> string -> option Q.

(** What a run of variant 005 leaves: its result, the history, the state
    and the log. *)
Definition V5_outcome (r : result unit * World V5.GUI)
  : result unit * list V5.Snapshot * V5.PortfolioState * list LogEntry :=
  (fst r, V5.sim_data (gui (snd r)), V5.state (gui (snd r)),
   V5.logs (gui (snd r))).

(** The claim as stated, for the variant that reads live quotes: the seed
    and the two inputs determine the outcome of a run. *)
Definition stated_005 : Prop :=
  forall (seed : nat -> N) (turns : result Z) (alloc : string)
         (feed1 feed2 : Feed),
    V5_outcome (V5.session turns alloc (mkWorld seed 0 (V5.blank feed1)))
    = V5_outcome (V5.session turns alloc (mkWorld seed 0 (V5.blank feed2))).

(** Two data sources that give the same answers. *)
Definition same_quotes (feed1 feed2 : Feed) : Prop :=
  forall n ticker, feed1 n ticker = feed2 n ticker.

(** The object [g], and the world [w], with another data source behind. *)
Definition set_feed (feed : Feed) (g : V5.GUI) : V5.GUI :=
  V5.mkGUI (V5.state g) (V5.logs g) (V5.sim_data g) (V5.dialogs g) feed
           (V5.calls g).

Definition with_feed (feed : Feed) (w : World V5.GUI) : World V5.GUI :=
  mkWorld (rng w) (rpos w) (set_feed feed (gui w)).

(** [m] depends on the data source through its answers only: behind a
    source that gives the same answers it returns the same and leaves the
    same world. *)
Definition answers_only {A} (feed : Feed) (m : M V5.GUI A) : Prop :=
  forall w, same_quotes (V5.feed (gui w)) feed ->
    m (with_feed feed w) = (fst (m w), with_feed feed (snd (m w)))
    /\ same_quotes (V5.feed (gui (snd (m w)))) feed.

End Quotes.
Import Quotes.

(** ** Concrete inputs *)

Module Examples.
Local Open Scope string_scope.
Local Open Scope Q_scope.

(** An opponent of variant 001 whose memory holds five wins of the player. *)
Definition full_of_wins : AI.t Q :=
  AI.mkAI "defensive" 5
    (repeat (AI.mkMem true [0.5; 0.5]) 5) [0.5; 0.5].

(** The chess-phase AI with seven wins recorded. *)
Definition chess_full_of_wins : V6.SunTzuChessMarketAI :=
  V6.mkAI "bearish" 7 (repeat (V6.mkMem true [] 0.5 0.5) 7) [] "opening" [] 7.

(** The market AI of variant 003 as its constructor leaves it. *)
Definition fresh_market_ai (personality : string) : AI.t Q :=
  AI.mkAI personality 5 [] [0.5; 0.2; 0.1; 0.1; 0.1].

(** An opponent of variant 001 that last saw the player put most of the
    budget into marketing. *)
Definition saw_marketing_lead : AI.t Q :=
  AI.mkAI "aggressive" 5 [] [0.2; 0.5; 0.1; 0.1; 0.1; 0; 0].

(** The same with research and development in the lead. *)
Definition saw_rnd_lead : AI.t Q :=
  AI.mkAI "aggressive" 5 [] [0.2; 0.1; 0.5; 0.1; 0.1; 0; 0].

(** Generators.  The raw draw [2^50] is the number 1/8 and [2^52] is 1/2. *)
Definition eighths : nat -> N := fun _ => (2 ^ 50)%N.
Definition halves : nat -> N := fun _ => (2 ^ 52)%N.

(** One half first (the choice among three personalities then takes the
    second, "bearish" in variant 003), one eighth ever after. *)
Definition half_then_eighths : nat -> N :=
  fun i => match i with O => (2 ^ 52)%N | S _ => (2 ^ 50)%N end.

(** A portfolio of variant 003 that holds nothing: no cash, no units. *)
Definition empty_handed : V3.GUI :=
  V3.mkGUI
    (V3.mkState (map (V3.set_quantity 0) V3.default_stocks) 0
       (AI.mkAI "bearish" 5 [] [0.5; 0.2; 0.1; 0.1; 0.1]) 0.7
       (V3.mkCond 0.5 0.5 0.5))
    [] [] [].

(** Variant 001 as [init_state] leaves it on a stable market, with the stress
    of a year end. *)
Definition year_end_001 : V1.Campaign :=
  V1.mkCampaign V1.default_units V1.default_competitor_units 0.85
    (V1.mkResources 2000 300 0)
    (AI.mkAI "aggressive" 5 [] [0.7; 0.15; 0.1; 0.05; 0; 0; 0])
    0.05 1 0.7 0.6 0 "stable" "growth" "Q4" 6490.

(** Variant 002 as its constructor leaves it, without a configuration
    file. *)
Definition fresh_002 : V2.Campaign :=
  V2.mkCampaign V2.default_units 0.85 (V2.mkResources 2000 300 0) 0.7 0 1 0
    "stable" "growth" "Q1"
    [V2.new_competitor "Competitor A" V2.default_units "aggressive";
     V2.new_competitor "Competitor B" V2.default_units "defensive"].

(** The portfolio of variant 003 as [init_portfolio] leaves it when every
    draw is one eighth: a bullish market. *)
Definition bullish_start : V3.GUI :=
  V3.mkGUI
    (V3.mkState V3.default_stocks 10000 (fresh_market_ai "bullish") 0.7
       (V3.mkCond (1 # 5) (9 # 16) (11 # 80)))
    [] [] [].

(** Sell Google short for 99 times the value of the portfolio. *)
Definition short_selling : list Z := [10000; -9900; 0; 0; 0]%Z.

(** Data sources: one that quotes every ticker at 150, one that quotes it
    at 151. *)
Definition quoted_at (price : Q) : Quotes.Feed := fun _ _ => Some price.

(** Two descriptions of a source that answers for Apple only. *)
Definition apple_only : Quotes.Feed :=
  fun _ ticker => if String.eqb ticker "AAPL" then Some 150 else None.
Definition all_but_apple_fail : Quotes.Feed :=
  fun _ ticker => if negb (String.eqb ticker "AAPL") then None else Some 150.

End Examples.
Import Examples.

(** * Proofs *)

Local Open Scope Q_scope.

Lemma fltb_true (x y : Q) : (x <? y) = true <-> x < y.
Proof.
  unfold fltb. rewrite negb_true_iff. split; intro H.
  - apply Qnot_le_lt. intro C. apply Qle_bool_iff in C. congruence.
  - destruct (Qle_bool y x) eqn:E; [|reflexivity].
    apply Qle_bool_iff in E. exfalso. apply (Qlt_not_le _ _ H E).
Qed.

Lemma fltb_false (x y : Q) : (x <? y) = false <-> y <= x.
Proof.
  unfold fltb. rewrite negb_false_iff. apply Qle_bool_iff.
Qed.

Lemma fleb_true (x y : Q) : (x <=? y) = true <-> x <= y.
Proof. apply Qle_bool_iff. Qed.

Lemma feqb_true (x y : Q) : (x =? y) = true <-> x == y.
Proof. apply Qeq_bool_iff. Qed.

Lemma fmax_spec (a b : Q) : (a < b /\ fmax a b = b) \/ (b <= a /\ fmax a b = a).
Proof.
  unfold fmax. destruct (a <? b) eqn:E.
  - left. split; [apply fltb_true, E | reflexivity].
  - right. split; [apply fltb_false, E | reflexivity].
Qed.

Lemma fmin_spec (a b : Q) : (b < a /\ fmin a b = b) \/ (a <= b /\ fmin a b = a).
Proof.
  unfold fmin. destruct (b <? a) eqn:E.
  - left. split; [apply fltb_true, E | reflexivity].
  - right. split; [apply fltb_false, E | reflexivity].
Qed.

Lemma fmax_lower_l (a b : Q) : a <= fmax a b.
Proof. destruct (fmax_spec a b) as [[H E]|[H E]]; rewrite E; lra. Qed.

Lemma fmax_lower_r (a b : Q) : b <= fmax a b.
Proof. destruct (fmax_spec a b) as [[H E]|[H E]]; rewrite E; lra. Qed.

Lemma fmax_upper (a b c : Q) : a <= c -> b <= c -> fmax a b <= c.
Proof. intros. destruct (fmax_spec a b) as [[H1 E]|[H1 E]]; rewrite E; lra. Qed.

Lemma fmin_upper_l (a b : Q) : fmin a b <= a.
Proof. destruct (fmin_spec a b) as [[H E]|[H E]]; rewrite E; lra. Qed.

Lemma fmin_upper_r (a b : Q) : fmin a b <= b.
Proof. destruct (fmin_spec a b) as [[H E]|[H E]]; rewrite E; lra. Qed.

Lemma fmin_lower (a b c : Q) : c <= a -> c <= b -> c <= fmin a b.
Proof. intros. destruct (fmin_spec a b) as [[H1 E]|[H1 E]]; rewrite E; lra. Qed.

Lemma zmax_lower_l (a b : Z) : (a <= zmax a b)%Z.
Proof. unfold zmax. destruct (a <? b)%Z eqn:E; lia. Qed.

Lemma zmax_lower_r (a b : Z) : (b <= zmax a b)%Z.
Proof. unfold zmax. destruct (a <? b)%Z eqn:E; lia. Qed.

(** [int] truncates: floor on the non-negative side, ceiling on the other. *)
Lemma int_floor (x : Q) : 0 <= x -> Py.int x = Qfloor x.
Proof.
  destruct x as [n d]. unfold Qle, Py.int, Qfloor. simpl. intro H.
  apply Z.quot_div_nonneg; lia.
Qed.

Lemma int_ceiling (x : Q) : x <= 0 -> Py.int x = Qceiling x.
Proof.
  destruct x as [n d]. unfold Qle, Py.int, Qceiling, Qfloor. simpl. intro H.
  rewrite <- (Z.opp_involutive n) at 1. rewrite Z.quot_opp_l by lia.
  f_equal. apply Z.quot_div_nonneg; lia.
Qed.

Lemma int_Qeq (x y : Q) : x == y -> Py.int x = Py.int y.
Proof.
  intro E. destruct (Qlt_le_dec x 0) as [H|H].
  - rewrite !int_ceiling by (rewrite <- ?E; lra).
    unfold Qceiling. now rewrite E.
  - rewrite !int_floor by (rewrite <- ?E; lra). now rewrite E.
Qed.

Lemma int_nonneg (x : Q) : 0 <= x -> (0 <= Py.int x)%Z.
Proof.
  intro H. rewrite int_floor by assumption.
  change 0%Z with (Qfloor 0). now apply Qfloor_resp_le.
Qed.

Lemma int_Z2Q (z : Z) : Py.int (Z2Q z) = z.
Proof. unfold Py.int, Z2Q, inject_Z. simpl. apply Z.quot_1_r. Qed.

Lemma Z2Q_nonneg (z : Z) : (0 <= z)%Z -> 0 <= Z2Q z.
Proof. intro H. unfold Z2Q. change 0 with (inject_Z 0). now rewrite <- Zle_Qle. Qed.

Lemma unit_interval_bounds (k : N) : 0 <= unit_interval k /\ unit_interval k < 1.
Proof.
  unfold unit_interval. rewrite Qred_correct.
  pose proof (N.mod_upper_bound k (2 ^ 53) ltac:(discriminate)) as U.
  apply N2Z.inj_lt in U.
  pose proof (N2Z.is_nonneg (k mod 2 ^ 53)) as L.
  set (z := Z.of_N (k mod 2 ^ 53)) in *.
  change (Z.of_N (2 ^ 53)) with (Z.pos (2 ^ 53)) in U.
  unfold Qle, Qlt. simpl Qnum. simpl Qden.
  split; lia.
Qed.

Section TripleRules.
Context {G : Type}.
Implicit Types (P : G -> Prop) (Exc : exn -> G -> Prop).

Lemma triple_ret {A} P (a : A) (Post : A -> G -> Prop) Exc :
  (forall g, P g -> Post a g) -> triple P (ret a) Post Exc.
Proof. intros H w Hw. simpl. auto. Qed.

Lemma triple_bind {A B} P (m : M G A) (k : A -> M G B) Mid Post Exc :
  triple P m Mid Exc ->
  (forall a, triple (Mid a) (k a) Post Exc) ->
  triple P (bind m k) Post Exc.
Proof.
  intros Hm Hk w Hw. unfold bind. specialize (Hm w Hw).
  destruct (m w) as [[a|e] w']; [apply Hk, Hm | exact Hm].
Qed.

Lemma triple_conseq {A} P P' (m : M G A) (Post Post' : A -> G -> Prop) Exc :
  (forall g, P g -> P' g) ->
  (forall a g, Post' a g -> Post a g) ->
  triple P' m Post' Exc -> triple P m Post Exc.
Proof.
  intros HP HQ H w Hw. specialize (H w (HP _ Hw)).
  destruct (m w) as [[a|e] w']; auto.
Qed.

Lemma triple_pre {A} P P' (m : M G A) Post Exc :
  (forall g, P g -> P' g) -> triple P' m Post Exc -> triple P m Post Exc.
Proof. intros HP H. eapply triple_conseq; eauto. Qed.

Lemma triple_post {A} P (m : M G A) (Post Post' : A -> G -> Prop) Exc :
  (forall a g, Post' a g -> Post a g) -> triple P m Post' Exc -> triple P m Post Exc.
Proof. intros HQ H. eapply triple_conseq; eauto. Qed.

(** A fact that does not depend on the object moves to the context. *)
Lemma triple_fact {A} P (phi : Prop) (m : M G A) Post Exc :
  (phi -> triple P m Post Exc) -> triple (fun g => P g /\ phi) m Post Exc.
Proof. intros H w [Hw Hphi]. apply H; assumption. Qed.

Lemma triple_raise {A} P (e : exn) (Post : A -> G -> Prop) Exc :
  (forall g, P g -> Exc e g) -> triple P (raise e) Post Exc.
Proof. intros H w Hw. simpl. auto. Qed.

Lemma triple_get P Exc : triple P get (fun g g' => P g' /\ g = g') Exc.
Proof. intros w Hw. simpl. auto. Qed.

Lemma triple_modify P (f : G -> G) (Post : unit -> G -> Prop) Exc :
  (forall g, P g -> Post tt (f g)) -> triple P (modify f) Post Exc.
Proof. intros H w Hw. simpl. auto. Qed.

Lemma triple_of_result {A} P (r : result A) (Post : A -> G -> Prop) Exc :
  (forall g, P g -> match r with Ok a => Post a g | Raise e => Exc e g end) ->
  triple P (of_result r) Post Exc.
Proof. intros H w Hw. unfold of_result. specialize (H _ Hw). destruct r; auto. Qed.

Lemma triple_random P Exc :
  triple P random (fun r g => P g /\ (0 <= r /\ r < 1)) Exc.
Proof. intros w Hw. simpl. split; [assumption | apply unit_interval_bounds]. Qed.

Lemma triple_uniform P (a b : Q) Exc :
  a <= b -> triple P (uniform a b) (fun x g => P g /\ (a <= x /\ x <= b)) Exc.
Proof.
  intros Hab. unfold uniform. eapply triple_bind; [apply triple_random|].
  intros r. apply triple_ret. intros g [Hg [H0 H1]]. split; [assumption|]. nra.
Qed.

Lemma triple_random_keep P Exc : triple P random (fun _ g => P g) Exc.
Proof. eapply triple_post; [|apply triple_random]. intros r g [H _]. exact H. Qed.

Lemma triple_uniform_keep P (a b : Q) Exc :
  triple P (uniform a b) (fun _ g => P g) Exc.
Proof.
  unfold uniform. eapply triple_bind; [apply triple_random_keep|].
  intros r. apply triple_ret. auto.
Qed.

Lemma triple_choice {A} P (l : list A) (d : A) Exc :
  triple P (choice l d) (fun _ g => P g) Exc.
Proof.
  unfold choice. eapply triple_bind; [apply triple_random|].
  intros r. apply triple_ret. tauto.
Qed.

Lemma triple_when P (b : bool) (m : M G unit) Exc :
  (b = true -> triple P m (fun _ g => P g) Exc) ->
  triple P (when b m) (fun _ g => P g) Exc.
Proof. intros H. destruct b; simpl; [auto | apply triple_ret; auto]. Qed.

Lemma triple_for_each {A} P (l : list A) (body : A -> M G unit) Exc :
  (forall a, In a l -> triple P (body a) (fun _ g => P g) Exc) ->
  triple P (for_each l body) (fun _ g => P g) Exc.
Proof.
  induction l as [|a l IH]; intros H; simpl.
  - apply triple_ret; auto.
  - eapply triple_bind; [apply H; now left|].
    intros ?. apply IH. intros b Hb. apply H. now right.
Qed.

Lemma triple_try_except {A} P (m : M G A) (h : exn -> M G A) Mid Post Exc :
  triple P m Post Mid ->
  (forall e, triple (Mid e) (h e) Post Exc) ->
  triple P (try_except m h) Post Exc.
Proof.
  intros Hm Hh w Hw. unfold try_except. specialize (Hm w Hw).
  destruct (m w) as [[a|e] w']; [exact Hm | apply Hh, Hm].
Qed.

Lemma triple_exc {A} P (m : M G A) Post Exc Exc' :
  (forall e g, Exc e g -> Exc' e g) -> triple P m Post Exc -> triple P m Post Exc'.
Proof.
  intros HE H w Hw. specialize (H w Hw). destruct (m w) as [[a|e] w']; auto.
Qed.

Lemma triple_never {A} P (m : M G A) Post Exc :
  triple P m Post never -> triple P m Post Exc.
Proof. apply triple_exc. intros e g []. Qed.

End TripleRules.

Lemma zsum_from (l : list Z) : forall acc, fold_left Z.add l acc = (acc + zsum l)%Z.
Proof.
  unfold zsum. induction l as [|x l IH]; intros acc; simpl.
  - lia.
  - rewrite IH, (IH x). lia.
Qed.

Lemma zsum_cons (x : Z) (l : list Z) : zsum (x :: l) = (x + zsum l)%Z.
Proof. unfold zsum at 1. simpl. apply zsum_from. Qed.

Lemma zsum_app (l l' : list Z) : zsum (l ++ l') = (zsum l + zsum l')%Z.
Proof.
  induction l as [|x l IH]; simpl; [reflexivity|].
  rewrite !zsum_cons, IH. lia.
Qed.

Lemma trues_cons (b : bool) (l : list bool) :
  trues (b :: l) = ((if b then 1 else 0) + trues l)%Z.
Proof. unfold trues. destruct b; cbn [filter List.length]; lia. Qed.

Lemma zsum_indicator {A} (f : A -> bool) (l : list A) :
  zsum (map (fun a => if f a then 1%Z else 0%Z) l) = trues (map f l).
Proof.
  induction l as [|a l IH]; [reflexivity|].
  cbn [map]. now rewrite zsum_cons, trues_cons, IH.
Qed.

Lemma trues_bounds (l : list bool) :
  (0 <= trues l <= Z.of_nat (List.length l))%Z.
Proof.
  induction l as [|b l IH]; [cbn; lia|].
  rewrite trues_cons. cbn [List.length]. destruct b; lia.
Qed.

Lemma trues_all (l : list bool) :
  forallb (fun b => b) l = true -> trues l = Z.of_nat (List.length l).
Proof.
  induction l as [|b l IH]; [reflexivity|].
  rewrite trues_cons. cbn [List.length forallb].
  destruct b; [|discriminate]. intros H. rewrite (IH H). lia.
Qed.

Lemma Z2Q_pos (z : Z) : (0 < z)%Z -> 0 < Z2Q z.
Proof. intro H. unfold Z2Q. change 0 with (inject_Z 0). now rewrite <- Zlt_Qlt. Qed.

Lemma mean_all_true (l : list bool) :
  l <> [] -> forallb (fun b => b) l = true -> mean l == 1.
Proof.
  intros Hne H. unfold mean. rewrite (trues_all _ H).
  assert (0 < Z2Q (Z.of_nat (List.length l))).
  { apply Z2Q_pos. destruct l; [congruence | cbn [List.length]; lia]. }
  field. lra.
Qed.

Lemma fltb_Qeq (a b c d : Q) : a == c -> b == d -> (a <? b) = (c <? d).
Proof.
  intros E1 E2. destruct (c <? d) eqn:E.
  - apply fltb_true. apply fltb_true in E. now rewrite E1, E2.
  - apply fltb_false. apply fltb_false in E. now rewrite E1, E2.
Qed.

Lemma classify_label (L : AI.Labels) (m : Q) : label L m (AI.classify L m).
Proof.
  unfold label, AI.classify.
  destruct (0.7 <? m) eqn:E1; [apply fltb_true in E1 | apply fltb_false in E1];
    (destruct (m <? 0.3) eqn:E2; [apply fltb_true in E2 | apply fltb_false in E2]);
    repeat split; intros; try reflexivity; lra.
Qed.

Lemma classify_Qeq (L : AI.Labels) (m m' : Q) :
  m == m' -> AI.classify L m = AI.classify L m'.
Proof.
  intros E. unfold AI.classify.
  rewrite (fltb_Qeq 0.7 m 0.7 m') by (assumption || reflexivity).
  rewrite (fltb_Qeq m 0.3 m' 0.3) by (assumption || reflexivity).
  reflexivity.
Qed.

Lemma win_rate_mean {X} (ai : AI.t X) :
  (0 < AI.len ai)%Z -> AI.win_rate ai = Ok (mean (recorded ai)).
Proof.
  intros H. unfold AI.win_rate, mean, recorded.
  destruct (AI.len ai =? 0)%Z eqn:E; [apply Z.eqb_eq in E; lia|].
  unfold AI.wins. rewrite zsum_indicator, length_map. reflexivity.
Qed.

(** The decision on a full memory, for every set of labels. *)
Lemma decide_personality_full {X} (L : AI.Labels) (ai : AI.t X) :
  (0 < AI.memory_len ai)%Z -> (AI.memory_len ai <= AI.len ai)%Z ->
  AI.decide_personality L ai
  = Ok (AI.set_personality (AI.classify L (mean (recorded ai))) ai).
Proof.
  intros Hpos Hfull. unfold AI.decide_personality.
  destruct (AI.len ai <? AI.memory_len ai)%Z eqn:E; [apply Z.ltb_lt in E; lia|].
  rewrite win_rate_mean by lia. reflexivity.
Qed.

Lemma decide_personality_006_full (ai : V6.SunTzuChessMarketAI) :
  (0 < V6.memory_len ai)%Z ->
  (V6.memory_len ai <= Z.of_nat (List.length (V6.memory ai)))%Z ->
  V6.decide_personality ai
  = Ok (V6.set_personality
          (AI.classify AI.market_labels (mean (recorded_006 ai))) ai).
Proof.
  intros Hpos Hfull. unfold V6.decide_personality. cbv zeta.
  destruct (_ <? _)%Z eqn:E; [apply Z.ltb_lt in E; lia|].
  destruct (_ =? 0)%Z eqn:E0; [apply Z.eqb_eq in E0; lia|].
  rewrite zsum_indicator.
  unfold AI.classify, mean, recorded_006. rewrite length_map. cbn [AI.winning AI.losing AI.middle AI.market_labels].
  destruct (0.7 <? _); [reflexivity|]. destruct (_ <? 0.3); reflexivity.
Qed.

Lemma set_personality_relabelled {X} (p : string) (ai : AI.t X) :
  relabelled p ai (AI.set_personality p ai).
Proof. unfold relabelled. cbn. repeat split. Qed.

Lemma set_personality_relabelled_006 (p : string) (ai : V6.SunTzuChessMarketAI) :
  relabelled_006 p ai (V6.set_personality p ai).
Proof. unfold relabelled_006. cbn. repeat split. Qed.

(** C2. [decide_personality] leaves the opponent as it is while the memory
    holds fewer than [memory_len] entries.  On a full memory it returns the
    opponent with a new personality and nothing else changed, and the new
    personality is the label that the three-way threshold gives to the mean
    of the recorded outcomes (above 0.7, below 0.3, in between): it is a
    function of the recorded outcomes, and when all of them are true it is
    the winning label ("aggressive", or "bullish" for the market AIs).  The
    same holds of the chess-phase AI of variant 006.  [memory_len] is
    positive, as in every constructor call (5 or 7). *)
Theorem C2_personality_is_threshold_of_mean
    (X : Type) (L : AI.Labels) (ai : AI.t X) (chess : V6.SunTzuChessMarketAI)
    (Hlen : (0 < AI.memory_len ai)%Z) (Hlen6 : (0 < V6.memory_len chess)%Z) :
  ((AI.len ai < AI.memory_len ai)%Z -> AI.decide_personality L ai = Ok ai)
  /\ ((AI.memory_len ai <= AI.len ai)%Z ->
      exists ai',
        AI.decide_personality L ai = Ok ai'
        /\ relabelled (AI.classify L (mean (recorded ai))) ai ai'
        /\ AI.personality ai' = AI.classify L (mean (recorded ai))
        /\ label L (mean (recorded ai)) (AI.personality ai')
        /\ (forallb (fun b => b) (recorded ai) = true ->
            AI.personality ai' = AI.winning L))
  /\ ((Z.of_nat (List.length (V6.memory chess)) < V6.memory_len chess)%Z ->
      V6.decide_personality chess = Ok chess)
  /\ ((V6.memory_len chess <= Z.of_nat (List.length (V6.memory chess)))%Z ->
      exists chess',
        V6.decide_personality chess = Ok chess'
        /\ relabelled_006
             (AI.classify AI.market_labels (mean (recorded_006 chess)))
             chess chess'
        /\ V6.personality chess'
           = AI.classify AI.market_labels (mean (recorded_006 chess))
        /\ label AI.market_labels (mean (recorded_006 chess))
                 (V6.personality chess')
        /\ (forallb (fun b => b) (recorded_006 chess) = true ->
            V6.personality chess' = "bullish"%string)).
Proof.
  split; [|split; [|split]].
  - intros H. unfold AI.decide_personality.
    apply Z.ltb_lt in H. now rewrite H.
  - intros H. eexists. split; [now apply decide_personality_full|].
    split; [apply set_personality_relabelled|].
    cbn [AI.personality AI.set_personality].
    split; [reflexivity|]. split; [apply classify_label|].
    intros Hall.
    assert (Hne : recorded ai <> []).
    { unfold recorded, AI.len in *. destruct (AI.memory ai); [cbn in H; lia | discriminate]. }
    rewrite (classify_Qeq L _ 1 (mean_all_true _ Hne Hall)). reflexivity.
  - intros H. unfold V6.decide_personality. cbv zeta.
    apply Z.ltb_lt in H. now rewrite H.
  - intros H. eexists. split; [now apply decide_personality_006_full|].
    split; [apply set_personality_relabelled_006|].
    cbn [V6.personality V6.set_personality].
    split; [reflexivity|]. split; [apply classify_label|].
    intros Hall.
    assert (Hne : recorded_006 chess <> []).
    { unfold recorded_006 in *. destruct (V6.memory chess); [cbn in H; lia | discriminate]. }
    rewrite (classify_Qeq _ _ 1 (mean_all_true _ Hne Hall)). reflexivity.
Qed.

Lemma C2_witness :
  (0 < AI.memory_len full_of_wins)%Z
  /\ (0 < V6.memory_len chess_full_of_wins)%Z
  /\ AI.personality full_of_wins = "defensive"%string
  /\ (exists ai', AI.decide_personality AI.business_labels full_of_wins = Ok ai'
                  /\ AI.personality ai' = "aggressive"%string
                  /\ AI.memory ai' = AI.memory full_of_wins)
  /\ V6.personality chess_full_of_wins = "bearish"%string
  /\ (exists chess', V6.decide_personality chess_full_of_wins = Ok chess'
                     /\ V6.personality chess' = "bullish"%string
                     /\ V6.memory chess' = V6.memory chess_full_of_wins).
Proof.
  assert (H5 : (0 < AI.memory_len full_of_wins)%Z) by (cbn; lia).
  assert (H7 : (0 < V6.memory_len chess_full_of_wins)%Z) by (cbn; lia).
  split; [exact H5|]. split; [exact H7|].
  destruct (@C2_personality_is_threshold_of_mean Q AI.business_labels
              full_of_wins chess_full_of_wins H5 H7)
    as (_ & Hfull & _ & Hfull6).
  destruct (Hfull ltac:(cbn; lia)) as (ai' & E & R & _ & _ & Hall).
  destruct (Hfull6 ltac:(cbn; lia)) as (chess' & E6 & R6 & _ & _ & Hall6).
  split; [reflexivity|]. split.
  { exists ai'. split; [exact E|]. split; [exact (Hall eq_refl)|].
    exact (proj1 (proj2 (proj2 R))). }
  split; [reflexivity|].
  exists chess'. split; [exact E6|]. split; [exact (Hall6 eq_refl)|].
  exact (proj1 (proj2 (proj2 R6))).
Defined.

Lemma fsum_from (l : list Q) : forall acc, fold_left Qplus l acc == acc + fsum l.
Proof.
  unfold fsum. induction l as [|x l IH]; intros acc; simpl.
  - ring.
  - rewrite IH, (IH (0 + x)). ring.
Qed.

Lemma fsum_cons (x : Q) (l : list Q) : fsum (x :: l) == x + fsum l.
Proof. unfold fsum at 1. simpl. rewrite fsum_from. ring. Qed.

Lemma fsum_nil : fsum [] == 0.
Proof. reflexivity. Qed.

Lemma fsum_map_Qeq {A} (f g : A -> Q) (l : list A) :
  (forall a, f a == g a) -> fsum (map f l) == fsum (map g l).
Proof.
  intros H. induction l as [|a l IH]; [reflexivity|].
  cbn [map]. rewrite !fsum_cons, IH, H. reflexivity.
Qed.

(** The term of an entity of variant 001 is what the loop adds for it less
    what the market effect takes from it. *)
Lemma V1_term_split (stress : Q) (market : string) (us : V1.Units) (k : V1.key) :
  term stress market
       (mkEntity (Z2Q (V1.impact (V1.item k us))) (Z2Q (V1.budget (V1.item k us)))
                 (V1.special_get "brand_boost" (V1.special (V1.item k us)))
                 (V1_penalised k))
  == V1.unit_score stress (V1.item k us)
     - (if difficult market && V1_penalised k
        then V1.market_penalty (V1.item k us) else 0).
Proof.
  unfold term, V1.unit_score, V1.market_penalty.
  cbn [e_impact e_budget e_brand_boost e_penalised]. cbv zeta.
  destruct (V1.special_get _ _); destruct (difficult market && V1_penalised k);
    ring.
Qed.

(** The two loops and the market effect of [resolve_market_competition] add
    up to the sum of the per-entity terms. *)
Lemma V1_side_total (stress : Q) (market : string) (us : V1.Units) :
  let raw := fold_left (fun acc u => acc + V1.unit_score stress u) (V1.values us) 0 in
  (if difficult market
   then raw - V1.market_penalty (V1.item V1.marketing us)
        - V1.market_penalty (V1.item V1.rnd us)
        - V1.market_penalty (V1.item V1.analytics us)
   else raw)
  == total stress market (V1_entities us).
Proof.
  cbv zeta. unfold total, V1_entities. rewrite map_map.
  symmetry. etransitivity.
  { apply fsum_map_Qeq. intros k. apply V1_term_split. }
  unfold V1.values, V1.keys. cbn [map fold_left].
  rewrite !fsum_cons, fsum_nil.
  destruct (difficult market); cbn [andb V1_penalised]; ring.
Qed.

Lemma V1_resolve_scores_truncated (s : V1.Campaign) :
  V1.resolve_scores s
  = (truncated (V1.stress s) (V1.current_market s) (V1_entities (V1.units s)),
     truncated (V1.stress s) (V1.current_market s)
               (V1_entities (V1.competitor_units s))).
Proof.
  unfold V1.resolve_scores, truncated.
  pose proof (V1_side_total (V1.stress s) (V1.current_market s) (V1.units s)) as Hp.
  pose proof (V1_side_total (V1.stress s) (V1.current_market s) (V1.competitor_units s)) as Hc.
  cbv zeta in Hp, Hc. unfold difficult in Hp, Hc.
  destruct (existsb _ _); cbn [fold_left V1.has_key];
    rewrite <- (int_Qeq _ _ Hp), <- (int_Qeq _ _ Hc); reflexivity.
Qed.

Lemma V2_effective_impact_term (stress : Q) (u : V2.BusinessUnit) :
  V2.effective_impact stress u == V2_term stress u.
Proof.
  unfold V2.effective_impact, V2_term. cbv zeta.
  destruct (V2.special_get _ _); ring.
Qed.



(** C8. The counter-strategy methods do raise.  In variant 003 the branch
    for a largest first entry multiplies the list [p] itself by 0.7, and the
    branch for a largest second entry adds 0.1 to the list; in variant 001
    the branches for a largest second and third entry add a number to the
    list.  Each of these raises [TypeError], whatever the entries are; the
    first one is taken by the default allocation of a new market AI. *)
Theorem C8_counter_strategy_raises_TypeError :
  (forall personality,
      Suggest.suggest_market_shift (fresh_market_ai personality) = Raise TypeError)
  /\ (forall ai i,
        Dyn.index_of_max (AI.last_player_distribution ai) = Ok i ->
        (i = 0 \/ i = 1)%nat ->
        Suggest.suggest_market_shift ai = Raise TypeError)
  /\ (forall ai i,
        Dyn.index_of_max (AI.last_player_distribution ai) = Ok i ->
        (i = 1 \/ i = 2)%nat ->
        Suggest.suggest_competitor_investment ai = Raise TypeError).
Proof.
  split; [reflexivity|]. split.
  - intros ai i E [->| ->]; unfold Suggest.suggest_market_shift;
      rewrite E; reflexivity.
  - intros ai i E [->| ->]; unfold Suggest.suggest_competitor_investment;
      rewrite E; reflexivity.
Qed.

Lemma C8_witness :
  Dyn.index_of_max (AI.last_player_distribution saw_marketing_lead) = Ok 1%nat
  /\ Suggest.suggest_competitor_investment saw_marketing_lead = Raise TypeError
  /\ Dyn.index_of_max (AI.last_player_distribution saw_rnd_lead) = Ok 2%nat
  /\ Suggest.suggest_competitor_investment saw_rnd_lead = Raise TypeError
  /\ Suggest.suggest_market_shift (fresh_market_ai "bullish") = Raise TypeError.
Proof.
  destruct C8_counter_strategy_raises_TypeError as (Hnew & _ & Hinvest).
  split; [reflexivity|].
  split; [exact (Hinvest saw_marketing_lead 1%nat eq_refl (or_introl eq_refl))|].
  split; [reflexivity|].
  split; [exact (Hinvest saw_rnd_lead 2%nat eq_refl (or_intror eq_refl))|].
  exact (Hnew "bullish"%string).
Defined.

(** C9. When the text of the entry is not a number, reading it raises
    [TclError].  Variant 001 catches [ValueError] only: the exception leaves
    [run_simulation], no dialog is shown and no quarter is played.  Variants
    002, 003 and 005 catch every exception: they show the dialog, play no
    turn and return. *)
Theorem C9_TclError_escapes_variant_001 :
  (forall (w : World V1.GUI) (dist : string),
      let r := V1.run_simulation (Raise TclError) dist w in
      fst r = Raise TclError
      /\ V1.dialogs (gui (snd r)) = V1.dialogs (gui w)
      /\ V1.sim_data (gui (snd r)) = [])
  /\ (forall (w : World V2.GUI) (dist : string),
      let r := V2.run_simulation (Raise TclError) dist w in
      fst r = Ok tt
      /\ V2.dialogs (gui (snd r))
         = V2.dialogs (gui w)
             ++ [("Error"%string,
                  "Please enter a positive integer for quarters."%string)]
      /\ V2.sim_data (gui (snd r)) = [])
  /\ (forall (w : World V3.GUI) (dist : string),
      let r := V3.run_simulation (Raise TclError) dist w in
      fst r = Ok tt
      /\ V3.dialogs (gui (snd r))
         = V3.dialogs (gui w)
             ++ [("Error"%string, "Invalid number of turns."%string)]
      /\ V3.sim_data (gui (snd r)) = [])
  /\ (forall (w : World V5.GUI) (dist : string),
      let r := V5.run_simulation (Raise TclError) dist w in
      fst r = Ok tt
      /\ V5.dialogs (gui (snd r))
         = V5.dialogs (gui w)
             ++ [("Error"%string, "Invalid number of turns."%string)]
      /\ V5.sim_data (gui (snd r)) = []).
Proof.
  repeat split.
Qed.

(** *** Variant 003: prices and totals *)

(** Reading a price draws from the generator and changes nothing else. *)
Lemma V3_get_stock_price_pure g0 ticker :
  triple (eq g0) (V3.get_stock_price ticker) (fun _ g => g0 = g) never.
Proof.
  unfold V3.get_stock_price.
  do 6 (eapply triple_bind; [apply triple_uniform_keep|]; intros ?).
  apply triple_ret. auto.
Qed.

Lemma V3_value_pure g0 a :
  triple (eq g0) (V3.value a) (fun _ g => g0 = g) never.
Proof.
  unfold V3.value, V3.price.
  eapply triple_bind; [apply V3_get_stock_price_pure|]. intros p.
  apply triple_ret. auto.
Qed.

Lemma V3_sum_values_pure g0 l : forall acc,
  triple (eq g0) (V3.sum_values l acc) (fun _ g => g0 = g) never.
Proof.
  induction l as [|a l IH]; intros acc; simpl.
  - apply triple_ret. auto.
  - eapply triple_bind; [apply V3_value_pure|]. intros v. apply IH.
Qed.

Lemma V3_total_value_pure g0 :
  triple (eq g0) V3.total_value (fun _ g => g0 = g) never.
Proof.
  unfold V3.total_value, V3.the_state.
  eapply triple_bind with (Mid := fun _ g => g0 = g).
  { eapply triple_bind; [apply triple_get|]. intros g. apply triple_ret. tauto. }
  intros s.
  eapply triple_bind; [apply V3_sum_values_pure|]. intros v.
  apply triple_ret. auto.
Qed.

(** [total_value] always returns, and leaves the GUI object as it was. *)
Lemma V3_total_value_returns (w : World V3.GUI) :
  exists tv w', V3.total_value w = (Ok tv, w') /\ gui w' = gui w.
Proof.
  pose proof (V3_total_value_pure (gui w) w eq_refl) as H.
  destruct (V3.total_value w) as [[tv|e] w']; [|destruct H].
  exists tv, w'. auto.
Qed.

(** With a total of zero the first division raises. *)
Lemma V3_shares_zero g0 l tv :
  l <> [] -> tv == 0 ->
  triple (eq g0) (V3.shares l tv) (fun _ _ => False)
         (fun e _ => e = ZeroDivisionError).
Proof.
  intros Hl Htv. destruct l as [|a l]; [congruence|]. simpl.
  eapply triple_bind.
  { apply triple_never. apply V3_value_pure. }
  intros v. apply feqb_true in Htv. rewrite Htv.
  eapply triple_bind with (Mid := fun _ _ => False).
  - apply triple_raise. auto.
  - intros x w [].
Qed.

(** With any other total every division goes through. *)
Lemma V3_shares_nonzero g0 l tv :
  ~ tv == 0 ->
  triple (eq g0) (V3.shares l tv)
         (fun r g => g0 = g /\ List.length r = List.length l) never.
Proof.
  intros Htv. induction l as [|a l IH]; simpl.
  - apply triple_ret. auto.
  - eapply triple_bind; [apply V3_value_pure|]. intros v.
    destruct (tv =? 0) eqn:E; [apply feqb_true in E; contradiction|].
    eapply triple_bind with (Mid := fun _ g => g0 = g).
    { apply triple_ret. auto. }
    intros x. eapply triple_bind; [apply IH|]. intros xs.
    apply triple_ret. intros g [Hg Hlen]. split; [assumption|]. simpl. now rewrite Hlen.
Qed.

Lemma V3_asset_allocation_cases (w : World V3.GUI) (tv : Q) (w1 : World V3.GUI) :
  V3.assets (V3.state (gui w)) <> [] ->
  V3.total_value w = (Ok tv, w1) ->
  (tv == 0 -> fst (V3.asset_allocation w) = Raise ZeroDivisionError)
  /\ (~ tv == 0 ->
      exists l, fst (V3.asset_allocation w) = Ok l
                /\ List.length l = List.length (V3.assets (V3.state (gui w)))).
Proof.
  intros Hne Htv.
  destruct (V3_total_value_returns w) as (tv' & w' & E & Hg).
  rewrite Htv in E. injection E as <- <-.
  unfold V3.asset_allocation, bind. rewrite Htv.
  unfold V3.the_state, bind, get, ret. simpl.
  rewrite Hg. split; intros H.
  - pose proof (V3_shares_zero (gui w1) _ tv Hne H w1 eq_refl) as S.
    destruct (V3.shares _ tv w1) as [[l|e] w2]; [destruct S | simpl; now rewrite S].
  - pose proof (V3_shares_nonzero (gui w1) (V3.assets (V3.state (gui w))) tv H w1 eq_refl) as S.
    destruct (V3.shares _ tv w1) as [[l|e] w2]; [|destruct S].
    exists l. split; [reflexivity | apply S].
Qed.



#[local] Arguments Qred : simpl never.
#[local] Arguments Qplus : simpl never.
#[local] Arguments Qminus : simpl never.
#[local] Arguments Qmult : simpl never.
#[local] Arguments Qdiv : simpl never.
#[local] Arguments Qopp : simpl never.
#[local] Arguments Qinv : simpl never.
#[local] Arguments inject_Z : simpl never.
#[local] Arguments Z2Q : simpl never.
#[local] Arguments fmin : simpl never.
#[local] Arguments fmax : simpl never.
#[local] Arguments zmax : simpl never.
#[local] Arguments Py.int : simpl never.
#[local] Arguments fltb : simpl never.
#[local] Arguments fleb : simpl never.
#[local] Arguments feqb : simpl never.

Lemma V1_the_state P Exc :
  triple P V1.the_state (fun s g => P g /\ s = V1.state g) Exc.
Proof.
  unfold V1.the_state. eapply triple_bind; [apply triple_get|].
  intros g. apply triple_ret. intros g' [H E]. subst. auto.
Qed.

(** Reading the state keeps [P]; what [P] says about the state can be turned
    into a fact about the value read. *)
Lemma V1_read P (phi : V1.Campaign -> Prop) Exc :
  (forall g, P g -> phi (V1.state g)) ->
  triple P V1.the_state (fun s g => P g /\ phi s) Exc.
Proof.
  intros H. eapply triple_post; [|apply V1_the_state].
  intros s g [Hg E]. subst. auto.
Qed.

Lemma V1_peek P Exc : triple P V1.the_state (fun _ g => P g) Exc.
Proof. eapply triple_post; [|apply V1_the_state]. intros s g [Hg E]. exact Hg. Qed.

Lemma V1_update P (f : V1.Campaign -> V1.Campaign) Post Exc :
  (forall g, P g -> Post tt (V1.set_state (f (V1.state g)) g)) ->
  triple P (V1.update f) Post Exc.
Proof. intros H. apply triple_modify. exact H. Qed.

(** A log line changes neither the state nor the history. *)
Lemma V1_log P t a e Exc :
  (forall g l, P g -> P (V1.set_logs l g)) ->
  triple P (V1.log t a e) (fun _ g => P g) Exc.
Proof. intros H. apply triple_modify. intros g Hg. now apply H. Qed.

Lemma V1_inv_logs b g l : V1_inv b g -> V1_inv b (V1.set_logs l g).
Proof. exact (fun H => H). Qed.

Lemma V1_inv_weaken b g : V1_inv b g -> V1_inv false g.
Proof.
  unfold V1_inv. intros (H1 & H2 & H3).
  split; [exact H1 | split; [discriminate | exact H3]].
Qed.

Ltac inv_update :=
  apply V1_update; intros g Hg; cbv beta in Hg;
  unfold V1_inv, unit_range in *; cbv beta zeta in Hg;
  cbn; rewrite ?Qred_correct;
  destruct Hg as (Hstress & Hcap & (Hliq0 & Hliq1) & (Hsen0 & Hsen1) & Hlen & Hdata).

Ltac inv_split :=
  repeat match goal with
         | |- _ /\ _ => split
         | |- false = true -> _ => discriminate
         | |- true = true -> _ => intros _
         | |- ?b = true -> _ => intro
         end; try assumption; try lra; try lia; auto.

Lemma V1_environment_effects Exc :
  triple (V1_inv false) V1.environment_effects (fun _ => V1_inv false) Exc.
Proof.
  unfold V1.environment_effects.
  eapply triple_bind; [apply V1_peek|]. intros s.
  eapply triple_bind with (Mid := fun _ => V1_inv false).
  { destruct (String.eqb _ _).
    - eapply triple_bind with (Mid := fun _ => V1_inv false).
      + inv_update. inv_split.
      + intros ?. apply triple_ret. auto.
    - apply triple_ret. tauto. }
  intros e1.
  eapply triple_bind with (Mid := fun _ => V1_inv false).
  { destruct (String.eqb _ _).
    - eapply triple_bind with (Mid := fun _ => V1_inv false).
      + apply triple_when. intros _. inv_update. inv_split.
      + intros ?. eapply triple_bind with (Mid := fun _ => V1_inv false).
        * apply triple_when. intros _. inv_update. inv_split.
        * intros ?. apply triple_ret. auto.
    - apply triple_ret. auto. }
  intros e2.
  eapply triple_bind with (Mid := fun _ => V1_inv false).
  { destruct (String.eqb _ _).
    - eapply triple_bind with (Mid := fun _ => V1_inv false).
      + inv_update.
        pose proof (fmin_upper_l 1 (V1.liquidity (V1.state g) + 0.1)).
        pose proof (fmin_lower 1 (V1.liquidity (V1.state g) + 0.1) 0
                      ltac:(lra) ltac:(lra)).
        inv_split.
      + intros ?. apply triple_ret. auto.
    - apply triple_ret. auto. }
  intros e3. apply triple_ret. auto.
Qed.

Ltac case_if :=
  match goal with
  | |- triple _ (if ?c then _ else _) _ _ => destruct c eqn:?
  | |- triple _ (match ?c with Some _ => _ | None => _ end) _ _ => destruct c eqn:?
  | |- triple _ (match ?c with (_, _) => _ end) _ _ => destruct c
  end.

Ltac keep I := eapply triple_bind with (Mid := fun _ => I).
Ltac done_ret := apply triple_ret; auto.
Ltac draw r H :=
  eapply triple_bind; [apply triple_random|]; intros r; apply triple_fact; intros H.
Ltac draw_uniform x H :=
  eapply triple_bind; [apply triple_uniform; lra|]; intros x; apply triple_fact; intros H.
Ltac logged := apply V1_log; intros; assumption.

Lemma V1_liquidity_event Exc :
  triple (V1_inv false) V1.liquidity_event (fun _ => V1_inv false) Exc.
Proof.
  unfold V1.liquidity_event.
  eapply triple_bind; [apply V1_peek|]. intros s.
  draw r Hr. case_if; [|done_ret].
  draw_uniform p Hp.
  keep (V1_inv false); [inv_update; inv_split|]. intros ?.
  keep (V1_inv false); [|intros ?; done_ret].
  inv_update.
  pose proof (fmin_lower (V1.stress (V1.state g)) 1 0 ltac:(lra) ltac:(lra)).
  inv_split.
Qed.

(** [modern_business_tactics] works on its arguments only. *)
Lemma V1_modern_business_tactics P q cs ca pa Exc :
  triple P (V1.modern_business_tactics q cs ca pa) (fun _ g => P g) Exc.
Proof.
  unfold V1.modern_business_tactics.
  repeat match goal with
         | |- context [if ?c then _ else _] => destruct c
         end; cbv zeta;
  try (apply triple_ret; auto);
  (eapply triple_bind; [apply triple_random|]; intros r;
   destruct (0.5 <? r); apply triple_ret; tauto).
Qed.

Lemma V1_advanced_intel_operations Exc :
  triple (V1_inv false) V1.advanced_intel_operations (fun _ => V1_inv false) Exc.
Proof.
  unfold V1.advanced_intel_operations.
  eapply triple_bind; [apply V1_peek|]. intros s. cbv zeta.
  keep (V1_inv false).
  - case_if; [|done_ret].
    draw r Hr.
    keep (V1_inv false).
    + case_if; [|done_ret].
      draw_uniform d Hd.
      keep (V1_inv false).
      { inv_update.
        pose proof (fmax_lower_l 0 (V1.liquidity (V1.state g) - d)).
        pose proof (fmax_upper 0 (V1.liquidity (V1.state g) - d) 1
                      ltac:(lra) ltac:(lra)).
        inv_split. }
      intros ?. keep (V1_inv false); [inv_update; inv_split|].
      intros ?. done_ret.
    + intros a1. draw r' Hr'.
      keep (V1_inv false).
      * case_if; [|done_ret].
        keep (V1_inv false); [inv_update; inv_split|]. intros ?. done_ret.
      * intros a2. done_ret.
  - intros actions.
    keep (V1_inv false); [inv_update; inv_split|]. intros ?. done_ret.
Qed.

Lemma V1_subscript P (l : list Z) (i : nat) :
  (i < List.length l)%nat ->
  triple P (V1.subscript l i) (fun _ g => P g) never.
Proof.
  intros H. unfold V1.subscript.
  destruct (nth_error l i) eqn:E.
  - apply triple_ret. auto.
  - apply nth_error_None in E. lia.
Qed.

Lemma V1_invest_from b types : forall i gain dist,
  (i + List.length types <= List.length dist)%nat ->
  triple (V1_inv b) (V1.invest_from i types gain dist) (fun _ => V1_inv b) never.
Proof.
  induction types as [|typ rest IH]; intros i gain dist H; simpl.
  - done_ret.
  - simpl in H.
    eapply triple_bind; [apply V1_subscript; lia|]. intros share. cbv zeta.
    keep (V1_inv b); [inv_update; inv_split|]. intros ?.
    eapply triple_bind; [apply V1_peek|]. intros s.
    keep (V1_inv b); [apply triple_when; intros _; logged|]. intros ?.
    apply IH. lia.
Qed.

Lemma V1_resource_management dist :
  (7 <= List.length dist)%nat ->
  triple (V1_inv false) (V1.resource_management dist) (fun _ => V1_inv false) never.
Proof.
  intros H. unfold V1.resource_management.
  eapply triple_bind; [apply V1_peek|]. intros s. cbv zeta.
  keep (V1_inv false).
  - case_if; [|logged].
    keep (V1_inv false); [inv_update; inv_split|]. intros ?.
    apply V1_invest_from. simpl. lia.
  - intros ?. eapply triple_bind; [apply V1_peek|]. intros s'.
    apply triple_when. intros _. case_if.
    + keep (V1_inv false); [inv_update; inv_split|]. intros ?.
      keep (V1_inv false); [|intros ?; logged].
      inv_update. pose proof (fmax_lower_l 0 (V1.stress (V1.state g) - 0.05)).
      inv_split.
    + keep (V1_inv false); [inv_update; inv_split|]. intros ?. logged.
Qed.

Lemma V1_resolve_scores_nonneg s :
  (0 <= fst (V1.resolve_scores s))%Z /\ (0 <= snd (V1.resolve_scores s))%Z.
Proof.
  unfold V1.resolve_scores.
  destruct (if existsb _ _ then _ else _) as [ps cs]. simpl.
  split; apply zmax_lower_l.
Qed.

Lemma V1_resolve_market_competition P Exc :
  triple P V1.resolve_market_competition
         (fun r g => P g /\ ((0 <= fst r)%Z /\ (0 <= snd r)%Z)) Exc.
Proof.
  unfold V1.resolve_market_competition.
  eapply triple_bind; [apply V1_peek|]. intros s.
  apply triple_ret. intros g Hg. split; [assumption|].
  apply V1_resolve_scores_nonneg.
Qed.

(** With a positive [memory_len] the mean is taken over a non-empty memory. *)
Lemma decide_personality_ok {X} (L : AI.Labels) (ai : AI.t X) :
  (0 < AI.memory_len ai)%Z ->
  exists ai', AI.decide_personality L ai = Ok ai'
              /\ AI.memory_len ai' = AI.memory_len ai
              /\ AI.memory ai' = AI.memory ai.
Proof.
  intros H. unfold AI.decide_personality.
  destruct (AI.len ai <? AI.memory_len ai)%Z eqn:E.
  - eexists. repeat split.
  - apply Z.ltb_ge in E. unfold AI.win_rate.
    destruct (AI.len ai =? 0)%Z eqn:E0; [apply Z.eqb_eq in E0; lia|].
    eexists. repeat split.
Qed.

Lemma V1_competitor_decision b :
  triple (V1_inv b) V1.competitor_decision (fun _ => V1_inv b) never.
Proof.
  unfold V1.competitor_decision.
  eapply triple_bind.
  { apply V1_read with (phi := fun s => (0 < AI.memory_len (V1.competitor_ai s))%Z).
    intros g Hg. apply Hg. }
  intros s. apply triple_fact. intros Hpos.
  destruct (decide_personality_ok AI.business_labels (V1.competitor_ai s) Hpos)
    as (ai' & E & Hl & _).
  rewrite E.
  eapply triple_bind with (Mid := fun a g => V1_inv b g /\ a = ai').
  { apply triple_of_result. intros g Hg. auto. }
  intros a. apply triple_fact. intros ->.
  keep (V1_inv b).
  { inv_update. rewrite Hl. inv_split. }
  intros ?. cbv zeta.
  keep (V1_inv b).
  - case_if; [done_ret|]. draw r Hr. done_ret.
  - intros feint. done_ret.
Qed.

Lemma V1_post_competition_effects b pl cl Exc :
  triple (V1_inv b) (V1.post_competition_effects pl cl) (fun _ => V1_inv b) Exc.
Proof.
  unfold V1.post_competition_effects. cbv zeta.
  keep (V1_inv b); [inv_update; inv_split|]. intros ?.
  keep (V1_inv b); [inv_update; inv_split|]. intros ?.
  keep (V1_inv b); [case_if; logged|]. intros ?.
  eapply triple_bind; [apply V1_peek|]. intros s.
  apply triple_when. intros _.
  keep (V1_inv b); [logged|]. intros ?.
  inv_update; inv_split.
Qed.

Lemma observe_outcome_memory_len {X} win (dist : list X) ai :
  AI.memory_len (AI.observe_outcome win dist ai) = AI.memory_len ai.
Proof. reflexivity. Qed.

Lemma V1_update_competitor_ai b pl cl Exc :
  triple (V1_inv b) (V1.update_competitor_ai pl cl) (fun _ => V1_inv b) Exc.
Proof.
  unfold V1.update_competitor_ai.
  eapply triple_bind; [apply V1_peek|]. intros s. cbv zeta.
  keep (V1_inv b); [inv_update; inv_split|]. intros ?.
  eapply triple_bind; [apply V1_peek|]. intros s'. logged.
Qed.

Lemma clamp_unit_range (x : Q) : unit_range (fmax 0 (fmin x 1)).
Proof.
  split; [apply fmax_lower_l|].
  apply fmax_upper; [lra | apply fmin_upper_r].
Qed.

Lemma clamp_unit_range' (x : Q) : unit_range (fmax 0 (fmin 1 x)).
Proof.
  split; [apply fmax_lower_l|].
  apply fmax_upper; [lra | apply fmin_upper_l].
Qed.

Lemma V1_calculate_sentiment_range s : unit_range (V1.calculate_sentiment s).
Proof. unfold V1.calculate_sentiment. cbv zeta. apply clamp_unit_range. Qed.

Lemma V1_snapshot_bounded turn actions s :
  unit_range (V1.sentiment s) -> unit_range (V1.stress s) ->
  unit_range (V1.liquidity s) -> V1_bounded (V1.snapshot turn actions s).
Proof. intros. unfold V1_bounded. simpl. auto. Qed.

(** The losses of the player are never negative: both scores are clamped at
    0 and the losing side is the one with the smaller score. *)
Lemma V1_player_losses_nonneg (ps cs : Q) :
  0 <= ps -> 0 <= cs ->
  (0 <= Py.int (cs * 0.04))%Z
  /\ ((cs <? ps) = false -> (0 <= Py.int ((cs - ps) * 0.07))%Z).
Proof.
  intros Hp Hc. split.
  - apply int_nonneg. nra.
  - intros E. apply fltb_false in E. apply int_nonneg. nra.
Qed.

Lemma V1_quarter_body turn dist :
  (7 <= List.length dist)%nat ->
  triple (V1_inv false) (V1.quarter_body turn dist) (fun _ => V1_inv true) never.
Proof.
  intros Hdist. unfold V1.quarter_body.
  keep (V1_inv false); [logged|]. intros ?.
  keep (V1_inv false).
  { case_if; [|done_ret].
    eapply triple_bind; [apply triple_choice|]. intros e. inv_update; inv_split. }
  intros ?.
  keep (V1_inv false); [inv_update; inv_split|]. intros ?.
  draw r Hr.
  keep (V1_inv false).
  { case_if; [|done_ret].
    eapply triple_bind; [apply triple_choice|]. intros e. inv_update; inv_split. }
  intros ?.
  eapply triple_bind; [apply V1_environment_effects|]. intros env_effects.
  keep (V1_inv false); [apply triple_for_each; intros; logged|]. intros ?.
  eapply triple_bind; [apply V1_liquidity_event|]. intros event.
  keep (V1_inv false); [case_if; [logged|done_ret]|]. intros ?.
  eapply triple_bind; [apply V1_peek|]. intros s.
  eapply triple_bind; [apply V1_modern_business_tactics|].
  intros [[advanced_actions new_sentiment] new_assets].
  keep (V1_inv false); [inv_update; inv_split|]. intros ?.
  keep (V1_inv false); [inv_update; inv_split|]. intros ?.
  keep (V1_inv false); [apply triple_for_each; intros; logged|]. intros ?.
  eapply triple_bind; [apply V1_advanced_intel_operations|]. intros intel_actions.
  keep (V1_inv false); [apply triple_for_each; intros; logged|]. intros ?.
  eapply triple_bind; [apply V1_resource_management; assumption|]. intros ?.
  keep (V1_inv false).
  { inv_update.
    destruct (V1_calculate_sentiment_range (V1.state g)). inv_split. }
  intros ?.
  eapply triple_bind; [apply V1_resolve_market_competition|].
  intros [player_score competitor_score]. apply triple_fact. simpl fst. simpl snd.
  intros [Hps Hcs]. cbv zeta.
  eapply triple_bind; [apply V1_competitor_decision|].
  intros [[confidence avoid] feint].
  keep (V1_inv false); [apply triple_when; intros _; logged|]. intros ?.
  keep (V1_inv false); [apply triple_when; intros _; logged|]. intros ?.
  set (cs := if avoid then Z2Q competitor_score * 0.8 else Z2Q competitor_score).
  set (ps := if feint then Z2Q player_score * 0.9 else Z2Q player_score).
  assert (Hps' : 0 <= ps).
  { pose proof (Z2Q_nonneg _ Hps). unfold ps. destruct feint; lra. }
  assert (Hcs' : 0 <= cs).
  { pose proof (Z2Q_nonneg _ Hcs). unfold cs. destruct avoid; lra. }
  destruct (V1_player_losses_nonneg ps cs Hps' Hcs') as [Hwin Hlose].
  eapply triple_bind
    with (Mid := fun r g => V1_inv false g /\ (0 <= fst r)%Z).
  { case_if.
    - keep (V1_inv false); [logged|]. intros ?.
      keep (V1_inv false); [logged|]. intros ?.
      apply triple_ret. intros g Hg. split; [assumption | exact Hwin].
    - keep (V1_inv false); [logged|]. intros ?.
      keep (V1_inv false); [logged|]. intros ?.
      apply triple_ret. intros g Hg. split; [assumption | now apply Hlose]. }
  intros [player_losses competitor_losses]. apply triple_fact. simpl fst.
  intros Hpl.
  keep (V1_inv false); [inv_update; inv_split|]. intros ?.
  keep (V1_inv false); [inv_update; inv_split|]. intros ?.
  assert (Hgain : 0 <= Z2Q player_losses / 15000).
  { pose proof (Z2Q_nonneg _ Hpl).
    apply Qle_shift_div_l; lra. }
  keep (V1_inv true).
  { inv_update.
    pose proof (fmin_upper_l 1 (V1.stress (V1.state g)
                                + (0.05 + Z2Q player_losses / 15000))).
    pose proof (fmin_lower 1 (V1.stress (V1.state g)
                              + (0.05 + Z2Q player_losses / 15000)) 0
                  ltac:(lra) ltac:(lra)).
    inv_split. }
  intros ?.
  keep (V1_inv true).
  { inv_update.
    pose proof (fmax_lower_l 0 (V1.liquidity (V1.state g)
                  - (0.09 + (0.05 + Z2Q player_losses / 15000) * 0.5))).
    pose proof (fmax_upper 0 (V1.liquidity (V1.state g)
                  - (0.09 + (0.05 + Z2Q player_losses / 15000) * 0.5)) 1
                  ltac:(lra) ltac:(lra)).
    inv_split. }
  intros ?.
  eapply triple_bind; [apply V1_post_competition_effects|]. intros ?.
  eapply triple_bind; [apply V1_update_competitor_ai|]. intros ?.
  eapply triple_bind.
  { apply V1_read with (phi := fun s => unit_range (V1.sentiment s)
                                  /\ unit_range (V1.stress s)
                                  /\ unit_range (V1.liquidity s)).
    intros g (H1 & H2 & H3 & H4 & _). unfold unit_range. auto. }
  intros s'. apply triple_fact. intros (Hsen & Hstr & Hliq).
  do 7 (keep (V1_inv true); [logged|]; intros ?).
  keep (V1_inv true).
  { apply triple_modify. intros g Hg. unfold V1_inv in *. cbn.
    destruct Hg as (H1 & H2 & H3 & H4 & H5 & H6).
    split; [exact H1|]. split; [exact H2|]. split; [exact H3|].
    split; [exact H4|]. split; [exact H5|].
    apply Forall_app. split; [assumption|].
    constructor; [|constructor]. now apply V1_snapshot_bounded. }
  intros ?.
  case_if.
  - keep (V1_inv true); [logged|]. intros ?. done_ret.
  - case_if.
    + keep (V1_inv true); [logged|]. intros ?. done_ret.
    + done_ret.
Qed.

Lemma normalise_length width l :
  (width <= List.length (Parse.normalise width l))%nat.
Proof.
  unfold Parse.normalise. cbv zeta.
  destruct (_ && _); rewrite length_app, repeat_length; lia.
Qed.

Lemma parse_percentages_length default width dist :
  (width <= List.length (Parse.parse_percentages default width dist))%nat.
Proof. apply normalise_length. Qed.

Lemma V1_quarters k : forall turn dist,
  (7 <= List.length dist)%nat ->
  triple (V1_inv false) (V1.quarters k turn dist) (fun _ => V1_inv false) never.
Proof.
  induction k as [|k IH]; intros turn dist H; simpl.
  - done_ret.
  - eapply triple_bind.
    + eapply triple_post; [|apply V1_quarter_body; assumption].
      intros a g. apply V1_inv_weaken.
    + intros stop. destruct stop; [done_ret | now apply IH].
Qed.

Lemma V1_init_state Exc :
  triple (fun g => V1.sim_data g = []) V1.init_state (fun _ => V1_inv false) Exc.
Proof.
  unfold V1.init_state.
  eapply triple_bind; [apply triple_choice|]. intros personality.
  eapply triple_bind; [apply triple_choice|]. intros market.
  eapply triple_bind; [apply triple_choice|]. intros economy.
  eapply triple_bind; [apply triple_choice|]. intros quarter.
  apply triple_modify. intros g Hg. unfold V1_inv, unit_range. cbn.
  rewrite Hg. repeat split; try lra; try lia; try discriminate. constructor.
Qed.

Lemma V1_showerror b t m Exc :
  triple (V1_inv b) (V1.showerror t m) (fun _ => V1_inv b) Exc.
Proof. apply triple_modify. intros g Hg. exact Hg. Qed.

(** A run keeps the invariant.  An exception leaves [run_simulation] only
    when reading the number of quarters raises something that is not a
    [ValueError], and then no quarter has been played; in particular no
    quarter raises. *)
Lemma V1_run_simulation_inv tv dist :
  triple (fun _ => True) (V1.run_simulation tv dist) (fun _ => V1_inv false)
         (fun e g => V1.sim_data g = [] /\ tv = Raise e /\ e <> ValueError).
Proof.
  unfold V1.run_simulation.
  eapply triple_bind with (Mid := fun _ _ => True).
  { apply triple_modify. auto. }
  intros ?.
  eapply triple_bind with (Mid := fun _ g => V1.sim_data g = []).
  { apply triple_modify. reflexivity. }
  intros ?.
  set (I0 := fun g => V1_inv false g /\ V1.sim_data g = []).
  eapply triple_bind with (Mid := fun _ => I0).
  { unfold V1.init_state.
    eapply triple_bind; [apply triple_choice|]. intros personality.
    eapply triple_bind; [apply triple_choice|]. intros market.
    eapply triple_bind; [apply triple_choice|]. intros economy.
    eapply triple_bind; [apply triple_choice|]. intros quarter.
    apply triple_modify. intros g Hg. unfold I0, V1_inv, unit_range. cbn.
    rewrite Hg. repeat split; try lra; try lia; try discriminate. constructor. }
  intros ?.
  eapply triple_bind with (Mid := fun _ g => V1_inv false g).
  - unfold V1.except_ValueError.
    eapply triple_try_except
      with (Mid := fun e g => I0 g /\ (tv = Raise e \/ e = ValueError)).
    + eapply triple_bind with (Mid := fun _ => I0).
      * apply triple_of_result. intros g Hg. destruct tv; auto.
      * intros turns. destruct (turns <=? 0)%Z.
        -- apply triple_raise. auto.
        -- apply triple_ret. intros g Hg. apply Hg.
    + intros e.
      destruct e;
        try (apply triple_raise; intros g [[_ Hg] [E|E]];
             [split; [exact Hg | split; [exact E | discriminate]] | discriminate]).
      keep (V1_inv false).
      * eapply triple_pre; [|apply V1_showerror]. intros g [[Hg _] _]. exact Hg.
      * intros ?. done_ret.
  - intros [turns|]; [|done_ret]. cbv zeta.
    apply triple_never.
    eapply triple_bind; [apply V1_peek|]. intros s.
    keep (V1_inv false); [logged|]. intros ?.
    keep (V1_inv false).
    { apply V1_quarters. apply parse_percentages_length. }
    intros ?.
    keep (V1_inv false); [logged|]. intros ?.
    eapply triple_bind; [apply V1_peek|]. intros s'.
    keep (V1_inv false); [logged|]. intros ?.
    case_if; logged.
Qed.

(** *** Variant 002 *)

Lemma V2_peek P Exc : triple P V2.the_state (fun _ g => P g) Exc.
Proof.
  unfold V2.the_state. eapply triple_bind; [apply triple_get|].
  intros g. apply triple_ret. tauto.
Qed.

Lemma V2_read P (phi : V2.Campaign -> Prop) Exc :
  (forall g, P g -> phi (V2.state g)) ->
  triple P V2.the_state (fun s g => P g /\ phi s) Exc.
Proof.
  intros H. unfold V2.the_state. eapply triple_bind; [apply triple_get|].
  intros g. apply triple_ret. intros g' [Hg E]. subst. auto.
Qed.

(** Neither an update of the state nor a log line touches the history. *)
Lemma V2_update_good f Exc :
  triple V2_good (V2.update f) (fun _ => V2_good) Exc.
Proof. apply triple_modify. intros g Hg. exact Hg. Qed.

Lemma V2_log_good t a e Exc :
  triple V2_good (V2.log t a e) (fun _ => V2_good) Exc.
Proof. apply triple_modify. intros g Hg. exact Hg. Qed.

Ltac good_step :=
  first
    [ apply V2_update_good
    | apply V2_log_good
    | apply triple_ret; solve [auto]
    | apply triple_raise; solve [auto]
    | apply triple_choice
    | apply triple_random_keep
    | apply triple_uniform_keep
    | apply V2_peek
    | apply triple_when; intros _
    | (eapply triple_bind with (Mid := fun _ => V2_good); [|intros ?])
    | case_if
    | progress cbv zeta ].

Lemma V2_subscript_good l i :
  triple V2_good (V2.subscript l i) (fun _ => V2_good) (fun _ => V2_good).
Proof. unfold V2.subscript. repeat good_step. Qed.

Lemma V2_invest_from_good ks : forall i gain dist,
  triple V2_good (V2.invest_from i ks gain dist) (fun _ => V2_good)
         (fun _ => V2_good).
Proof.
  induction ks as [|k rest IH]; intros i gain dist; simpl.
  - good_step.
  - good_step; [apply V2_subscript_good|]. repeat good_step. apply IH.
Qed.

Lemma V2_adjust_behavior_good c :
  triple V2_good (V2.adjust_behavior c) (fun _ => V2_good) (fun _ => V2_good).
Proof.
  unfold V2.adjust_behavior.
  good_step.
  { apply triple_of_result. intros g Hg. destruct (AI.decide_personality _ _); auto. }
  repeat good_step.
Qed.

Lemma V2_competitors_act_good todo : forall done,
  triple V2_good (V2.competitors_act todo done) (fun _ => V2_good)
         (fun _ => V2_good).
Proof.
  induction todo as [|c rest IH]; intros done; simpl.
  - good_step.
  - good_step; [apply V2_adjust_behavior_good|].
    destruct a as [c' action]. repeat good_step. apply IH.
Qed.

Lemma V2_external_event_chance_good :
  triple V2_good V2.external_event_chance (fun _ => V2_good) (fun _ => V2_good).
Proof.
  unfold V2.external_event_chance, V2.trigger_external_event.
  repeat good_step.
Qed.

Lemma V2_environment_updates_good q :
  triple V2_good (V2.environment_updates q) (fun _ => V2_good) (fun _ => V2_good).
Proof. unfold V2.environment_updates. repeat good_step. Qed.

Lemma V2_player_investment_good dist :
  triple V2_good (V2.player_investment dist) (fun _ => V2_good)
         (fun _ => V2_good).
Proof.
  unfold V2.player_investment. repeat good_step. apply V2_invest_from_good.
Qed.

Lemma V2_competitors_ai_actions_good :
  triple V2_good V2.competitors_ai_actions (fun _ => V2_good) (fun _ => V2_good).
Proof.
  unfold V2.competitors_ai_actions. good_step; [good_step|].
  apply V2_competitors_act_good.
Qed.

Lemma V2_market_competition_results_good :
  triple V2_good V2.market_competition_results (fun _ => V2_good)
         (fun _ => V2_good).
Proof. unfold V2.market_competition_results. repeat good_step. Qed.

Lemma V2_snapshot_bounded q cs s :
  unit_range (V2.sentiment s) -> unit_range (V2.stress s) ->
  unit_range (V2.liquidity s) -> V2_bounded (V2.snapshot q cs s).
Proof. intros. unfold V2_bounded. simpl. auto. Qed.

Lemma unit_range_Qred x : unit_range x -> unit_range (Qred x).
Proof. unfold unit_range. now rewrite Qred_correct. Qed.

Lemma V2_update_sentiments_stress_liquidity_clamps Exc :
  triple V2_good V2.update_sentiments_stress_liquidity (fun _ => V2_clamped) Exc.
Proof.
  unfold V2.update_sentiments_stress_liquidity.
  eapply triple_bind; [apply triple_uniform_keep|]. intros d1.
  set (I1 := fun g => V2_good g /\ unit_range (V2.sentiment (V2.state g))).
  eapply triple_bind with (Mid := fun _ => I1).
  { apply triple_modify. intros g Hg. split; [exact Hg|]. cbn.
    apply unit_range_Qred, clamp_unit_range'. }
  intros ?.
  eapply triple_bind; [apply triple_uniform_keep|]. intros d2.
  set (I2 := fun g => I1 g /\ unit_range (V2.stress (V2.state g))).
  eapply triple_bind with (Mid := fun _ => I2).
  { apply triple_modify. intros g Hg. split; [exact Hg|]. cbn.
    apply unit_range_Qred, clamp_unit_range'. }
  intros ?.
  eapply triple_bind; [apply triple_uniform_keep|]. intros d3.
  apply triple_modify. intros g [[Hg H1] H2]. unfold V2_clamped. cbn.
  repeat split; try apply H1; try apply H2; try exact Hg;
    apply unit_range_Qred, clamp_unit_range'.
Qed.

Lemma V2_record_turn_data q :
  triple V2_clamped (V2.record_turn_data q) (fun _ => V2_good) (fun _ => V2_good).
Proof.
  unfold V2.record_turn_data.
  eapply triple_bind.
  { apply V2_read with (phi := fun s => unit_range (V2.sentiment s)
                                  /\ unit_range (V2.stress s)
                                  /\ unit_range (V2.liquidity s)).
    intros g H. apply H. }
  intros s. apply triple_fact. intros (H1 & H2 & H3).
  eapply triple_bind with (Mid := fun _ => V2_good).
  { case_if.
    - apply triple_raise. intros g Hg. apply Hg.
    - apply triple_ret. intros g Hg. apply Hg. }
  intros cs. apply triple_modify. intros g Hg. unfold V2_good in *. cbn.
  apply Forall_app. split; [exact Hg|].
  constructor; [|constructor]. now apply V2_snapshot_bounded.
Qed.

Lemma V2_quarter_body_good quarter dist :
  triple V2_good (V2.quarter_body quarter dist) (fun _ => V2_good)
         (fun _ => V2_good).
Proof.
  unfold V2.quarter_body.
  good_step; [good_step|].
  good_step; [apply V2_external_event_chance_good|].
  good_step; [apply V2_environment_updates_good|].
  good_step; [apply V2_player_investment_good|].
  good_step; [apply V2_competitors_ai_actions_good|].
  good_step; [apply V2_market_competition_results_good|].
  eapply triple_bind; [apply V2_update_sentiments_stress_liquidity_clamps|].
  intros ?. apply V2_record_turn_data.
Qed.

Lemma V2_quarters_good k : forall quarter dist,
  triple V2_good (V2.quarters k quarter dist) (fun _ => V2_good)
         (fun _ => V2_good).
Proof.
  induction k as [|k IH]; intros quarter dist; simpl.
  - good_step.
  - good_step; [apply V2_quarter_body_good | apply IH].
Qed.

Lemma V2_run_simulation_good tv dist :
  triple (fun _ => True) (V2.run_simulation tv dist) (fun _ => V2_good)
         (fun _ => V2_good).
Proof.
  unfold V2.run_simulation.
  eapply triple_bind with (Mid := fun _ _ => True).
  { apply triple_modify. auto. }
  intros ?.
  good_step.
  { apply triple_modify. intros g _. constructor. }
  good_step.
  - eapply triple_try_except with (Mid := fun _ => V2_good).
    + good_step.
      * apply triple_of_result. intros g Hg. destruct tv; auto.
      * repeat good_step.
    + intros e. good_step; [|good_step].
      apply triple_modify. intros g Hg. exact Hg.
  - destruct a1; [|good_step].
    repeat good_step. apply V2_quarters_good.
Qed.

(** No quarter of variant 001 raises: a run that reads a number of quarters
    returns normally. *)
Lemma V1_run_simulation_returns (w : World V1.GUI) (turns : Z) (dist : string) :
  fst (V1.run_simulation (Ok turns) dist w) = Ok tt.
Proof.
  pose proof (V1_run_simulation_inv (Ok turns) dist w I) as H.
  destruct (V1.run_simulation (Ok turns) dist w) as [[[]|e] w']; [reflexivity|].
  destruct H as (_ & E & _). discriminate.
Qed.

(** C1. In every variant with the three bounded scalars (001 and 002), every
    snapshot that a run appends to the history has its sentiment, stress and
    liquidity within [0, 1]: whatever the generator draws, whatever the
    object was before the run, whatever the two entries hold and however
    many quarters are played. *)
Theorem C1_snapshot_scalars_within_unit_interval :
  (forall (w : World V1.GUI) (turns_var_get : result Z) (dist : string),
      Forall V1_bounded
        (V1.sim_data (gui (snd (V1.run_simulation turns_var_get dist w)))))
  /\ (forall (w : World V2.GUI) (turns_var_get : result Z) (dist : string),
      Forall V2_bounded
        (V2.sim_data (gui (snd (V2.run_simulation turns_var_get dist w))))).
Proof.
  split; intros w tv dist.
  - pose proof (V1_run_simulation_inv tv dist w I) as H.
    destruct (V1.run_simulation tv dist w) as [[a|e] w']; simpl.
    + apply H.
    + destruct H as [E _]. rewrite E. constructor.
  - pose proof (V2_run_simulation_good tv dist w I) as H.
    destruct (V2.run_simulation tv dist w) as [[a|e] w']; exact H.
Qed.

(** ** Methods that leave a part of the object alone *)

Section PreservesRules.
Context {G X : Type} (proj : G -> X).

Lemma preserves_ret {A} (a : A) : preserves proj (ret a).
Proof. intros w. reflexivity. Qed.

Lemma preserves_raise {A} (e : exn) : preserves proj (@raise G A e).
Proof. intros w. reflexivity. Qed.

Lemma preserves_get : preserves proj get.
Proof. intros w. reflexivity. Qed.

Lemma preserves_of_result {A} (r : result A) : preserves proj (of_result r).
Proof. intros w. reflexivity. Qed.

Lemma preserves_random : preserves proj random.
Proof. intros w. reflexivity. Qed.

Lemma preserves_modify (f : G -> G) :
  (forall g, proj (f g) = proj g) -> preserves proj (modify f).
Proof. intros H w. apply H. Qed.

Lemma preserves_bind {A B} (m : M G A) (k : A -> M G B) :
  preserves proj m -> (forall a, preserves proj (k a)) ->
  preserves proj (bind m k).
Proof.
  intros Hm Hk w. unfold bind. specialize (Hm w).
  destruct (m w) as [[a|e] w']; cbn [snd] in *.
  - rewrite Hk. exact Hm.
  - exact Hm.
Qed.

Lemma preserves_uniform (a b : Q) : preserves proj (uniform a b).
Proof. intros w. reflexivity. Qed.

Lemma preserves_choice {A} (l : list A) (d : A) : preserves proj (choice l d).
Proof. intros w. reflexivity. Qed.

Lemma preserves_when (b : bool) (m : M G unit) :
  preserves proj m -> preserves proj (when b m).
Proof. intros H. destruct b; [exact H | apply preserves_ret]. Qed.

Lemma preserves_for_each {A} (l : list A) (body : A -> M G unit) :
  (forall a, preserves proj (body a)) -> preserves proj (for_each l body).
Proof.
  intros H. induction l as [|a l IH]; simpl.
  - apply preserves_ret.
  - apply preserves_bind; [apply H | intros _; exact IH].
Qed.

Lemma preserves_try_except {A} (m : M G A) (h : exn -> M G A) :
  preserves proj m -> (forall e, preserves proj (h e)) ->
  preserves proj (try_except m h).
Proof.
  intros Hm Hh w. unfold try_except. specialize (Hm w).
  destruct (m w) as [[a|e] w']; cbn [snd] in *.
  - exact Hm.
  - rewrite Hh. exact Hm.
Qed.

(** What a method preserves is a frame of its triples. *)
Lemma preserves_triple {A} (m : M G A) (x : X) :
  preserves proj m ->
  triple (fun g => proj g = x) m (fun _ g => proj g = x) (fun _ g => proj g = x).
Proof.
  intros H w Hw. specialize (H w).
  destruct (m w) as [[a|e] w']; cbn [snd] in H; congruence.
Qed.

End PreservesRules.

(** Two triples of one method hold together. *)
Lemma triple_conj {G A} (P P' : G -> Prop) (m : M G A)
    (Post Post' : A -> G -> Prop) (Exc Exc' : exn -> G -> Prop) :
  triple P m Post Exc -> triple P' m Post' Exc' ->
  triple (fun g => P g /\ P' g) m (fun a g => Post a g /\ Post' a g)
         (fun e g => Exc e g /\ Exc' e g).
Proof.
  intros H H' w [Hw Hw']. specialize (H w Hw). specialize (H' w Hw').
  destruct (m w) as [[a|e] w']; split; assumption.
Qed.

Create HintDb frame.

Ltac head_of t := match t with ?f _ => head_of f | _ => t end.

(** Walks a method down to its reads, draws and writes. *)
Ltac preserved :=
  repeat first
    [ assumption
    | solve [auto with frame nocore]
    | lazymatch goal with
      | |- preserves _ (bind _ _) => apply preserves_bind; [|intros]
      | |- preserves _ (ret _) => apply preserves_ret
      | |- preserves _ (raise _) => apply preserves_raise
      | |- preserves _ get => apply preserves_get
      | |- preserves _ (of_result _) => apply preserves_of_result
      | |- preserves _ random => apply preserves_random
      | |- preserves _ (uniform _ _) => apply preserves_uniform
      | |- preserves _ (choice _ _) => apply preserves_choice
      | |- preserves _ (modify _) => apply preserves_modify; intros; reflexivity
      | |- preserves _ (when _ _) => apply preserves_when
      | |- preserves _ (for_each _ _) => apply preserves_for_each; intros
      | |- preserves _ (try_except _ _) => apply preserves_try_except; [|intros]
      | |- preserves _ (if ?c then _ else _) => destruct c
      | |- preserves _ (match ?c with _ => _ end) => destruct c
      | |- preserves _ ?m =>
          first [ progress cbv zeta
                | let h := head_of m in progress unfold h ]
      end ].

(** *** Variant 001: everything before the snapshot leaves the history *)

Lemma V1_frame_invest_from types : forall i gain dist,
  preserves V1.sim_data (V1.invest_from i types gain dist).
Proof. induction types as [|typ rest IH]; intros; simpl; preserved. Qed.
#[export] Hint Resolve V1_frame_invest_from : frame.

Lemma V1_frame_environment_effects : preserves V1.sim_data V1.environment_effects.
Proof. preserved. Qed.

Lemma V1_frame_liquidity_event : preserves V1.sim_data V1.liquidity_event.
Proof. preserved. Qed.

Lemma V1_frame_modern_business_tactics q cs ca pa :
  preserves V1.sim_data (V1.modern_business_tactics q cs ca pa).
Proof. preserved. Qed.

Lemma V1_frame_advanced_intel_operations :
  preserves V1.sim_data V1.advanced_intel_operations.
Proof. preserved. Qed.

Lemma V1_frame_resource_management dist :
  preserves V1.sim_data (V1.resource_management dist).
Proof. preserved. Qed.

Lemma V1_frame_competitor_decision : preserves V1.sim_data V1.competitor_decision.
Proof. preserved. Qed.

Lemma V1_frame_post_competition_effects pl cl :
  preserves V1.sim_data (V1.post_competition_effects pl cl).
Proof. preserved. Qed.

Lemma V1_frame_update_competitor_ai pl cl :
  preserves V1.sim_data (V1.update_competitor_ai pl cl).
Proof. preserved. Qed.

Lemma V1_frame_init_state : preserves V1.sim_data V1.init_state.
Proof. preserved. Qed.

#[export] Hint Resolve V1_frame_environment_effects V1_frame_liquidity_event
  V1_frame_modern_business_tactics V1_frame_advanced_intel_operations
  V1_frame_resource_management V1_frame_competitor_decision
  V1_frame_post_competition_effects V1_frame_update_competitor_ai : frame.

(** *** What a loop with a break adds to the history *)

Lemma played_nil {S} (zero : S -> bool) : played zero 0 [].
Proof.
  split; [|split].
  - cbn. lia.
  - intros pre d post E. destruct pre; discriminate.
  - cbn. lia.
Qed.

Lemma played_stop {S} (zero : S -> bool) (k : nat) (d : S) :
  zero d = true -> played zero (Datatypes.S k) [d].
Proof.
  intros Hd. split; [|split].
  - cbn. lia.
  - intros pre d' post E _. destruct pre as [|x pre]; cbn in E.
    + now injection E.
    + injection E as _ E. destruct pre; discriminate.
  - intros _. exists [], d. split; [reflexivity | exact Hd].
Qed.

Lemma played_cons {S} (zero : S -> bool) (k : nat) (d : S) (added : list S) :
  zero d = false -> played zero k added ->
  played zero (Datatypes.S k) (d :: added).
Proof.
  intros Hd (Hlen & Hlast & Hshort). split; [|split].
  - cbn. lia.
  - intros pre d' post E Hd'. destruct pre as [|x pre]; cbn in E.
    + injection E as -> _. congruence.
    + injection E as _ E. exact (Hlast _ _ _ E Hd').
  - cbn. intros Hlt. destruct Hshort as (pre & d' & E & Hd'); [lia|].
    exists (d :: pre), d'. split; [rewrite E; reflexivity | exact Hd'].
Qed.

(** *** Variant 001: one snapshot a quarter, and the test of the break *)

Ltac V1_framed l :=
  repeat first
    [ eapply triple_bind with (Mid := fun _ g => V1.sim_data g = l);
      [ solve [apply preserves_triple; preserved] | intros ? ]
    | match goal with
      | |- triple _ (match ?c with _ => _ end) _ _ => destruct c
      end
    | progress cbv zeta ].

Lemma V1_log_then_ret {A} tpl ar ev (b : A) (P : V1.GUI -> Prop) Post Exc :
  (forall g, P g -> Post b g) ->
  (forall g x, P g -> P (V1.set_logs x g)) ->
  triple P (V1.log tpl ar ev ;; ret b)%py Post Exc.
Proof.
  intros HP Hlogs. eapply triple_bind with (Mid := fun _ => P).
  - apply triple_modify. intros g Hg. now apply Hlogs.
  - intros _. apply triple_ret. exact HP.
Qed.

(** A quarter appends one snapshot, and leaves the loop exactly when that
    snapshot has an aggregate of 0. *)
Lemma V1_quarter_body_snapshot turn dist l :
  triple (fun g => V1.sim_data g = l) (V1.quarter_body turn dist)
    (fun stop g => exists d, V1.sim_data g = l ++ [d] /\ stop = V1_zero d)
    (fun _ g => V1.sim_data g = l).
Proof.
  unfold V1.quarter_body. V1_framed l.
  match goal with
  | |- triple _ (bind (modify (fun g => V1.set_sim_data (_ ++ [?d]) g)) _) _ _ =>
      set (snap := d);
      eapply triple_bind with (Mid := fun _ g => V1.sim_data g = l ++ [snap])
  end.
  { apply triple_modify. intros g Hg. cbn. now rewrite Hg. }
  intros _.
  assert (Hzero : V1_zero snap
                  = (V1.d_market_share snap =? 0)%Z
                    || (V1.d_competitor_share snap =? 0)%Z) by reflexivity.
  cbn [V1.d_market_share V1.d_competitor_share V1.snapshot snap] in Hzero.
  destruct (V1.calculate_total_assets (V1.units _) =? 0)%Z.
  - apply V1_log_then_ret; [|intros g x Hg; exact Hg].
    intros g Hg. exists snap. split; [exact Hg | now rewrite Hzero].
  - destruct (V1.calculate_total_assets (V1.competitor_units _) =? 0)%Z.
    + apply V1_log_then_ret; [|intros g x Hg; exact Hg].
      intros g Hg. exists snap. split; [exact Hg | now rewrite Hzero].
    + apply triple_ret. intros g Hg. exists snap.
      split; [exact Hg | now rewrite Hzero].
Qed.

Lemma V1_quarters_played k : forall turn dist l,
  (7 <= List.length dist)%nat ->
  triple (fun g => V1_inv false g /\ V1.sim_data g = l) (V1.quarters k turn dist)
    (fun _ g => exists added, V1.sim_data g = l ++ added /\ played V1_zero k added)
    never.
Proof.
  induction k as [|k IH]; intros turn dist l Hdist w [Hinv Hl].
  - cbn. exists []. split; [now rewrite app_nil_r | apply played_nil].
  - cbn [V1.quarters]. unfold bind.
    pose proof (V1_quarter_body turn dist Hdist w Hinv) as H1.
    pose proof (V1_quarter_body_snapshot turn dist l w Hl) as H2.
    destruct (V1.quarter_body turn dist w) as [[stop|e] w1]; [|destruct H1].
    destruct H2 as (d & Hd & Hstop). destruct stop.
    + cbn. exists [d]. split; [exact Hd | now apply played_stop].
    + specialize (IH (turn + 1)%Z dist (l ++ [d]) Hdist w1
                     (conj (V1_inv_weaken _ _ H1) Hd)).
      destruct (V1.quarters k (turn + 1) dist w1) as [[[]|e] w2]; [|destruct IH].
      destruct IH as (added & Ha & Hp). exists (d :: added). split.
      * rewrite Ha, <- app_assoc. reflexivity.
      * now apply played_cons.
Qed.

(** A run of variant 001 with a positive number of quarters returns, and its
    history is what the loop with its break has played. *)
Lemma V1_run_simulation_played n dist :
  (0 < n)%Z ->
  triple (fun _ => True) (V1.run_simulation (Ok n) dist)
    (fun _ g => played V1_zero (Z.to_nat n) (V1.sim_data g)) never.
Proof.
  intros Hn. unfold V1.run_simulation.
  eapply triple_bind with (Mid := fun _ _ => True).
  { apply triple_modify. auto. }
  intros ?.
  eapply triple_bind with (Mid := fun _ g => V1.sim_data g = []).
  { apply triple_modify. reflexivity. }
  intros ?.
  set (I0 := fun g => V1_inv false g /\ V1.sim_data g = []).
  eapply triple_bind with (Mid := fun _ => I0).
  { intros w Hw. pose proof (V1_init_state never w Hw) as H1.
    pose proof (V1_frame_init_state w) as H2.
    destruct (V1.init_state w) as [[u|e] w']; cbn [snd] in H2; [|exact H1].
    split; [exact H1 | congruence]. }
  intros ?.
  eapply triple_bind with (Mid := fun c g => I0 g /\ c = Some n).
  { unfold V1.except_ValueError.
    eapply triple_try_except with (Mid := fun _ _ => False).
    - eapply triple_bind with (Mid := fun t g => I0 g /\ t = n).
      + apply triple_of_result. intros g Hg. auto.
      + intros t. apply triple_fact. intros ->.
        destruct (Z.leb_spec n 0); [lia|].
        apply triple_ret. auto.
    - intros e w []. }
  intros c. apply triple_fact. intros ->. cbv zeta.
  eapply triple_bind; [apply V1_peek|]. intros s.
  eapply triple_bind with (Mid := fun _ => I0).
  { apply V1_log. intros g x Hg. exact Hg. }
  intros ?.
  set (J := fun g => played V1_zero (Z.to_nat n) (V1.sim_data g)).
  eapply triple_bind with (Mid := fun _ => J).
  { eapply triple_post; [|apply V1_quarters_played, parse_percentages_length].
    intros u g (added & E & Hp). unfold J. now rewrite E. }
  intros ?.
  eapply triple_bind with (Mid := fun _ => J).
  { apply V1_log. intros g x Hg. exact Hg. }
  intros ?.
  eapply triple_bind; [apply V1_peek|]. intros s'.
  eapply triple_bind with (Mid := fun _ => J).
  { apply V1_log. intros g x Hg. exact Hg. }
  intros ?.
  case_if; apply V1_log; intros g x Hg; exact Hg.
Qed.

(** *** Variant 002: one snapshot a quarter, and no break *)

Lemma V2_frame_invest_from ks : forall i gain dist,
  preserves V2.sim_data (V2.invest_from i ks gain dist).
Proof. induction ks as [|key rest IH]; intros; simpl; preserved. Qed.
#[export] Hint Resolve V2_frame_invest_from : frame.

Lemma V2_frame_competitors_act todo : forall done,
  preserves V2.sim_data (V2.competitors_act todo done).
Proof. induction todo as [|comp rest IH]; intros; simpl; preserved. Qed.
#[export] Hint Resolve V2_frame_competitors_act : frame.

Lemma V2_frame_external_event_chance :
  preserves V2.sim_data V2.external_event_chance.
Proof. preserved. Qed.

Lemma V2_frame_environment_updates quarter :
  preserves V2.sim_data (V2.environment_updates quarter).
Proof. preserved. Qed.

Lemma V2_frame_player_investment dist :
  preserves V2.sim_data (V2.player_investment dist).
Proof. preserved. Qed.

Lemma V2_frame_competitors_ai_actions :
  preserves V2.sim_data V2.competitors_ai_actions.
Proof. preserved. Qed.

Lemma V2_frame_market_competition_results :
  preserves V2.sim_data V2.market_competition_results.
Proof. preserved. Qed.

Lemma V2_frame_update_sentiments_stress_liquidity :
  preserves V2.sim_data V2.update_sentiments_stress_liquidity.
Proof. preserved. Qed.

#[export] Hint Resolve V2_frame_external_event_chance
  V2_frame_environment_updates V2_frame_player_investment
  V2_frame_competitors_ai_actions V2_frame_market_competition_results
  V2_frame_update_sentiments_stress_liquidity : frame.

Ltac V2_framed l :=
  repeat first
    [ eapply triple_bind with (Mid := fun _ g => V2.sim_data g = l);
      [ solve [apply preserves_triple; preserved] | intros ? ]
    | match goal with
      | |- triple _ (match ?c with _ => _ end) _ _ => destruct c
      end
    | progress cbv zeta ].

(** A quarter that returns has appended one snapshot; one that raises has
    appended none. *)
Lemma V2_quarter_body_snapshot quarter dist l :
  triple (fun g => V2.sim_data g = l) (V2.quarter_body quarter dist)
    (fun _ g => exists d, V2.sim_data g = l ++ [d])
    (fun _ g => V2.sim_data g = l).
Proof.
  unfold V2.quarter_body. V2_framed l.
  unfold V2.record_turn_data. V2_framed l.
  apply triple_modify. intros g Hg. cbn. rewrite Hg. eexists. reflexivity.
Qed.

(** The loop of variant 002 has no way out but an exception: when it
    returns, it has played every quarter. *)
Lemma V2_quarters_played k : forall quarter dist l,
  triple (fun g => V2.sim_data g = l) (V2.quarters k quarter dist)
    (fun _ g => exists added,
         V2.sim_data g = l ++ added /\ List.length added = k)
    (fun _ g => exists added,
         V2.sim_data g = l ++ added /\ (List.length added < k)%nat).
Proof.
  induction k as [|k IH]; intros quarter dist l w Hl.
  - cbn. exists []. split; [now rewrite app_nil_r | reflexivity].
  - cbn [V2.quarters]. unfold bind.
    pose proof (V2_quarter_body_snapshot quarter dist l w Hl) as H.
    destruct (V2.quarter_body quarter dist w) as [[[]|e] w1].
    + destruct H as (d & Hd).
      specialize (IH (quarter + 1)%Z dist (l ++ [d]) w1 Hd).
      destruct (V2.quarters k (quarter + 1) dist w1) as [[[]|e] w2];
        destruct IH as (added & Ha & Hlen); exists (d :: added);
        (split; [rewrite Ha, <- app_assoc; reflexivity | cbn; lia]).
    + exists []. split; [now rewrite app_nil_r | cbn; lia].
Qed.

Lemma V2_run_simulation_played n dist :
  (0 < n)%Z ->
  triple (fun _ => True) (V2.run_simulation (Ok n) dist)
    (fun _ g => List.length (V2.sim_data g) = Z.to_nat n)
    (fun _ g => (List.length (V2.sim_data g) < Z.to_nat n)%nat).
Proof.
  intros Hn. unfold V2.run_simulation.
  eapply triple_bind with (Mid := fun _ _ => True).
  { apply triple_modify. auto. }
  intros ?.
  set (I0 := fun g : V2.GUI => V2.sim_data g = []).
  eapply triple_bind with (Mid := fun _ => I0).
  { apply triple_modify. reflexivity. }
  intros ?.
  eapply triple_bind with (Mid := fun c g => I0 g /\ c = Some n).
  { eapply triple_try_except with (Mid := fun _ _ => False).
    - eapply triple_bind with (Mid := fun t g => I0 g /\ t = n).
      + apply triple_of_result. intros g Hg. auto.
      + intros t. apply triple_fact. intros ->.
        destruct (Z.leb_spec n 0); [lia|].
        apply triple_ret. auto.
    - intros e w []. }
  intros c. apply triple_fact. intros ->. cbv zeta.
  eapply triple_bind with (Mid := fun _ => I0).
  { apply triple_modify. intros g Hg. exact Hg. }
  intros ?.
  eapply triple_bind
    with (Mid := fun _ g => List.length (V2.sim_data g) = Z.to_nat n).
  { eapply triple_conseq; [| |apply triple_exc
                               with (2 := V2_quarters_played (Z.to_nat n) 1%Z
                                            (V2.parse_invest_dist dist) [])].
    - intros g Hg. exact Hg.
    - intros u g (added & E & Hlen). now rewrite E.
    - intros e g (added & E & Hlen). now rewrite E. }
  intros ?. apply triple_modify. intros g Hg. exact Hg.
Qed.

(** *** Variant 003: one snapshot a turn, and the break on a fresh valuation *)

Lemma V3_frame_get_stock_price t : preserves V3.sim_data (V3.get_stock_price t).
Proof. preserved. Qed.
#[export] Hint Resolve V3_frame_get_stock_price : frame.

Lemma V3_frame_sum_values l : forall acc, preserves V3.sim_data (V3.sum_values l acc).
Proof. induction l as [|a l IH]; intros; simpl; preserved. Qed.
#[export] Hint Resolve V3_frame_sum_values : frame.

Lemma V3_frame_total_value : preserves V3.sim_data V3.total_value.
Proof. preserved. Qed.
#[export] Hint Resolve V3_frame_total_value : frame.

Lemma V3_frame_shares l tv : preserves V3.sim_data (V3.shares l tv).
Proof. induction l as [|a l IH]; simpl; preserved. Qed.
#[export] Hint Resolve V3_frame_shares : frame.

Lemma V3_frame_for_assets body count :
  (forall i a, preserves V3.sim_data (body i a)) ->
  forall i, preserves V3.sim_data (V3.for_assets count i body).
Proof. intros H. induction count as [|k IH]; intros; simpl; preserved. Qed.

Lemma V3_frame_each_asset body :
  (forall i a, preserves V3.sim_data (body i a)) ->
  preserves V3.sim_data (V3.each_asset body).
Proof.
  intros H. unfold V3.each_asset. apply preserves_bind; [preserved|].
  intros s. now apply V3_frame_for_assets.
Qed.

Lemma V3_frame_trade total alloc i a :
  preserves V3.sim_data (V3.trade total alloc i a).
Proof. preserved. Qed.

Lemma V3_frame_strong_drop_on i a : preserves V3.sim_data (V3.strong_drop_on i a).
Proof. preserved. Qed.

Lemma V3_frame_surprise_rally_on i a :
  preserves V3.sim_data (V3.surprise_rally_on i a).
Proof. preserved. Qed.

Lemma V3_frame_log_asset i a : preserves V3.sim_data (V3.log_asset i a).
Proof. preserved. Qed.

#[export] Hint Resolve V3_frame_each_asset V3_frame_trade V3_frame_strong_drop_on
  V3_frame_surprise_rally_on V3_frame_log_asset : frame.

Lemma V3_frame_init_portfolio : preserves V3.sim_data V3.init_portfolio.
Proof. preserved. Qed.

Ltac V3_framed l :=
  repeat first
    [ eapply triple_bind with (Mid := fun _ g => V3.sim_data g = l);
      [ solve [apply preserves_triple; preserved] | intros ? ]
    | match goal with
      | |- triple _ (match ?c with _ => _ end) _ _ => destruct c
      end
    | progress cbv zeta ].

(** A turn that returns has appended one snapshot; one that raises has
    appended none. *)
Lemma V3_portfolio_turn_snapshot alloc l :
  triple (fun g => V3.sim_data g = l) (V3.portfolio_turn alloc)
    (fun _ g => exists d, V3.sim_data g = l ++ [d])
    (fun _ g => V3.sim_data g = l).
Proof.
  unfold V3.portfolio_turn. V3_framed l.
  apply triple_modify. intros g Hg. cbn. rewrite Hg. eexists. reflexivity.
Qed.

(** The loop of variant 003 plays at most [k] turns, whether it returns,
    breaks or raises. *)
Lemma V3_turns_loop_played k : forall alloc l,
  let post := fun g => exists added,
                  V3.sim_data g = l ++ added /\ (List.length added <= k)%nat in
  triple (fun g => V3.sim_data g = l) (V3.turns_loop k alloc)
         (fun _ => post) (fun _ => post).
Proof.
  induction k as [|k IH]; intros alloc l post w Hl; subst post.
  - cbn. exists []. split; [now rewrite app_nil_r | reflexivity].
  - cbn [V3.turns_loop]. unfold bind at 1.
    pose proof (V3_portfolio_turn_snapshot alloc l w Hl) as H.
    destruct (V3.portfolio_turn alloc w) as [[[]|e] w1].
    + destruct H as (d & Hd). unfold bind.
      pose proof (V3_frame_total_value w1) as Htv.
      destruct (V3.total_value w1) as [[tv|e] w2]; cbn [snd] in Htv.
      * rewrite <- Htv in Hd. destruct (tv <=? 0).
        -- cbn. exists [d]. split; [exact Hd | cbn; lia].
        -- specialize (IH alloc (l ++ [d]) w2 Hd). cbv zeta in IH.
           destruct (V3.turns_loop k alloc w2) as [[[]|e] w3];
             destruct IH as (added & Ha & Hlen); exists (d :: added);
             (split; [rewrite Ha, <- app_assoc; reflexivity | cbn; lia]).
      * exists [d]. split; [congruence | cbn; lia].
    + exists []. split; [now rewrite app_nil_r | cbn; lia].
Qed.

Lemma V3_run_simulation_played n alloc :
  (0 < n)%Z ->
  let post := fun g => (List.length (V3.sim_data g) <= Z.to_nat n)%nat in
  triple (fun _ => True) (V3.run_simulation (Ok n) alloc)
         (fun _ => post) (fun _ => post).
Proof.
  intros Hn post. unfold V3.run_simulation.
  eapply triple_bind with (Mid := fun _ _ => True).
  { apply triple_modify. auto. }
  intros ?.
  set (I0 := fun g : V3.GUI => V3.sim_data g = []).
  assert (HI0 : forall g, I0 g -> post g).
  { intros g Hg. unfold post. rewrite Hg. cbn. lia. }
  eapply triple_exc with (Exc := fun _ g => I0 g \/ post g); [intros e g []; auto|].
  eapply triple_bind with (Mid := fun _ => I0).
  { apply triple_modify. reflexivity. }
  intros ?.
  eapply triple_bind with (Mid := fun _ => I0).
  { eapply triple_exc; [|apply preserves_triple, V3_frame_init_portfolio].
    intros e g Hg. left. exact Hg. }
  intros ?.
  eapply triple_bind with (Mid := fun c g => I0 g /\ c = Some n).
  { eapply triple_try_except with (Mid := fun _ _ => False).
    - eapply triple_bind with (Mid := fun t g => I0 g /\ t = n).
      + apply triple_of_result. intros g Hg. auto.
      + intros t. apply triple_fact. intros ->.
        destruct (Z.ltb_spec 0 n); [|lia].
        apply triple_ret. auto.
    - intros e w []. }
  intros c. apply triple_fact. intros ->. cbv zeta.
  eapply triple_bind with (Mid := fun _ => I0).
  { apply triple_modify. intros g Hg. exact Hg. }
  intros ?.
  eapply triple_bind with (Mid := fun _ => post).
  { pose proof (V3_turns_loop_played (Z.to_nat n) (V3.parse_allocation alloc) [])
      as H. cbv zeta in H.
    eapply triple_conseq; [| |eapply triple_exc; [|exact H]].
    - intros g Hg. exact Hg.
    - intros u g (added & E & Hlen). unfold post. now rewrite E.
    - intros e g (added & E & Hlen). right. unfold post. now rewrite E. }
  intros ?. apply triple_modify. intros g Hg. exact Hg.
Qed.

(** The break of variant 003: when the valuation that follows a turn is not
    positive, the loop logs the loss and ends, however many turns remain. *)
Lemma V3_turns_loop_break k alloc w w1 w2 tv :
  V3.portfolio_turn alloc w = (Ok tt, w1) ->
  V3.total_value w1 = (Ok tv, w2) ->
  tv <= 0 ->
  let r := V3.turns_loop (S k) alloc w in
  fst r = Ok tt
  /\ V3.sim_data (gui (snd r)) = V3.sim_data (gui w1)
  /\ V3.state (gui (snd r)) = V3.state (gui w1)
  /\ V3.logs (gui (snd r)) = V3.logs (gui w1) ++ [lost].
Proof.
  intros Hturn Htv Hle. cbn [V3.turns_loop]. unfold bind.
  rewrite Hturn, Htv.
  pose proof (V3_total_value_pure (gui w1) w1 eq_refl) as Hpure.
  rewrite Htv in Hpure.
  apply fleb_true in Hle. rewrite Hle. cbn. rewrite <- Hpure.
  repeat split.
Qed.




(** ** A run and what the object held before *)

Lemma bind_step {G A B} (m : M G A) (k : A -> M G B) w a w' :
  m w = (Ok a, w') -> bind m k w = k a w'.
Proof. intros H. unfold bind. now rewrite H. Qed.

Lemma bind_congr {G A B} (m : M G A) (k : A -> M G B) w1 w2 :
  m w1 = m w2 -> bind m k w1 = bind m k w2.
Proof. intros H. unfold bind. now rewrite H. Qed.

(** [run_simulation] of variant 001 starts by clearing the log and the
    history and by drawing a new state: nothing of the object it is called
    on is read but the dialogs shown so far. *)
Lemma V1_run_simulation_fresh seed pos (g1 g2 : V1.GUI) turns dist :
  V1.dialogs g1 = V1.dialogs g2 ->
  V1.run_simulation turns dist (mkWorld seed pos g1)
  = V1.run_simulation turns dist (mkWorld seed pos g2).
Proof.
  destruct g1 as [s1 l1 d1 x1], g2 as [s2 l2 d2 x2].
  cbn [V1.dialogs V3.dialogs]. intros <-.
  unfold V1.run_simulation.
  rewrite (bind_step _ _ (mkWorld seed pos (V1.mkGUI s1 l1 d1 x1)) tt
                     (mkWorld seed pos (V1.mkGUI s1 [] d1 x1))) by reflexivity.
  rewrite (bind_step _ _ (mkWorld seed pos (V1.mkGUI s2 l2 d2 x1)) tt
                     (mkWorld seed pos (V1.mkGUI s2 [] d2 x1))) by reflexivity.
  rewrite (bind_step _ _ (mkWorld seed pos (V1.mkGUI s1 [] d1 x1)) tt
                     (mkWorld seed pos (V1.mkGUI s1 [] [] x1))) by reflexivity.
  rewrite (bind_step _ _ (mkWorld seed pos (V1.mkGUI s2 [] d2 x1)) tt
                     (mkWorld seed pos (V1.mkGUI s2 [] [] x1))) by reflexivity.
  apply bind_congr. reflexivity.
Qed.

Lemma V3_run_simulation_fresh seed pos (g1 g2 : V3.GUI) turns alloc :
  V3.dialogs g1 = V3.dialogs g2 ->
  V3.run_simulation turns alloc (mkWorld seed pos g1)
  = V3.run_simulation turns alloc (mkWorld seed pos g2).
Proof.
  destruct g1 as [s1 l1 d1 x1], g2 as [s2 l2 d2 x2].
  cbn [V1.dialogs V3.dialogs]. intros <-.
  unfold V3.run_simulation.
  rewrite (bind_step _ _ (mkWorld seed pos (V3.mkGUI s1 l1 d1 x1)) tt
                     (mkWorld seed pos (V3.mkGUI s1 [] d1 x1))) by reflexivity.
  rewrite (bind_step _ _ (mkWorld seed pos (V3.mkGUI s2 l2 d2 x1)) tt
                     (mkWorld seed pos (V3.mkGUI s2 [] d2 x1))) by reflexivity.
  rewrite (bind_step _ _ (mkWorld seed pos (V3.mkGUI s1 [] d1 x1)) tt
                     (mkWorld seed pos (V3.mkGUI s1 [] [] x1))) by reflexivity.
  rewrite (bind_step _ _ (mkWorld seed pos (V3.mkGUI s2 [] d2 x1)) tt
                     (mkWorld seed pos (V3.mkGUI s2 [] [] x1))) by reflexivity.
  apply bind_congr. reflexivity.
Qed.

(** ** Variant 005 depends on the data source through its answers only *)

Section AnswersOnly.
Variable feed : Feed.

Lemma answers_only_ret {A} (a : A) : answers_only feed (ret a).
Proof. intros w H. split; [reflexivity | exact H]. Qed.

Lemma answers_only_raise {A} (e : exn) : answers_only feed (@raise V5.GUI A e).
Proof. intros w H. split; [reflexivity | exact H]. Qed.

Lemma answers_only_of_result {A} (r : result A) : answers_only feed (of_result r).
Proof. intros w H. split; [reflexivity | exact H]. Qed.

Lemma answers_only_random : answers_only feed random.
Proof. intros w H. split; [reflexivity | exact H]. Qed.

Lemma answers_only_uniform (a b : Q) : answers_only feed (uniform a b).
Proof. intros w H. split; [reflexivity | exact H]. Qed.

Lemma answers_only_choice {A} (l : list A) (d : A) : answers_only feed (choice l d).
Proof. intros w H. split; [reflexivity | exact H]. Qed.

Lemma answers_only_modify (f : V5.GUI -> V5.GUI) :
  (forall g, f (set_feed feed g) = set_feed feed (f g)) ->
  (forall g, V5.feed (f g) = V5.feed g) ->
  answers_only feed (modify f).
Proof.
  intros Hf Hfeed w H. split.
  - unfold modify, with_feed. cbn. now rewrite Hf.
  - cbn. now rewrite Hfeed.
Qed.

Lemma answers_only_bind {A B} (m : M V5.GUI A) (k : A -> M V5.GUI B) :
  answers_only feed m -> (forall a, answers_only feed (k a)) ->
  answers_only feed (bind m k).
Proof.
  intros Hm Hk w H. unfold bind. destruct (Hm w H) as [E H']. rewrite E.
  destruct (m w) as [[a|e] w']; cbn [fst snd] in *.
  - now apply Hk.
  - split; [reflexivity | exact H'].
Qed.

(** A method that looks at the object itself depends on the answers only when
    what it does next is the same for the object behind the other source. *)
Lemma answers_only_get_bind {B} (k : V5.GUI -> M V5.GUI B) :
  (forall g, same_quotes (V5.feed g) feed -> k (set_feed feed g) = k g) ->
  (forall g, answers_only feed (k g)) ->
  answers_only feed (bind get k).
Proof.
  intros Hsame Hk w H. unfold bind, get.
  change (gui (with_feed feed w)) with (set_feed feed (gui w)).
  rewrite Hsame by exact H. now apply Hk.
Qed.

Lemma answers_only_when (b : bool) (m : M V5.GUI unit) :
  answers_only feed m -> answers_only feed (when b m).
Proof. intros H. destruct b; [exact H | apply answers_only_ret]. Qed.

Lemma answers_only_for_each {A} (l : list A) (body : A -> M V5.GUI unit) :
  (forall a, answers_only feed (body a)) -> answers_only feed (for_each l body).
Proof.
  intros H. induction l as [|a l IH]; simpl.
  - apply answers_only_ret.
  - apply answers_only_bind; [apply H | intros _; exact IH].
Qed.

Lemma answers_only_try_except {A} (m : M V5.GUI A) (h : exn -> M V5.GUI A) :
  answers_only feed m -> (forall e, answers_only feed (h e)) ->
  answers_only feed (try_except m h).
Proof.
  intros Hm Hh w H. unfold try_except. destruct (Hm w H) as [E H']. rewrite E.
  destruct (m w) as [[a|e] w']; cbn [fst snd] in *.
  - split; [reflexivity | exact H'].
  - now apply Hh.
Qed.

(** The one place where the data source is asked. *)
Lemma answers_only_get_stock_price ticker :
  answers_only feed (V5.get_stock_price ticker).
Proof.
  unfold V5.get_stock_price. apply answers_only_get_bind.
  - intros g H. cbn [V5.feed V5.calls set_feed].
    now rewrite <- (H (V5.calls g) ticker).
  - intros g. apply answers_only_bind.
    + apply answers_only_modify; reflexivity.
    + intros _. destruct (V5.feed g (V5.calls g) ticker) as [quote|].
      * apply answers_only_ret.
      * repeat (apply answers_only_bind; [apply answers_only_uniform | intros ?]).
        apply answers_only_ret.
Qed.

End AnswersOnly.

Create HintDb quotes.
#[export] Hint Resolve answers_only_get_stock_price : quotes.

(** Walks a method of variant 005 down to its reads, draws and writes. *)
Ltac quoted :=
  repeat first
    [ assumption
    | solve [auto with quotes nocore]
    | lazymatch goal with
      | |- answers_only _ (bind get _) =>
          apply answers_only_get_bind; [intros; reflexivity | intros]
      | |- answers_only _ (bind _ _) => apply answers_only_bind; [|intros]
      | |- answers_only _ (ret _) => apply answers_only_ret
      | |- answers_only _ (raise _) => apply answers_only_raise
      | |- answers_only _ (of_result _) => apply answers_only_of_result
      | |- answers_only _ random => apply answers_only_random
      | |- answers_only _ (uniform _ _) => apply answers_only_uniform
      | |- answers_only _ (choice _ _) => apply answers_only_choice
      | |- answers_only _ (modify _) => apply answers_only_modify; reflexivity
      | |- answers_only _ (when _ _) => apply answers_only_when
      | |- answers_only _ (for_each _ _) => apply answers_only_for_each; intros
      | |- answers_only _ (try_except _ _) =>
          apply answers_only_try_except; [|intros]
      | |- answers_only _ (if ?c then _ else _) => destruct c
      | |- answers_only _ (match ?c with _ => _ end) => destruct c
      | |- answers_only _ ?m =>
          first [ progress cbv zeta
                | let h := head_of m in progress unfold h ]
      end ].

Section Variant005.
Variable feed : Feed.

Lemma V5_quotes_sum_values l : forall acc,
  answers_only feed (V5.sum_values l acc).
Proof. induction l as [|a l IH]; intros; simpl; quoted. Qed.
Hint Resolve V5_quotes_sum_values : quotes.

Lemma V5_quotes_total_value : answers_only feed V5.total_value.
Proof. quoted. Qed.
Hint Resolve V5_quotes_total_value : quotes.

Lemma V5_quotes_shares l tv : answers_only feed (V5.shares l tv).
Proof. induction l as [|a l IH]; simpl; quoted. Qed.
Hint Resolve V5_quotes_shares : quotes.

Lemma V5_quotes_for_assets body count :
  (forall i a, answers_only feed (body i a)) ->
  forall i, answers_only feed (V5.for_assets count i body).
Proof. intros H. induction count as [|k IH]; intros; simpl; quoted. Qed.

Lemma V5_quotes_each_asset body :
  (forall i a, answers_only feed (body i a)) ->
  answers_only feed (V5.each_asset body).
Proof.
  intros H. unfold V5.each_asset. apply answers_only_bind; [quoted|].
  intros s. now apply V5_quotes_for_assets.
Qed.

Lemma V5_quotes_trade total alloc i a :
  answers_only feed (V5.trade total alloc i a).
Proof. quoted. Qed.

Lemma V5_quotes_strong_drop_on i a : answers_only feed (V5.strong_drop_on i a).
Proof. quoted. Qed.

Lemma V5_quotes_surprise_rally_on i a :
  answers_only feed (V5.surprise_rally_on i a).
Proof. quoted. Qed.

Lemma V5_quotes_log_asset i a : answers_only feed (V5.log_asset i a).
Proof. quoted. Qed.

Hint Resolve V5_quotes_each_asset V5_quotes_trade V5_quotes_strong_drop_on
  V5_quotes_surprise_rally_on V5_quotes_log_asset : quotes.

Lemma V5_quotes_sun_tzu_market_strategy a f v l c t :
  answers_only feed (V5.sun_tzu_market_strategy a f v l c t).
Proof. quoted. Qed.
Hint Resolve V5_quotes_sun_tzu_market_strategy : quotes.

Lemma V5_quotes_advise l turn : forall acc,
  answers_only feed (V5.advise l turn acc).
Proof. induction l as [|a l IH]; intros; simpl; quoted. Qed.
Hint Resolve V5_quotes_advise : quotes.

Lemma V5_quotes_portfolio_turn alloc : answers_only feed (V5.portfolio_turn alloc).
Proof. quoted. Qed.
Hint Resolve V5_quotes_portfolio_turn : quotes.

Lemma V5_quotes_turns_loop k alloc : answers_only feed (V5.turns_loop k alloc).
Proof. induction k as [|k IH]; simpl; quoted. Qed.
Hint Resolve V5_quotes_turns_loop : quotes.

Lemma V5_quotes_session turns alloc : answers_only feed (V5.session turns alloc).
Proof. quoted. Qed.

End Variant005.




(** ** Losses are shared out over the budgets *)

Lemma inject_Z_minus (a b : Z) : inject_Z (a - b) == inject_Z a - inject_Z b.
Proof. unfold Z.sub. rewrite inject_Z_plus, inject_Z_opp. ring. Qed.

(** What one budget loses at a ratio between 0 and 1. *)
Lemma loss_share (b : Z) (r : Q) :
  (0 <= b)%Z -> 0 <= r -> r <= 1 ->
  let lost := Py.int (Z2Q b * r) in
  (0 <= lost <= b)%Z
  /\ zmax 0 (b - lost) = (b - lost)%Z
  /\ Z2Q lost <= Z2Q b * r.
Proof.
  intros Hb Hr0 Hr1. cbv zeta.
  pose proof (Z2Q_nonneg b Hb) as HbQ.
  assert (H0 : 0 <= Z2Q b * r) by nra.
  assert (Hle : Z2Q b * r <= Z2Q b) by nra.
  rewrite (int_floor _ H0).
  pose proof (Qfloor_le (Z2Q b * r)) as Hfl.
  assert (Hlow : (0 <= Qfloor (Z2Q b * r))%Z).
  { change 0%Z with (Qfloor 0). now apply Qfloor_resp_le. }
  assert (Hup : (Qfloor (Z2Q b * r) <= b)%Z).
  { apply Z.le_trans with (Qfloor (Z2Q b)); [now apply Qfloor_resp_le|].
    unfold Z2Q. rewrite Qfloor_Z. lia. }
  split; [lia|]. split.
  - unfold zmax. destruct (Z.ltb_spec 0 (b - Qfloor (Z2Q b * r))); lia.
  - exact Hfl.
Qed.

Lemma loss_ratio_range (losses total : Z) :
  (0 <= losses)%Z -> (0 < total)%Z ->
  let r := fmin 1 (Z2Q losses / Z2Q total) in
  0 <= r /\ r <= 1 /\ r * Z2Q total <= Z2Q losses
  /\ ((total <= losses)%Z -> r == 1).
Proof.
  intros Hl Ht. cbv zeta.
  pose proof (Z2Q_nonneg losses Hl) as HlQ.
  pose proof (Z2Q_pos total Ht) as HtQ.
  assert (Hq : 0 <= Z2Q losses / Z2Q total).
  { apply Qle_shift_div_l; lra. }
  assert (Hmul : Z2Q losses / Z2Q total * Z2Q total == Z2Q losses).
  { field. lra. }
  destruct (fmin_spec 1 (Z2Q losses / Z2Q total)) as [[H E]|[H E]]; rewrite E.
  - split; [lra|]. split; [lra|]. split; [lra|].
    intros Hge. exfalso.
    assert (Z2Q total <= Z2Q losses) by (unfold Z2Q; now rewrite <- Zle_Qle).
    nra.
  - split; [lra|]. split; [lra|]. split; [nra | reflexivity].
Qed.

Lemma V1_total_is_sum (us : V1.Units) :
  V1.calculate_total_assets us
  = (V1.budget (V1.u_sales_team us) + V1.budget (V1.u_marketing us)
     + V1.budget (V1.u_rnd us) + V1.budget (V1.u_legal us)
     + V1.budget (V1.u_finance us) + V1.budget (V1.u_analytics us)
     + V1.budget (V1.u_intelligence us))%Z.
Proof.
  unfold V1.calculate_total_assets, V1.values, V1.keys.
  cbn [map V1.item]. rewrite !zsum_cons. change (zsum []) with 0%Z. lia.
Qed.

(** X6. [apply_losses] on budgets that are not negative, for a loss that is not
    negative: no budget grows and none goes below 0; the seven budgets give
    up at most the loss between them; a loss of 0 changes nothing; a loss of
    the whole total or more leaves every budget at 0; and nothing but the
    budgets is touched. *)
Theorem apply_losses_shares_the_loss (us : V1.Units) (losses : Z)
    (Hbudgets : forall k, (0 <= V1.budget (V1.item k us))%Z)
    (Hlosses : (0 <= losses)%Z) :
  let us' := V1.apply_losses us losses in
  (forall k, (0 <= V1.budget (V1.item k us') <= V1.budget (V1.item k us))%Z)
  /\ (V1.calculate_total_assets us - losses
      <= V1.calculate_total_assets us' <= V1.calculate_total_assets us)%Z
  /\ (losses = 0%Z -> us' = us)
  /\ ((V1.calculate_total_assets us <= losses)%Z ->
      forall k, V1.budget (V1.item k us') = 0%Z)
  /\ (forall k, V1.item k us'
                = V1.set_budget (V1.budget (V1.item k us')) (V1.item k us)).
Proof.
  cbv zeta. unfold V1.apply_losses. cbv zeta.
  pose proof (V1_total_is_sum us) as Htot.
  pose proof (Hbudgets V1.sales_team) as H1. pose proof (Hbudgets V1.marketing) as H2.
  pose proof (Hbudgets V1.rnd) as H3. pose proof (Hbudgets V1.legal) as H4.
  pose proof (Hbudgets V1.finance) as H5. pose proof (Hbudgets V1.analytics) as H6.
  pose proof (Hbudgets V1.intelligence) as H7.
  cbn [V1.item] in H1, H2, H3, H4, H5, H6, H7.
  destruct (Z.eqb_spec (V1.calculate_total_assets us) 0) as [E0|E0]; cbn [orb].
  { split; [intros k; specialize (Hbudgets k); lia|].
    split; [lia|]. split; [reflexivity|]. split.
    - intros _ k. specialize (Hbudgets k). destruct k; cbn [V1.item] in *; lia.
    - intros k. destruct (V1.item k us); reflexivity. }
  destruct (Z.eqb_spec losses 0) as [El|El].
  { split; [intros k; specialize (Hbudgets k); lia|].
    split; [lia|]. split; [reflexivity|]. split.
    - intros Hge. lia.
    - intros k. destruct (V1.item k us); reflexivity. }
  assert (Hpos : (0 < V1.calculate_total_assets us)%Z) by lia.
  destruct (loss_ratio_range losses _ Hlosses Hpos) as (Hr0 & Hr1 & Hrt & Hall).
  set (r := fmin 1 (Z2Q losses / Z2Q (V1.calculate_total_assets us))) in *.
  assert (Hk : forall b, (0 <= b)%Z ->
             (0 <= zmax 0 (b - Py.int (Z2Q b * r)) <= b)%Z
             /\ Z2Q b - Z2Q b * r <= Z2Q (zmax 0 (b - Py.int (Z2Q b * r)))).
  { intros b Hb. destruct (loss_share b r Hb Hr0 Hr1) as (Hl & Hz & Hq).
    cbv zeta in *. rewrite Hz. split; [lia|].
    unfold Z2Q in *. rewrite inject_Z_minus. lra. }
  split; [|split; [|split; [|split]]].
  - intros k. destruct k; cbn [V1.item V1.map_budgets V1.budget V1.set_budget];
      apply Hk; assumption.
  - rewrite (V1_total_is_sum (V1.map_budgets _ us)).
    cbn [V1.map_budgets V1.u_sales_team V1.u_marketing V1.u_rnd V1.u_legal
         V1.u_finance V1.u_analytics V1.u_intelligence V1.budget V1.set_budget].
    destruct (Hk _ H1) as [B1 Q1]. destruct (Hk _ H2) as [B2 Q2].
    destruct (Hk _ H3) as [B3 Q3]. destruct (Hk _ H4) as [B4 Q4].
    destruct (Hk _ H5) as [B5 Q5]. destruct (Hk _ H6) as [B6 Q6].
    destruct (Hk _ H7) as [B7 Q7].
    split; [|lia].
    rewrite Htot in Hrt. rewrite Htot.
    unfold Z2Q in *. rewrite Zle_Qle.
    rewrite !inject_Z_plus, inject_Z_minus, !inject_Z_plus in *.
    lra.
  - intros E. contradiction.
  - intros Hge k. specialize (Hall Hge).
    assert (Hz : forall b, (0 <= b)%Z -> zmax 0 (b - Py.int (Z2Q b * r)) = 0%Z).
    { intros b Hb. rewrite (int_Qeq (Z2Q b * r) (Z2Q b)) by (rewrite Hall; ring).
      rewrite int_Z2Q. replace (b - b)%Z with 0%Z by lia. reflexivity. }
    destruct k; cbn [V1.item V1.map_budgets V1.budget V1.set_budget];
      apply Hz; assumption.
  - intros k. destruct k; reflexivity.
Qed.

Lemma apply_losses_shares_the_loss_witness :
  (V1.calculate_total_assets V1.default_units - 710
   <= V1.calculate_total_assets (V1.apply_losses V1.default_units 710)
   <= V1.calculate_total_assets V1.default_units)%Z.
Proof.
  refine (proj1 (proj2 (apply_losses_shares_the_loss V1.default_units 710 _ _))).
  - intros k. destruct k; vm_compute; discriminate.
  - vm_compute. discriminate.
Defined.

Local Open Scope Z_scope.

Lemma zsum_repeat_zero (k : nat) : zsum (repeat 0 k) = 0.
Proof. induction k as [|k IH]; [reflexivity|]. cbn [repeat]. now rewrite zsum_cons, IH. Qed.

Lemma zsum_padded (width : nat) (l : list Z) : zsum (padded width l) = zsum l.
Proof. unfold padded. rewrite zsum_app, zsum_repeat_zero. lia. Qed.

(** Floor division loses less than one unit per entry. *)
Lemma rescaled_sum_bounds (T : Z) (l : list Z) :
  0 < T ->
  let r := map (fun x => x * 100 / T) l in
  T * zsum r <= 100 * zsum l
  /\ 100 * zsum l - Z.of_nat (List.length l) * (T - 1) <= T * zsum r.
Proof.
  intros HT. cbv zeta. induction l as [|x l [IH1 IH2]].
  - cbn. lia.
  - cbn [map List.length]. rewrite !zsum_cons.
    pose proof (Z.div_mod (x * 100) T ltac:(lia)) as E.
    pose proof (Z.mod_pos_bound (x * 100) T HT) as B.
    rewrite Nat2Z.inj_succ. nia.
Qed.

Lemma normalise_unchanged (width : nat) (l : list Z) :
  zsum l = 100 \/ zsum l <= 0 -> Parse.normalise width l = padded width l.
Proof.
  intros H. unfold Parse.normalise. cbv zeta.
  destruct (negb (zsum l =? 100) && (0 <? zsum l)) eqn:E; [|reflexivity].
  apply andb_prop in E. destruct E as [E1 E2].
  apply negb_true_iff, Z.eqb_neq in E1. apply Z.ltb_lt in E2. lia.
Qed.

Lemma normalise_rescaled (width : nat) (l : list Z) :
  0 < zsum l -> zsum l <> 100 ->
  Parse.normalise width l
  = padded width (map (fun x => x * 100 / zsum l) l).
Proof.
  intros H1 H2. unfold Parse.normalise. cbv zeta.
  destruct (negb (zsum l =? 100) && (0 <? zsum l)) eqn:E; [reflexivity|].
  apply andb_false_iff in E. destruct E as [E|E].
  - apply negb_false_iff, Z.eqb_eq in E. lia.
  - apply Z.ltb_ge in E. lia.
Qed.

Lemma parse_percentages_parsed default width dist l :
  Parse.ints_of dist = Ok l ->
  Parse.parse_percentages default width dist = Parse.normalise width l.
Proof. intros E. unfold Parse.parse_percentages. now rewrite E. Qed.

Lemma map_double_rescale (l : list Z) :
  map (fun x => x * 100 / 50) l = map (fun x => 2 * x) l.
Proof.
  apply map_ext. intros x. replace (x * 100) with (2 * x * 50) by lia.
  apply Z.div_mul. lia.
Qed.

Lemma zsum_map_double (l : list Z) : zsum (map (fun x => 2 * x) l) = 2 * zsum l.
Proof.
  induction l as [|x l IH]; [reflexivity|]. cbn [map]. rewrite !zsum_cons, IH. lia.
Qed.

(** C7 (as stated). The parser of variant 001 does not bring every positive
    total other than 100 to 100: each of the three entries of "1/1/1"
    becomes 33. *)
Lemma C7_counterexample_total_three :
  ~ rescaled_sum_is_100 [30; 20; 15; 10; 15; 5; 5] 7.
Proof.
  intros H.
  specialize (H "1/1/1"%string [1; 1; 1] eq_refl ltac:(cbn; lia) ltac:(cbn; lia)).
  vm_compute in H. discriminate.
Qed.

(** C7 (amended). For an entry whose pieces all parse, to the list [l]:
    a total of 100 (or a total that is not positive) returns [l] itself,
    padded with zeros to the width; a total of 50 returns every entry
    doubled, which sums to 100; any other positive total returns every entry
    [x] as the floor of [x * 100 / total], and the result sums to at most 100
    and to more than 100 minus the number of entries. *)
Theorem C7_parser_rescales_with_floor
    (default : list Z) (width : nat) (dist : string) (l : list Z)
    (Hparse : Parse.ints_of dist = Ok l) :
  let r := Parse.parse_percentages default width dist in
  (zsum l = 100 \/ zsum l <= 0 -> r = padded width l)
  /\ (zsum l = 50 ->
      r = padded width (map (fun x => 2 * x) l) /\ zsum r = 100)
  /\ (0 < zsum l -> zsum l <> 100 ->
      r = padded width (map (fun x => x * 100 / zsum l) l)
      /\ 100 - Z.of_nat (List.length l) < zsum r <= 100).
Proof.
  cbv zeta. rewrite (parse_percentages_parsed default width dist l Hparse).
  split; [apply normalise_unchanged|]. split.
  - intros H50. rewrite normalise_rescaled by lia. rewrite H50.
    rewrite map_double_rescale. split; [reflexivity|].
    rewrite zsum_padded, zsum_map_double. lia.
  - intros Hpos Hne. rewrite normalise_rescaled by assumption.
    split; [reflexivity|]. rewrite zsum_padded.
    destruct (rescaled_sum_bounds (zsum l) l Hpos) as [Hup Hlow].
    assert (Hn : (0 < List.length l)%nat).
    { destruct l; [cbn in Hpos; lia | cbn; lia]. }
    split; nia.
Qed.

Lemma C7_witness :
  Parse.ints_of "30/20/15/10/15/5/5" = Ok [30; 20; 15; 10; 15; 5; 5]
  /\ V1.parse_invest_dist "30/20/15/10/15/5/5" = [30; 20; 15; 10; 15; 5; 5]
  /\ Parse.ints_of "5/10/15/20" = Ok [5; 10; 15; 20]
  /\ V3.parse_allocation "5/10/15/20" = [10; 20; 30; 40; 0]
  /\ zsum (V3.parse_allocation "5/10/15/20") = 100.
Proof.
  split; [reflexivity|].
  destruct (@C7_parser_rescales_with_floor [30; 20; 15; 10; 15; 5; 5] 7
              "30/20/15/10/15/5/5" _ eq_refl) as (H100 & _ & _).
  split; [exact (H100 (or_introl eq_refl))|].
  split; [reflexivity|].
  destruct (@C7_parser_rescales_with_floor [30; 20; 10; 20; 20] 5
              "5/10/15/20" _ eq_refl) as (_ & H50 & _).
  destruct (H50 eq_refl) as [E S]. split; [exact E | exact S].
Defined.

(** C3. A negative entry passes the parsers, and then budgets and
    quantities do go below zero.  In variant 003 the allocation "-100/200"
    makes the first turn sell 251 units of a holding of 20: with every draw
    1/8 the run ends with -241 units of the first asset.  In variant 001 the
    allocation "-20000/20100" makes the first investment take 6000 from the
    sales budget of 3000, whatever the generator draws. *)
Theorem C3_negative_allocation_goes_below_zero :
  (let r := V3.run_simulation (Ok 1) "-100/200" (mkWorld eighths 0 V3.blank) in
   fst r = Ok tt
   /\ map V3.quantity (V3.assets (V3.state (gui (snd r)))) = [-241; 3; 0; 0; 0])
  /\ V3.parse_allocation "-100/200" = [-100; 200; 0; 0; 0]
  /\ V1.parse_invest_dist "-20000/20100" = [-20000; 20100; 0; 0; 0; 0; 0]
  /\ (forall w : World V1.GUI,
        let r := bind V1.init_state
                   (fun _ => V1.resource_management
                               (V1.parse_invest_dist "-20000/20100")) w in
        fst r = Ok tt
        /\ V1.budget (V1.item V1.sales_team (V1.units (V1.state (gui (snd r)))))
           = -3000).
Proof.
  split; [vm_compute; split; reflexivity|].
  split; [reflexivity|]. split; [reflexivity|].
  intros w. vm_compute. split; reflexivity.
Qed.

(** ** The allocation parser on malformed and on long input *)

Lemma int_of_string_raises_ValueError x e :
  Parse.int_of_string x = Raise e -> e = ValueError.
Proof.
  unfold Parse.int_of_string. cbv zeta.
  destruct (match Parse.strip x with [] => None | _ => _ end);
    [discriminate | now intros [= <-]].
Qed.

Lemma comprehension_raises {A B} (f : A -> result B) (l : list A) e :
  Parse.comprehension f l = Raise e -> exists a, In a l /\ f a = Raise e.
Proof.
  induction l as [|a l IH]; [discriminate|]. cbn [Parse.comprehension].
  destruct (f a) as [b|e'] eqn:Ea.
  - destruct (Parse.comprehension f l) as [bs|e'']; [discriminate|].
    intros [= <-]. destruct (IH eq_refl) as (a' & Hin & Ha').
    exists a'. split; [now right | exact Ha'].
  - intros [= <-]. exists a. split; [now left | exact Ea].
Qed.

Lemma comprehension_bad {A B} (f : A -> result B) (l : list A) a e :
  In a l -> f a = Raise e -> exists e', Parse.comprehension f l = Raise e'.
Proof.
  intros Hin Ha. induction l as [|x l IH]; [destruct Hin|].
  cbn [Parse.comprehension]. destruct Hin as [->|Hin].
  - rewrite Ha. eauto.
  - destruct (f x); [|eauto]. destruct (IH Hin) as [e' E]. rewrite E. eauto.
Qed.

Lemma comprehension_length {A B} (f : A -> result B) (l : list A) bs :
  Parse.comprehension f l = Ok bs -> List.length bs = List.length l.
Proof.
  revert bs. induction l as [|a l IH]; intros bs.
  - now intros [= <-].
  - cbn [Parse.comprehension]. destruct (f a); [|discriminate].
    destruct (Parse.comprehension f l) as [bs'|]; [|discriminate].
    intros [= <-]. cbn. now rewrite (IH bs' eq_refl).
Qed.

Lemma normalise_exact_length (width : nat) (l : list Z) :
  List.length (Parse.normalise width l) = Nat.max width (List.length l).
Proof.
  unfold Parse.normalise. cbv zeta.
  destruct (_ && _); rewrite length_app, repeat_length, ?length_map; lia.
Qed.

Lemma rescaled_entry_range (T x : Z) :
  0 < T -> 0 <= x <= T -> 0 <= x * 100 / T <= 100.
Proof.
  intros HT Hx. split.
  - apply Z.div_pos; lia.
  - apply Z.div_le_upper_bound; lia.
Qed.

Lemma zsum_nonneg_bound (l : list Z) :
  Forall (fun x => 0 <= x) l -> Forall (fun x => 0 <= x <= zsum l) l.
Proof.
  induction 1 as [|x l Hx Hl IH]; [constructor|].
  rewrite zsum_cons. constructor.
  - assert (0 <= zsum l).
    { clear IH. induction Hl as [|y l Hy Hl IH]; [cbn; lia|].
      rewrite zsum_cons. lia. }
    lia.
  - eapply Forall_impl; [|exact IH]. cbn. intros y Hy. lia.
Qed.

Lemma normalise_percentages (width : nat) (l : list Z) :
  Forall (fun x => 0 <= x) l -> 0 < zsum l ->
  Forall (fun x => 0 <= x <= 100) (Parse.normalise width l).
Proof.
  intros Hl Hpos. unfold Parse.normalise. cbv zeta.
  pose proof (zsum_nonneg_bound l Hl) as Hb.
  assert (Hpad : forall k, Forall (fun x => 0 <= x <= 100) (repeat 0 k)).
  { intros k. apply Forall_forall. intros x Hx.
    apply repeat_spec in Hx. lia. }
  destruct (negb (zsum l =? 100) && (0 <? zsum l)) eqn:E.
  - apply Forall_app. split; [|apply Hpad].
    apply Forall_map. eapply Forall_impl; [|exact Hb].
    intros x Hx. cbv beta in *. now apply rescaled_entry_range.
  - apply Forall_app. split; [|apply Hpad].
    assert (zsum l = 100).
    { apply andb_false_iff in E. destruct E as [E|E].
      - now apply negb_false_iff, Z.eqb_eq in E.
      - apply Z.ltb_ge in E. lia. }
    eapply Forall_impl; [|exact Hb]. intros x Hx. cbv beta in *. lia.
Qed.

(** X1. A text with a piece that [int] rejects is replaced by the default
    allocation as a whole: the only exception that parsing raises is
    [ValueError], and every parser of the repository then returns its own
    default list. *)
Theorem parser_falls_back_to_default (dist : string) (piece : list ascii)
    (e : exn)
    (Hpiece : In piece (Parse.split "/"%char
                          (Parse.strip (list_ascii_of_string dist))))
    (Hbad : Parse.int_of_string piece = Raise e) :
  e = ValueError
  /\ Parse.ints_of dist = Raise ValueError
  /\ V1.parse_invest_dist dist = [30; 20; 15; 10; 15; 5; 5]
  /\ V2.parse_invest_dist dist = [30; 20; 15; 10; 15; 5; 5]
  /\ V3.parse_allocation dist = [30; 20; 10; 20; 20]
  /\ V5.parse_allocation dist = [30; 20; 10; 20; 20].
Proof.
  pose proof (int_of_string_raises_ValueError _ _ Hbad) as ->.
  assert (E : Parse.ints_of dist = Raise ValueError).
  { destruct (comprehension_bad Parse.int_of_string _ piece ValueError Hpiece Hbad)
      as [e' E].
    destruct (comprehension_raises _ _ _ E) as (a & _ & Ha).
    apply int_of_string_raises_ValueError in Ha. subst e'. exact E. }
  split; [reflexivity|]. split; [exact E|].
  unfold V1.parse_invest_dist, V2.parse_invest_dist, V3.parse_allocation,
    V5.parse_allocation, Parse.parse_percentages.
  rewrite E. repeat split.
Qed.

Lemma parser_falls_back_to_default_witness :
  V1.parse_invest_dist "30/70/" = [30; 20; 15; 10; 15; 5; 5]
  /\ V3.parse_allocation "30/70/" = [30; 20; 10; 20; 20].
Proof.
  destruct (parser_falls_back_to_default "30/70/" [] ValueError)
    as (_ & _ & H1 & _ & H3 & _).
  - vm_compute. right. right. left. reflexivity.
  - reflexivity.
  - split; [exact H1 | exact H3].
Defined.

(** X2. The parser pads short lists and keeps long ones: the result has the
    fixed width, or the number of entries of the text when that is larger;
    nothing is cut off. *)
Theorem parser_result_length (default : list Z) (width : nat) (dist : string) :
  (forall l, Parse.ints_of dist = Ok l ->
     List.length (Parse.parse_percentages default width dist)
     = Nat.max width (List.length l))
  /\ (forall e, Parse.ints_of dist = Raise e ->
        List.length (Parse.parse_percentages default width dist)
        = Nat.max width (List.length default))
  /\ (width <= List.length (Parse.parse_percentages default width dist))%nat.
Proof.
  unfold Parse.parse_percentages. cbv zeta. split; [|split].
  - intros l ->. apply normalise_exact_length.
  - intros e ->. apply normalise_exact_length.
  - rewrite normalise_exact_length. lia.
Qed.

Lemma parser_result_length_witness :
  List.length (V1.parse_invest_dist "1/2/3/4/5/6/7/8/9") = 9%nat
  /\ List.length (V3.parse_allocation "50/50") = 5%nat.
Proof.
  split.
  - exact (proj1 (parser_result_length [30; 20; 15; 10; 15; 5; 5] 7
                    "1/2/3/4/5/6/7/8/9") [1; 2; 3; 4; 5; 6; 7; 8; 9] eq_refl).
  - exact (proj1 (parser_result_length [30; 20; 10; 20; 20] 5 "50/50")
             [50; 50] eq_refl).
Defined.

(** X3. Percentages stay percentages: when the entries of the text are not
    negative and not all zero, every entry of the result is between 0 and
    100. *)
Theorem parser_entries_between_0_and_100 (default : list Z) (width : nat)
    (dist : string) (l : list Z)
    (Hparse : Parse.ints_of dist = Ok l)
    (Hnonneg : Forall (fun x => 0 <= x) l)
    (Hpos : 0 < zsum l) :
  Forall (fun x => 0 <= x <= 100) (Parse.parse_percentages default width dist).
Proof.
  rewrite (parse_percentages_parsed default width dist l Hparse).
  now apply normalise_percentages.
Qed.

Lemma parser_entries_between_0_and_100_witness :
  Forall (fun x => 0 <= x <= 100) (V1.parse_invest_dist "700/200/100").
Proof.
  apply (parser_entries_between_0_and_100 _ _ "700/200/100" [700; 200; 100]).
  - reflexivity.
  - repeat constructor; lia.
  - reflexivity.
Defined.

(** ** The memory of the adaptive opponent *)

Lemma tl_app_singleton {A} (l : list A) (a : A) :
  l <> [] -> tl (l ++ [a]) = tl l ++ [a].
Proof. destruct l; [congruence | reflexivity]. Qed.

(** X4. [observe_outcome] keeps a sliding window: on a memory that is not over
    length it appends the new outcome, drops the oldest one when the memory
    was full, never leaves more than [memory_len] entries, and records the
    distribution it was given; personality and [memory_len] are untouched. *)
Theorem observe_outcome_is_a_sliding_window
    (X : Type) (win : bool) (dist : list X) (ai : AI.t X)
    (Hlen : 0 < AI.memory_len ai)
    (Hfit : AI.len ai <= AI.memory_len ai) :
  let ai' := AI.observe_outcome win dist ai in
  AI.len ai' <= AI.memory_len ai'
  /\ (AI.len ai < AI.memory_len ai ->
      AI.memory ai' = AI.memory ai ++ [AI.mkMem win dist])
  /\ (AI.len ai = AI.memory_len ai ->
      AI.memory ai' = tl (AI.memory ai) ++ [AI.mkMem win dist]
      /\ AI.len ai' = AI.memory_len ai)
  /\ last (AI.memory ai') (AI.mkMem win dist) = AI.mkMem win dist
  /\ AI.last_player_distribution ai' = dist
  /\ AI.personality ai' = AI.personality ai
  /\ AI.memory_len ai' = AI.memory_len ai.
Proof.
  cbv zeta. unfold AI.observe_outcome, AI.len in *. cbv zeta.
  cbn [AI.memory AI.memory_len AI.last_player_distribution AI.personality].
  rewrite length_app. cbn [List.length].
  destruct (AI.memory_len ai <? Z.of_nat (List.length (AI.memory ai) + 1)) eqn:E.
  - apply Z.ltb_lt in E.
    assert (Hne : AI.memory ai <> []).
    { intros E0. rewrite E0 in *. cbn in *. lia. }
    rewrite (tl_app_singleton _ _ Hne).
    assert (Htl : List.length (tl (AI.memory ai))
                  = (List.length (AI.memory ai) - 1)%nat).
    { destruct (AI.memory ai); [congruence | cbn; lia]. }
    rewrite length_app, Htl. cbn [List.length].
    split; [lia|]. split; [lia|]. split; [intros _; split; [reflexivity | lia]|].
    split; [apply last_last|]. split; [reflexivity|]. split; reflexivity.
  - apply Z.ltb_ge in E. rewrite length_app. cbn [List.length].
    split; [lia|]. split; [reflexivity|]. split; [lia|].
    split; [apply last_last|]. split; [reflexivity|]. split; reflexivity.
Qed.

Lemma observe_outcome_is_a_sliding_window_witness :
  AI.memory (AI.observe_outcome false [0.5%Q] full_of_wins)
  = tl (AI.memory full_of_wins) ++ [AI.mkMem false [0.5%Q]]
  /\ AI.len (AI.observe_outcome false [0.5%Q] full_of_wins) = 5.
Proof.
  refine (proj1 (proj2 (proj2
            (observe_outcome_is_a_sliding_window Q false [0.5%Q] full_of_wins
               _ _))) _).
  - reflexivity.
  - vm_compute. discriminate.
  - reflexivity.
Defined.


